(** * Custodial wallet backend: envelope cipher, device trust, login,
      registration, TOTP regeneration, Bitcoin adapter and platform fee.

    A shallow embedding of the backend's JavaScript sources.  The first part
    of the file holds the model, one module per source file; the second part
    holds the theorems.

    Conventions of the embedding:
    - a JavaScript [throw new Error(m)] is the constructor [Throw m] of
      [result]; a [try { .. } catch (e) { throw new Error(p + e.message) }]
      wrapper is [rethrow p];
    - [Buffer]s are lists of bytes, strings are [string]s (their UTF-8 bytes),
      and [s.length] counts the UTF-16 code units of those bytes;
    - an object field that may be [undefined] is an [option];
    - a finite JavaScript number is the rational it denotes, and the
      arithmetic of the fee and satoshi computations rounds to the nearest
      double as IEEE 754 does;
    - functions of Node's [crypto] module and of the npm libraries the code
      calls are fields of an interface class; their contracts are stated as a
      class of laws, and an executable instance of each interface is given. *)

From Stdlib Require Import List String Ascii ZArith QArith Qabs Qround Lia Bool Arith PeanoNat.
From Stdlib.Strings Require Import Byte.
From Stdlib Require Import Permutation Sorted DecimalString.
Import ListNotations.
Close Scope Q_scope.
Local Open Scope nat_scope.
Local Open Scope string_scope.
Local Open Scope list_scope.

(* ================================================================== *)
(** * Part I: the model *)
(* ================================================================== *)

(** ** JavaScript preliminaries *)

Inductive result (A : Type) : Type :=
| Ok (a : A)
| Throw (message : string).
Arguments Ok {A} a.
Arguments Throw {A} message.

Definition rethrow {A : Type} (prefix : string) (r : result A) : result A :=
  match r with
  | Ok a => Ok a
  | Throw m => Throw (prefix ++ m)
  end.

Definition bind {A B : Type} (r : result A) (k : A -> result B) : result B :=
  match r with
  | Ok a => k a
  | Throw m => Throw m
  end.

Notation "x <- r ;; k" := (bind r (fun x => k))
  (at level 61, r at next level, right associativity).

(** A string is truthy when it is not empty. *)
Definition truthy (s : string) : bool := negb (String.eqb s "").

(** A possibly undefined string is truthy when it is defined and not empty. *)
Definition truthy_opt (o : option string) : bool :=
  match o with
  | Some s => truthy s
  | None => false
  end.

(** [a === b] on possibly undefined strings. *)
Definition strict_eq (a b : option string) : bool :=
  match a, b with
  | Some x, Some y => String.eqb x y
  | None, None => true
  | _, _ => false
  end.

(** [s.length]: the number of UTF-16 code units of a string, read off its
    UTF-8 bytes.  A continuation byte adds no unit, the lead byte of a
    four-byte sequence (a code point beyond the basic plane, a surrogate
    pair) adds two, every other byte adds one. *)
Definition utf16_units (c : ascii) : nat :=
  let b := nat_of_ascii c in
  if Nat.ltb b 128 then 1
  else if Nat.ltb b 192 then 0
  else if Nat.ltb b 240 then 1
  else 2.

Fixpoint utf16_length (s : string) : nat :=
  match s with
  | EmptyString => 0
  | String c s' => utf16_units c + utf16_length s'
  end.

(** *** Numbers

    A JavaScript number is an IEEE 754 binary64 value.  A finite one is
    modelled by the rational it denotes; [NaN] is the absent value of an
    [option], and the infinities are outside the model, so the operations
    below are those of the code as long as no result reaches 2^1024.

    [round64 q] is the double nearest to [q], ties going to the even
    significand: 53 significant bits, the exponent of the last bit not below
    -1074 (the subnormal range). *)
Definition round_half_even (q : Q) : Z :=
  let f := Qfloor q in
  match Qcompare (q - inject_Z f) (1 # 2) with
  | Lt => f
  | Gt => (f + 1)%Z
  | Eq => if Z.even f then f else (f + 1)%Z
  end.

(** The exponent [e] of the last significant bit: [2^52 <= |q| / 2^e < 2^53],
    unless that falls below the subnormal exponent. *)
Definition binary64_exponent (q : Q) : Z :=
  let e0 := (Z.log2 (Z.abs (Qnum q)) - Z.log2 (Zpos (Qden q)) - 52)%Z in
  let e := if Qle_bool (Qpower 2 52) (Qabs q * Qpower 2 (- e0))
           then e0 else (e0 - 1)%Z in
  Z.max e (-1074).

Definition round64 (q : Q) : Q :=
  if Qeq_bool q 0 then 0%Q
  else
    let e := binary64_exponent q in
    Qred (inject_Z (round_half_even (q * Qpower 2 (- e))) * Qpower 2 e).

(** [a * b], [a / b] and [a - b] on doubles.  Comparisons of doubles are
    the comparisons of the rationals. *)
Definition number_mul (a b : Q) : Q := round64 (a * b).
Definition number_div (a b : Q) : Q := round64 (a / b).
Definition number_sub (a b : Q) : Q := round64 (a - b).

Definition buffer : Type := list byte.

Fixpoint buffer_eqb (a b : buffer) : bool :=
  match a, b with
  | [], [] => true
  | x :: a', y :: b' => Byte.eqb x y && buffer_eqb a' b'
  | _, _ => false
  end.

(** [buf.subarray(start, end)] and [buf.subarray(start)]. *)
Definition subarray (b : buffer) (start stop : nat) : buffer :=
  firstn (stop - start) (skipn start b).

Definition subarray_from (b : buffer) (start : nat) : buffer := skipn start b.

(** Overwrite of the byte at one index (a single-byte tampering). *)
Fixpoint set_byte (i : nat) (x : byte) (b : buffer) : buffer :=
  match b with
  | [] => []
  | y :: b' =>
      match i with
      | O => x :: b'
      | S i' => y :: set_byte i' x b'
      end
  end.

(** ** The libraries the code calls *)

(** What [jwt.verify] does: the decoded user id, or one of the errors the
    middleware tells apart by name. *)
Inductive JwtResult : Type :=
| JwtDecoded (userId : string)
| JsonWebTokenError
| TokenExpiredError
| JwtOtherError.

(** An [ethers.Wallet]. *)
Record EthersWallet : Type := {
  ew_address : string;
  ew_privateKey : string;
  ew_mnemonic : option string;
  ew_publicKey : string
}.

(** A [bitcoin.ECPair]. *)
Record ECPair : Type := {
  kp_privateKey : buffer;
  kp_publicKey : buffer;
  kp_wif : string
}.

(** The functions of Node and of the npm packages that the code calls, none
    of them part of the repository.
    - [crypto]: [pbkdf2Sync password salt iterations keylen] (digest sha512);
      [gcm_keystream key data], the counter-mode pass of AES-256-GCM under
      the key and IV that [createCipher]/[createDecipher] derive from [key]
      (the same function encrypts and decrypts); [gcm_tag key aad data], the
      authentication tag over the associated data and the ciphertext;
      [base64_encode]/[base64_decode] for [buf.toString('base64')] and
      [Buffer.from(s, 'base64')]; [hex_encode] for [buf.toString('hex')];
      [sha256] and [sha256_hex] for [createHash('sha256').update(s)] with
      [digest()] and [digest('hex')];
    - [trim]: [String.prototype.trim];
    - [bcrypt]: [bcrypt_hash plain salt] for [genSalt(12)] then [hash], where
      [salt] is the random input of [genSalt]; [bcrypt_compare plain hash];
    - [otplib]: [authenticator.generateSecret] from its random bytes,
      [authenticator.verify] of a token against a secret that may be
      [undefined], [authenticator.keyuri];
    - [qrcode.toDataURL]; [jwt.sign] and [jwt.verify] under a secret that may
      be [undefined];
    - [ethers.Wallet.createRandom] from its random bytes and
      [ethers.Wallet.fromMnemonic]; [bitcoin.ECPair.fromPrivateKey],
      [bitcoin.payments.p2pkh] and [p2wpkh] of a public key;
      [tronWeb.address.fromPrivateKey] and [tronWeb.address.toHex];
      [ethers.utils.isAddress];
    - [hex_decode] for [Buffer.from(s, 'hex')], [String.prototype.toLowerCase],
      [parseFloat] of a value that may be [undefined] ([None] is [NaN]) and
      [regexp_test source s] for [/source/.test(s)]. *)
Class Library : Type := {
  pbkdf2Sync : string -> buffer -> N -> nat -> buffer;
  gcm_keystream : buffer -> buffer -> buffer;
  gcm_tag : buffer -> buffer -> buffer -> buffer;
  base64_encode : buffer -> string;
  base64_decode : string -> buffer;
  hex_encode : buffer -> string;
  sha256 : string -> buffer;
  sha256_hex : string -> string;
  trim : string -> string;
  bcrypt_hash : string -> buffer -> string;
  bcrypt_compare : string -> string -> bool;
  authenticator_generateSecret : buffer -> string;
  authenticator_verify : string -> option string -> result bool;
  authenticator_keyuri : string -> string -> string -> string;
  qrcode_toDataURL : string -> string;
  jwt_sign : string -> option string -> string;
  jwt_verify : string -> option string -> JwtResult;
  ethers_createRandom : buffer -> result EthersWallet;
  ethers_fromMnemonic : string -> result EthersWallet;
  ECPair_fromPrivateKey : buffer -> result ECPair;
  payments_p2pkh : buffer -> string;
  payments_p2wpkh : buffer -> string;
  tron_fromPrivateKey : string -> string;
  tron_toHex : string -> string;
  hex_decode : string -> buffer;
  toLowerCase : string -> string;
  parseFloat : option string -> option Q;
  ethers_isAddress : string -> bool;
  regexp_test : string -> string -> bool
}.

(** The contract of the cipher: counter mode is an involution that keeps the
    length, the tag has 16 bytes, base64 decoding inverts encoding and the
    encoding is never shorter than the data. *)
Class CipherLaws (L : Library) : Prop := {
  gcm_keystream_involutive : forall key data,
    gcm_keystream key (gcm_keystream key data) = data;
  gcm_keystream_length : forall key data,
    List.length (gcm_keystream key data) = List.length data;
  gcm_tag_length : forall key aad data,
    List.length (gcm_tag key aad data) = 16;
  base64_decode_encode : forall b, base64_decode (base64_encode b) = b;
  base64_encode_length : forall b,
    List.length b <= String.length (base64_encode b)
}.

(** The authenticity contract of GCM for one modified byte: GHASH is a
    polynomial over GF(2^128) in the hash subkey, so two ciphertexts of equal
    length that differ in one byte have different tags (for a non-zero
    subkey). *)
Class GcmTagDetectsByte (L : Library) : Prop := {
  gcm_tag_set_byte : forall key aad data i x,
    i < List.length data -> nth i data x00 <> x ->
    gcm_tag key aad (set_byte i x data) <> gcm_tag key aad data
}.

(** The key libraries return addresses, which are not empty. *)
Class KeygenLaws (L : Library) : Prop := {
  ethers_createRandom_address : forall rnd w,
    ethers_createRandom rnd = Ok w -> ew_address w <> "";
  payments_p2wpkh_address : forall pub, payments_p2wpkh pub <> "";
  tron_fromPrivateKey_address : forall key, tron_fromPrivateKey key <> ""
}.

(** [authenticator.verify] accepts no token against an [undefined] secret
    (decoding the secret throws). *)
Class OtplibLaws (L : Library) : Prop := {
  authenticator_verify_undefined : forall token,
    authenticator_verify token None <> Ok true
}.

(** The bytes [crypto.randomBytes] hands to one call of [encrypt]. *)
Record entropy : Type := {
  rnd_salt : buffer;
  rnd_iv : buffer
}.

(** ** utils/encrypt.js *)

Module Encrypt.

Definition ALGORITHM : string := "aes-256-gcm".
Definition KEY_LENGTH : nat := 32.
Definition IV_LENGTH : nat := 16.
Definition SALT_LENGTH : nat := 64.
Definition AUTH_TAG_LENGTH : nat := 16.

(** [crypto.randomBytes(SALT_LENGTH)] and [crypto.randomBytes(IV_LENGTH)]
    return buffers of the requested lengths. *)
Definition entropy_ok (e : entropy) : Prop :=
  List.length (rnd_salt e) = SALT_LENGTH /\
  List.length (rnd_iv e) = IV_LENGTH.

(** [Buffer.from('crypto-wallet', 'utf8')] *)
Definition AAD : buffer := list_byte_of_string "crypto-wallet".

(** [!encryptionKey || encryptionKey.length < 32] *)
Definition key_invalid (encryptionKey : option string) : bool :=
  match encryptionKey with
  | None => true
  | Some k => negb (truthy k) || Nat.ltb (utf16_length k) 32
  end.

Definition key_string (encryptionKey : option string) : string :=
  match encryptionKey with
  | Some k => k
  | None => ""
  end.

Section WithLibrary.
Context {L : Library}.

Definition deriveKey (encryptionKey : option string) (salt : buffer) : buffer :=
  pbkdf2Sync (key_string encryptionKey) salt 100000%N KEY_LENGTH.

(** [createCipher(ALGORITHM, key)], [setAAD], [update], [final],
    [getAuthTag]: the ciphertext and its tag. *)
Definition cipher_run (key aad plaintext : buffer) : buffer * buffer :=
  let encrypted := gcm_keystream key plaintext in
  (encrypted, gcm_tag key aad encrypted).

(** The tag lengths [setAuthTag] accepts in GCM mode when the decipher was
    created without an [authTagLength]: those of NIST SP 800-38D. *)
Definition tag_length_valid (n : nat) : bool :=
  existsb (Nat.eqb n) [4; 8; 12; 13; 14; 15; 16].

(** [createDecipher(ALGORITHM, key)], [setAuthTag], [setAAD], [update],
    [final]: [setAuthTag] throws on a tag of another length, and [final]
    throws when the tag is not the leading bytes of the tag of the data. *)
Definition decipher_run (key aad authTag encrypted : buffer) : result buffer :=
  let n := List.length authTag in
  if negb (tag_length_valid n)
  then Throw ("Invalid authentication tag length: "
              ++ NilZero.string_of_uint (Nat.to_uint n))
  else if buffer_eqb (firstn n (gcm_tag key aad encrypted)) authTag
  then Ok (gcm_keystream key encrypted)
  else Throw "Unsupported state or unable to authenticate data".

Definition encrypt (encryptionKey : option string) (text : string)
  (e : entropy) : result string :=
  rethrow "Encryption failed: "
    (if negb (truthy text) then Throw "Text to encrypt cannot be empty"
     else if key_invalid encryptionKey
     then Throw "Invalid encryption key. Must be at least 32 characters."
     else
       let salt := rnd_salt e in
       let iv := rnd_iv e in
       let key := deriveKey encryptionKey salt in
       let (encrypted, authTag) :=
         cipher_run key AAD (list_byte_of_string text) in
       let combined := salt ++ iv ++ authTag ++ encrypted in
       Ok (base64_encode combined)).

Definition decrypt (encryptionKey : option string) (encryptedData : string)
  : result string :=
  rethrow "Decryption failed: "
    (if negb (truthy encryptedData) then Throw "Encrypted data cannot be empty"
     else if key_invalid encryptionKey
     then Throw "Invalid encryption key. Must be at least 32 characters."
     else
       let combined := base64_decode encryptedData in
       let salt := subarray combined 0 SALT_LENGTH in
       let iv := subarray combined SALT_LENGTH (SALT_LENGTH + IV_LENGTH) in
       let authTag :=
         subarray combined (SALT_LENGTH + IV_LENGTH)
           (SALT_LENGTH + IV_LENGTH + AUTH_TAG_LENGTH) in
       let encrypted :=
         subarray_from combined (SALT_LENGTH + IV_LENGTH + AUTH_TAG_LENGTH) in
       let key := deriveKey encryptionKey salt in
       decrypted <- decipher_run key AAD authTag encrypted ;;
       Ok (string_of_list_byte decrypted)).

(** The wire format: a base64 string whose bytes are
    salt (64) || iv (16) || authTag (16) || ciphertext. *)
Definition blob_shaped (blob : string) : Prop :=
  SALT_LENGTH + IV_LENGTH + AUTH_TAG_LENGTH
    <= List.length (base64_decode blob)
  /\ base64_encode (base64_decode blob) = blob.

(** The bytes [encrypt] encodes for a text under given random bytes. *)
Definition sealed (key : option string) (text : string) (e : entropy) : buffer :=
  let k := deriveKey key (rnd_salt e) in
  let ct := gcm_keystream k (list_byte_of_string text) in
  rnd_salt e ++ rnd_iv e ++ gcm_tag k AAD ct ++ ct.

End WithLibrary.

End Encrypt.

(** ** utils/verifyDevice.js *)

(** A device descriptor as the request body carries it.  The database schema
    keeps the first five fields (see [User.cast_device]). *)
Record DeviceInfo : Type := {
  deviceId : option string;
  platform : option string;
  model : option string;
  version : option string;
  fingerprint : option string;
  userAgent : option string;
  screenResolution : option string;
  timezone : option string;
  language : option string
}.

(** [x || ''] *)
Definition or_empty (o : option string) : string :=
  match o with
  | Some s => s
  | None => ""
  end.

Inductive RiskLevel : Type := low | medium | high.

(** The result of [analyzeDeviceChange]; [riskLevel] is absent on the early
    return. *)
Record Analysis : Type := {
  isSuspicious : bool;
  reasons : list string;
  riskLevel : option RiskLevel
}.

Record Validation : Type := {
  isValid : bool;
  errors : list string
}.

Module VerifyDevice.

Section WithLibrary.
Context {L : Library}.

Definition verifyDevice (storedDeviceInfo providedDeviceInfo : option DeviceInfo)
  : bool :=
  match storedDeviceInfo, providedDeviceInfo with
  | Some stored, Some provided =>
      let deviceIdMatch := strict_eq (deviceId stored) (deviceId provided) in
      let fingerprintMatch :=
        strict_eq (fingerprint stored) (fingerprint provided) in
      deviceIdMatch && fingerprintMatch
  | _, _ => false
  end.

Definition generateDeviceFingerprint (deviceInfo : DeviceInfo) : string :=
  let deviceString :=
    String.concat "|"
      [ or_empty (platform deviceInfo);
        or_empty (model deviceInfo);
        or_empty (version deviceInfo);
        or_empty (deviceId deviceInfo);
        or_empty (userAgent deviceInfo);
        or_empty (screenResolution deviceInfo);
        or_empty (timezone deviceInfo);
        or_empty (language deviceInfo) ] in
  sha256_hex deviceString.

(** [validateDeviceInfo] on a descriptor of the type [DeviceInfo], whose
    fields are strings or absent: there each [typeof x !== 'string'] test is
    false on a truthy [x], so the first and third tests are truthiness tests
    and the fingerprint test never fires.  [RawDevice.validateDeviceInfo]
    below is the function on arbitrary field values, and
    [RawDevice.of_DeviceInfo] relates the two. *)
Definition validateDeviceInfo (deviceInfo : option DeviceInfo) : Validation :=
  match deviceInfo with
  | None => {| isValid := false; errors := ["Device info is required"] |}
  | Some d =>
      let errors :=
        (if negb (truthy_opt (deviceId d))
         then ["Device ID is required and must be a string"] else [])
        ++ (if truthy_opt (deviceId d)
               && Nat.ltb (utf16_length (or_empty (deviceId d))) 10
            then ["Device ID must be at least 10 characters long"] else [])
        ++ (if negb (truthy_opt (platform d))
            then ["Platform is required and must be a string"] else []) in
      {| isValid := Nat.eqb (List.length errors) 0; errors := errors |}
  end.

Definition normalizeDeviceInfo (deviceInfo : DeviceInfo) : DeviceInfo :=
  let fp :=
    if negb (truthy_opt (fingerprint deviceInfo))
    then Some (generateDeviceFingerprint deviceInfo)
    else fingerprint deviceInfo in
  {| deviceId := option_map trim (deviceId deviceInfo);
     platform := option_map trim (platform deviceInfo);
     model := option_map trim (model deviceInfo);
     version := option_map trim (version deviceInfo);
     fingerprint := option_map trim fp;
     userAgent := option_map trim (userAgent deviceInfo);
     screenResolution := option_map trim (screenResolution deviceInfo);
     timezone := option_map trim (timezone deviceInfo);
     language := option_map trim (language deviceInfo) |}.

Definition analyzeDeviceChange (oldDeviceInfo newDeviceInfo : option DeviceInfo)
  : Analysis :=
  match oldDeviceInfo, newDeviceInfo with
  | Some old, Some new =>
      let suspiciousReasons :=
        (if negb (strict_eq (deviceId old) (deviceId new))
         then ["Device ID changed completely"] else [])
        ++ (if negb (strict_eq (platform old) (platform new))
            then ["Platform changed"] else [])
        ++ (if truthy_opt (model old) && truthy_opt (model new)
               && negb (strict_eq (model old) (model new))
            then ["Device model changed"] else [])
        ++ (if negb (strict_eq (fingerprint old) (fingerprint new))
            then ["Device fingerprint changed"] else []) in
      {| isSuspicious := Nat.ltb 0 (List.length suspiciousReasons);
         reasons := suspiciousReasons;
         riskLevel :=
           Some (if Nat.leb 2 (List.length suspiciousReasons) then high
                 else if Nat.eqb (List.length suspiciousReasons) 1 then medium
                 else low) |}
  | _, _ => {| isSuspicious := false; reasons := []; riskLevel := None |}
  end.

(** The number of reasons as the specification words it: one for each of
    the four fields that differs. *)
Definition spec_reason_count (old new : DeviceInfo) : nat :=
  (if strict_eq (deviceId old) (deviceId new) then 0 else 1)
  + (if strict_eq (platform old) (platform new) then 0 else 1)
  + (if strict_eq (model old) (model new) then 0 else 1)
  + (if strict_eq (fingerprint old) (fingerprint new) then 0 else 1).

End WithLibrary.

End VerifyDevice.

(** ** utils/verifyDevice.js: [validateDeviceInfo] on arbitrary values

    A request body is JSON, so a field of a descriptor need not be a string.
    [validateDeviceInfo] observes three things of a field value: whether it
    is a string, whether it is truthy, and, of a truthy [deviceId], whether
    [value.length < 10] holds.  A value is therefore a string, a falsy value
    that is not a string ([undefined] for an absent field, [null], [false],
    [0]), or another truthy value, given with the outcome of the length test
    (the element count of an array, the [length] property of an object,
    [undefined < 10] and so false for a number or [true]). *)
Inductive RawField : Type :=
| Text (s : string)
| Falsy
| Truthy (short : bool).

(** The three fields [validateDeviceInfo] reads.  A truthy [deviceInfo]
    that is no object has none of them: all three are [Falsy]. *)
Record RawDeviceInfo : Type := {
  raw_deviceId : RawField;
  raw_platform : RawField;
  raw_fingerprint : RawField
}.

Module RawDevice.

Definition is_truthy (v : RawField) : bool :=
  match v with
  | Text s => truthy s
  | Falsy => false
  | Truthy _ => true
  end.

(** [typeof v === 'string'] *)
Definition is_string (v : RawField) : bool :=
  match v with
  | Text _ => true
  | _ => false
  end.

(** [v.length < 10], evaluated on truthy values only. *)
Definition length_below_10 (v : RawField) : bool :=
  match v with
  | Text s => Nat.ltb (utf16_length s) 10
  | Falsy => false
  | Truthy short => short
  end.

Definition validateDeviceInfo (deviceInfo : option RawDeviceInfo) : Validation :=
  match deviceInfo with
  | None => {| isValid := false; errors := ["Device info is required"] |}
  | Some d =>
      let errors :=
        (if negb (is_truthy (raw_deviceId d))
            || negb (is_string (raw_deviceId d))
         then ["Device ID is required and must be a string"] else [])
        ++ (if is_truthy (raw_deviceId d) && length_below_10 (raw_deviceId d)
            then ["Device ID must be at least 10 characters long"] else [])
        ++ (if negb (is_truthy (raw_platform d))
               || negb (is_string (raw_platform d))
            then ["Platform is required and must be a string"] else [])
        ++ (if is_truthy (raw_fingerprint d)
               && negb (is_string (raw_fingerprint d))
            then ["Fingerprint must be a string if provided"] else []) in
      {| isValid := Nat.eqb (List.length errors) 0; errors := errors |}
  end.

(** A descriptor whose fields are strings or absent, as a raw one. *)
Definition of_field (o : option string) : RawField :=
  match o with
  | Some s => Text s
  | None => Falsy
  end.

Definition of_DeviceInfo (d : DeviceInfo) : RawDeviceInfo :=
  {| raw_deviceId := of_field (deviceId d);
     raw_platform := of_field (platform d);
     raw_fingerprint := of_field (fingerprint d) |}.

End RawDevice.

(** ** config/keys.js and the environment *)

Record Config : Type := {
  jwtSecret : option string;
  encryptionKey : option string;
  PLATFORM_FEE_PERCENTAGE : option string
}.

(** ** HTTP responses

    [res.status(s).json({ success, message, ... })]; a field the handler does
    not set is absent.  JavaScript numbers are modelled by rationals. *)
Record Response (D : Type) : Type := {
  status : nat;
  success : bool;
  message : string;
  res_errors : list string;
  res_code : option string;
  res_reason : option string;
  res_analysis : option (option RiskLevel * list string);
  res_required : option Q;
  res_available : option Q;
  data : option D
}.
Arguments status {D} r.
Arguments success {D} r.
Arguments message {D} r.
Arguments res_errors {D} r.
Arguments res_code {D} r.
Arguments res_reason {D} r.
Arguments res_analysis {D} r.
Arguments res_required {D} r.
Arguments res_available {D} r.
Arguments data {D} r.

Definition failure {D : Type} (st : nat) (msg : string) : Response D :=
  {| status := st; success := false; message := msg; res_errors := [];
     res_code := None; res_reason := None; res_analysis := None;
     res_required := None; res_available := None; data := None |}.

Definition with_errors {D : Type} (r : Response D) (es : list string)
  : Response D :=
  {| status := status r; success := success r; message := message r;
     res_errors := es; res_code := res_code r; res_reason := res_reason r;
     res_analysis := res_analysis r; res_required := res_required r;
     res_available := res_available r; data := data r |}.

Definition with_reason {D : Type} (r : Response D) (why : option string)
  : Response D :=
  {| status := status r; success := success r; message := message r;
     res_errors := res_errors r; res_code := res_code r; res_reason := why;
     res_analysis := res_analysis r; res_required := res_required r;
     res_available := res_available r; data := data r |}.

Definition succeed {D : Type} (st : nat) (msg : string) (d : D) : Response D :=
  {| status := st; success := true; message := msg; res_errors := [];
     res_code := None; res_reason := None; res_analysis := None;
     res_required := None; res_available := None; data := Some d |}.

(** ** models/User.js *)

Record WalletRecord : Type := {
  address : option string;
  encryptedPrivateKey : option string;
  encryptedSeed : option string
}.

Record Wallets : Type := {
  ethereum : WalletRecord;
  bitcoin : WalletRecord;
  tron : WalletRecord
}.

(** A stored document of the [User] collection.  The three credential
    fields are [required] by the schema, so a stored document has them.
    Of the two paths the [timestamps] option of the schema maintains, the
    record has [createdAt]; [updatedAt], which Mongoose rewrites when a
    modified document is saved and which no code of the backend reads, is not
    a field of the record, and no statement below speaks of it. *)
Record User : Type := {
  _id : string;
  username : string;
  securityCodeHash : string;
  hashKeyHash : string;
  deviceInfo : DeviceInfo;
  newDeviceFound : bool;
  pendingDeviceInfo : option DeviceInfo;
  twoFactorSecret : string;
  twoFactorEnabled : bool;
  wallets : Wallets;
  platformFeeBalance : Q;
  isActive : bool;
  isLocked : bool;
  lockReason : option string;
  lastLogin : option Z;
  lastTwoFactorVerification : option Z;
  createdAt : Z
}.

(** A query may exclude paths: [select('-securityCodeHash -hashKeyHash
    -twoFactorSecret')] returns a document on which the three paths are
    [undefined]. *)
Inductive Selection : Type := AllPaths | WithoutCredentials.

Record Document : Type := {
  selection : Selection;
  fields : User
}.

Module UserModel.

Section WithLibrary.
Context {L : Library}.

(** The schema keeps the five declared paths of a device descriptor. *)
Definition cast_device (d : DeviceInfo) : DeviceInfo :=
  {| deviceId := deviceId d; platform := platform d; model := model d;
     version := version d; fingerprint := fingerprint d;
     userAgent := None; screenResolution := None; timezone := None;
     language := None |}.

(** The [pre('save')] hook on a new document: a value that does not start
    with the bcrypt marker is hashed under a fresh salt. *)
Definition presave_hash (value : string) (salt : buffer) : string :=
  if String.prefix "$2b$" value then value else bcrypt_hash value salt.

Definition verifySecurityCode (this : User) (securityCode : string) : bool :=
  bcrypt_compare securityCode (securityCodeHash this).

Definition verifyHashKey (this : User) (hashKey : string) : bool :=
  bcrypt_compare hashKey (hashKeyHash this).

Definition verifyDevice (this : User) (d : DeviceInfo) : bool :=
  strict_eq (deviceId (deviceInfo this)) (deviceId d)
  && strict_eq (fingerprint (deviceInfo this)) (fingerprint d).

(** The document a query returns, and what reading the 2FA secret of a
    document gives. *)
Definition doc_twoFactorSecret (d : Document) : option string :=
  match selection d with
  | AllPaths => Some (twoFactorSecret (fields d))
  | WithoutCredentials => None
  end.

(** [User.find({ isActive: true })], [User.findOne({ username })],
    [User.findById(id)]. *)
Definition find_active (store : list User) : list User :=
  filter isActive store.

Definition findOne_username (store : list User) (name : string)
  : option User :=
  find (fun u => String.eqb (username u) name) store.

Definition findById (store : list User) (id : string) : option User :=
  find (fun u => String.eqb (_id u) id) store.

(** [save] of a loaded document writes the modified document back over the
    stored one with the same [_id]. *)
Definition save (u : User) (store : list User) : list User :=
  map (fun x => if String.eqb (_id x) (_id u) then u else x) store.

(** The validators of the schema that can reject a new document:
    [username] is trimmed and has 3 to 50 characters, [deviceInfo.deviceId]
    and the three credentials are required. *)
Definition validates (u : User) : bool :=
  Nat.leb 3 (utf16_length (username u))
  && Nat.leb (utf16_length (username u)) 50
  && truthy_opt (deviceId (deviceInfo u))
  && truthy (securityCodeHash u) && truthy (hashKeyHash u)
  && truthy (twoFactorSecret u).

End WithLibrary.

End UserModel.

(** ** utils/generateWallets.js *)

(** What [generateEthereumWallet], [generateBitcoinWallet] and
    [generateTronWallet] return. *)
Record EthereumWallet : Type := {
  eth_address : string;
  eth_privateKey : string;
  eth_mnemonic : option string;
  eth_publicKey : string
}.

Record BitcoinWallet : Type := {
  btc_address : string;
  btc_legacyAddress : string;
  btc_privateKey : string;
  btc_publicKey : string;
  btc_wif : string
}.

Record TronWallet : Type := {
  tron_address : string;
  tron_hexAddress : string;
  tron_privateKey : string;
  tron_base58Address : string
}.

(** The [wallets] object [generateAllWallets] builds. *)
Record GeneratedEthereum : Type := {
  ge_address : string;
  ge_encryptedPrivateKey : string;
  ge_encryptedSeed : string;
  ge_publicKey : string
}.

Record GeneratedBitcoin : Type := {
  gb_address : string;
  gb_legacyAddress : string;
  gb_encryptedPrivateKey : string;
  gb_encryptedSeed : string;
  gb_publicKey : string;
  gb_wif : string
}.

Record GeneratedTron : Type := {
  gt_address : string;
  gt_hexAddress : string;
  gt_encryptedPrivateKey : string;
  gt_encryptedSeed : string
}.

Record GeneratedWallets : Type := {
  gw_ethereum : GeneratedEthereum;
  gw_bitcoin : GeneratedBitcoin;
  gw_tron : GeneratedTron
}.

Record AllWallets : Type := {
  aw_wallets : GeneratedWallets;
  aw_masterSeed : string
}.

(** The random bytes one call of [generateAllWallets] draws, in the order of
    the calls: the master seed, the Ethereum wallet, and one salt and IV for
    each of the six [encrypt] calls. *)
Record WalletEntropy : Type := {
  rnd_seed : buffer;
  rnd_eth : buffer;
  rnd_enc_eth_key : entropy;
  rnd_enc_eth_seed : entropy;
  rnd_enc_btc_key : entropy;
  rnd_enc_btc_seed : entropy;
  rnd_enc_tron_key : entropy;
  rnd_enc_tron_seed : entropy
}.

Module GenerateWallets.

Section WithLibrary.
Context {L : Library}.

Definition generateEthereumWallet (mnemonic : option string) (rnd : buffer)
  : result EthereumWallet :=
  rethrow "Failed to generate Ethereum wallet: "
    (wallet <- (if truthy_opt mnemonic
                then ethers_fromMnemonic (or_empty mnemonic)
                else ethers_createRandom rnd) ;;
     Ok {| eth_address := ew_address wallet;
           eth_privateKey := ew_privateKey wallet;
           eth_mnemonic :=
             if truthy_opt (ew_mnemonic wallet) then ew_mnemonic wallet
             else mnemonic;
           eth_publicKey := ew_publicKey wallet |}).

Definition generateBitcoinWallet (seed : option string) (rnd : buffer)
  : result BitcoinWallet :=
  rethrow "Failed to generate Bitcoin wallet: "
    (let privateKeyBuffer :=
       if truthy_opt seed then sha256 (or_empty seed) else rnd in
     keyPair <- ECPair_fromPrivateKey privateKeyBuffer ;;
     let address := payments_p2pkh (kp_publicKey keyPair) in
     let bech32Address := payments_p2wpkh (kp_publicKey keyPair) in
     Ok {| btc_address := bech32Address;
           btc_legacyAddress := address;
           btc_privateKey := hex_encode (kp_privateKey keyPair);
           btc_publicKey := hex_encode (kp_publicKey keyPair);
           btc_wif := kp_wif keyPair |}).

Definition generateTronWallet (seed : option string) (rnd : buffer)
  : result TronWallet :=
  rethrow "Failed to generate Tron wallet: "
    (let privateKey :=
       if truthy_opt seed then sha256_hex (or_empty seed)
       else hex_encode rnd in
     let address := tron_fromPrivateKey privateKey in
     let hexAddress := tron_toHex address in
     Ok {| tron_address := address;
           tron_hexAddress := hexAddress;
           tron_privateKey := privateKey;
           tron_base58Address := address |}).

Definition generateAllWallets (cfg : Config) (masterSeed : option string)
  (rnd : WalletEntropy) : result AllWallets :=
  rethrow "Failed to generate wallets: "
    (let seed :=
       if truthy_opt masterSeed then or_empty masterSeed
       else hex_encode (rnd_seed rnd) in
     ethWallet <- generateEthereumWallet None (rnd_eth rnd) ;;
     btcWallet <- generateBitcoinWallet (Some (seed ++ "_btc")%string) [] ;;
     tronWallet <- generateTronWallet (Some (seed ++ "_tron")%string) [] ;;
     let key := encryptionKey cfg in
     ethKey <- Encrypt.encrypt key (eth_privateKey ethWallet)
                 (rnd_enc_eth_key rnd) ;;
     ethSeed <- Encrypt.encrypt key (or_empty (eth_mnemonic ethWallet))
                  (rnd_enc_eth_seed rnd) ;;
     btcKey <- Encrypt.encrypt key (btc_privateKey btcWallet)
                 (rnd_enc_btc_key rnd) ;;
     btcSeed <- Encrypt.encrypt key (seed ++ "_btc")%string
                  (rnd_enc_btc_seed rnd) ;;
     tronKey <- Encrypt.encrypt key (tron_privateKey tronWallet)
                  (rnd_enc_tron_key rnd) ;;
     tronSeed <- Encrypt.encrypt key (seed ++ "_tron")%string
                   (rnd_enc_tron_seed rnd) ;;
     let wallets :=
       {| gw_ethereum :=
            {| ge_address := eth_address ethWallet;
               ge_encryptedPrivateKey := ethKey;
               ge_encryptedSeed := ethSeed;
               ge_publicKey := eth_publicKey ethWallet |};
          gw_bitcoin :=
            {| gb_address := btc_address btcWallet;
               gb_legacyAddress := btc_legacyAddress btcWallet;
               gb_encryptedPrivateKey := btcKey;
               gb_encryptedSeed := btcSeed;
               gb_publicKey := btc_publicKey btcWallet;
               gb_wif := btc_wif btcWallet |};
          gw_tron :=
            {| gt_address := tron_address tronWallet;
               gt_hexAddress := tron_hexAddress tronWallet;
               gt_encryptedPrivateKey := tronKey;
               gt_encryptedSeed := tronSeed |} |} in
     Ok {| aw_wallets := wallets; aw_masterSeed := seed |}).

(** The schema of [wallets] declares [address], [encryptedPrivateKey] and
    [encryptedSeed] for each chain; under Mongoose's (default) strict mode
    the constructor drops every other key of the object it is given. *)
Definition cast_wallets (w : GeneratedWallets) : Wallets :=
  {| ethereum :=
       {| address := Some (ge_address (gw_ethereum w));
          encryptedPrivateKey := Some (ge_encryptedPrivateKey (gw_ethereum w));
          encryptedSeed := Some (ge_encryptedSeed (gw_ethereum w)) |};
     bitcoin :=
       {| address := Some (gb_address (gw_bitcoin w));
          encryptedPrivateKey := Some (gb_encryptedPrivateKey (gw_bitcoin w));
          encryptedSeed := Some (gb_encryptedSeed (gw_bitcoin w)) |};
     tron :=
       {| address := Some (gt_address (gw_tron w));
          encryptedPrivateKey := Some (gt_encryptedPrivateKey (gw_tron w));
          encryptedSeed := Some (gt_encryptedSeed (gw_tron w)) |} |}.

(** Each of the six [encrypt] calls gets a salt and an IV of the requested
    lengths. *)
Definition wallet_entropy_ok (rnd : WalletEntropy) : Prop :=
  Encrypt.entropy_ok (rnd_enc_eth_key rnd)
  /\ Encrypt.entropy_ok (rnd_enc_eth_seed rnd)
  /\ Encrypt.entropy_ok (rnd_enc_btc_key rnd)
  /\ Encrypt.entropy_ok (rnd_enc_btc_seed rnd)
  /\ Encrypt.entropy_ok (rnd_enc_tron_key rnd)
  /\ Encrypt.entropy_ok (rnd_enc_tron_seed rnd).

(** [blob] is an envelope of [secret]: it has the wire format, decrypts to
    [secret], and is not [secret] itself. *)
Definition envelope_of (cfg : Config) (blob secret : string) : Prop :=
  Encrypt.blob_shaped blob
  /\ Encrypt.decrypt (encryptionKey cfg) blob = Ok secret
  /\ blob <> secret.

(** A stored wallet record holds a non-empty address and the envelopes of
    the private key and of the seed, and nothing else. *)
Definition enveloped (cfg : Config) (w : WalletRecord)
  (addr privateKey seed : string) : Prop :=
  addr <> ""
  /\ exists keyBlob seedBlob,
       w = {| address := Some addr;
              encryptedPrivateKey := Some keyBlob;
              encryptedSeed := Some seedBlob |}
       /\ envelope_of cfg keyBlob privateKey
       /\ envelope_of cfg seedBlob seed.

End WithLibrary.

End GenerateWallets.

(** ** middlewares/authMiddleware.js *)

Module AuthMiddleware.

Section WithLibrary.
Context {L : Library}.

Definition generateToken (cfg : Config) (userId : string) : string :=
  jwt_sign userId (jwtSecret cfg).

(** [jwt.sign] throws ("secretOrPrivateKey must have a value") when the
    secret is [undefined] or the empty string, and returns the token
    otherwise. *)
Definition generateToken_throws (cfg : Config) : bool :=
  negb (truthy_opt (jwtSecret cfg)).

(** [authMiddleware]: either a response that ends the request, or the
    document it stores in [req.user] before calling [next()]. *)
Definition authMiddleware {D : Type} (cfg : Config)
  (authHeader : option string) (store : list User)
  : Response D + Document :=
  if negb (truthy_opt authHeader)
  then inl (failure 401 "No authorization header provided")
  else
    let header := or_empty authHeader in
    if negb (String.prefix "Bearer " header)
    then inl (failure 401 "Invalid authorization format. Use: Bearer <token>")
    else
      let token := String.substring 7 (String.length header - 7) header in
      if negb (truthy token)
      then inl (failure 401 "No token provided")
      else
        match jwt_verify token (jwtSecret cfg) with
        | JwtDecoded userId =>
            match UserModel.findById store userId with
            | None => inl (failure 401 "Invalid token - user not found")
            | Some u =>
                let user := {| selection := WithoutCredentials; fields := u |} in
                if negb (isActive (fields user))
                then inl (failure 401 "Account is deactivated")
                else if isLocked (fields user)
                then inl (with_reason (failure 423 "Account is locked")
                            (lockReason (fields user)))
                else inr user
            end
        | JsonWebTokenError => inl (failure 401 "Invalid token")
        | TokenExpiredError => inl (failure 401 "Token expired")
        | JwtOtherError => inl (failure 500 "Authentication error")
        end.

End WithLibrary.

End AuthMiddleware.

(** ** controllers/authController.js *)

Record WalletAddresses : Type := {
  wa_ethereum : option string;
  wa_bitcoin : option string;
  wa_tron : option string
}.

Record RegisterRequest : Type := {
  rr_username : option string;
  rr_securityCode : option string;
  rr_hashKey : option string;
  rr_deviceInfo : option DeviceInfo
}.

(** [data] of the registration response. *)
Record RegisterData : Type := {
  rd_id : string;
  rd_username : string;
  rd_walletAddresses : WalletAddresses;
  rd_twoFactorEnabled : bool;
  rd_isActive : bool;
  rd_createdAt : Z;
  rd_token : string;
  rd_qrCodeUrl : string;
  rd_manualEntryKey : string
}.

(** What one registration draws from outside: the random bytes of the 2FA
    secret, of the wallets and of the two bcrypt salts, the [_id] the
    database gives the document, and the clock. *)
Record RegisterEntropy : Type := {
  rnd_totp : buffer;
  rnd_wallets : WalletEntropy;
  rnd_salt_code : buffer;
  rnd_salt_key : buffer;
  new_id : string;
  reg_now : Z
}.

Record LoginRequest : Type := {
  lr_securityCode : option string;
  lr_hashKey : option string;
  lr_deviceInfo : option DeviceInfo;
  lr_twoFactorCode : option string
}.

Record LoginData : Type := {
  ld_id : string;
  ld_username : string;
  ld_walletAddresses : WalletAddresses;
  ld_twoFactorEnabled : bool;
  ld_lastLogin : option Z;
  ld_platformFeeBalance : Q;
  ld_token : string
}.

Record RegenerateData : Type := {
  rg_qrCodeUrl : string;
  rg_manualEntryKey : string
}.

Module AuthController.

Section WithLibrary.
Context {L : Library}.

Definition walletAddresses (u : User) : WalletAddresses :=
  {| wa_ethereum := address (ethereum (wallets u));
     wa_bitcoin := address (bitcoin (wallets u));
     wa_tron := address (tron (wallets u)) |}.

(** [register].  The QR code and the token are made after the document
    was saved, so a failure of [generateToken] reaches the [catch] with the
    account stored.  ([qrcode.toDataURL] is taken to succeed: the model
    does not cover a user name too long for a QR code.) *)
Definition register (cfg : Config) (body : RegisterRequest)
  (rnd : RegisterEntropy) (store : list User)
  : Response RegisterData * list User :=
  match rr_deviceInfo body with
  | None =>
      (failure 400
         "Username, security code, hash key, and device info are required",
       store)
  | Some device =>
  if negb (truthy_opt (rr_username body))
     || negb (truthy_opt (rr_securityCode body))
     || negb (truthy_opt (rr_hashKey body))
  then (failure 400
          "Username, security code, hash key, and device info are required",
        store)
  else
    let deviceValidation := VerifyDevice.validateDeviceInfo (Some device) in
    if negb (isValid deviceValidation)
    then (with_errors (failure 400 "Invalid device info")
            (errors deviceValidation), store)
    else
      match UserModel.findOne_username store
              (trim (or_empty (rr_username body))) with
      | Some _ => (failure 409 "Username already exists", store)
      | None =>
          let normalizedDeviceInfo := VerifyDevice.normalizeDeviceInfo device in
          let twoFactorSecret :=
            authenticator_generateSecret (rnd_totp rnd) in
          match GenerateWallets.generateAllWallets cfg None (rnd_wallets rnd) with
          | Throw _ => (failure 500 "Registration failed", store)
          | Ok generated =>
              let user :=
                {| _id := new_id rnd;
                   username := trim (or_empty (rr_username body));
                   securityCodeHash :=
                     UserModel.presave_hash (or_empty (rr_securityCode body))
                       (rnd_salt_code rnd);
                   hashKeyHash :=
                     UserModel.presave_hash (or_empty (rr_hashKey body))
                       (rnd_salt_key rnd);
                   deviceInfo := UserModel.cast_device normalizedDeviceInfo;
                   newDeviceFound := false;
                   pendingDeviceInfo := None;
                   twoFactorSecret := twoFactorSecret;
                   twoFactorEnabled := true;
                   wallets :=
                     GenerateWallets.cast_wallets (aw_wallets generated);
                   platformFeeBalance := 0%Q;
                   isActive := true;
                   isLocked := false;
                   lockReason := None;
                   lastLogin := None;
                   lastTwoFactorVerification := None;
                   createdAt := reg_now rnd |} in
              if negb (UserModel.validates user)
              then (failure 500 "Registration failed", store)
              else
                let store' := store ++ [user] in
                let otpauth :=
                  authenticator_keyuri (or_empty (rr_username body))
                    "CryptoWallet" twoFactorSecret in
                let qrCodeUrl := qrcode_toDataURL otpauth in
                if AuthMiddleware.generateToken_throws cfg
                then (failure 500 "Registration failed", store')
                else
                let token := AuthMiddleware.generateToken cfg (_id user) in
                (succeed 201 "User registered successfully"
                   {| rd_id := _id user;
                      rd_username := username user;
                      rd_walletAddresses := walletAddresses user;
                      rd_twoFactorEnabled := twoFactorEnabled user;
                      rd_isActive := isActive user;
                      rd_createdAt := createdAt user;
                      rd_token := token;
                      rd_qrCodeUrl := qrCodeUrl;
                      rd_manualEntryKey := twoFactorSecret |},
                 store')
          end
      end
  end.

(** The scan of [login] over the active accounts: the first candidate both
    of whose digests verify. *)
Fixpoint findByCredentials (users : list User) (securityCode hashKey : string)
  : option User :=
  match users with
  | [] => None
  | candidate :: rest =>
      let securityMatch := UserModel.verifySecurityCode candidate securityCode in
      let hashMatch := UserModel.verifyHashKey candidate hashKey in
      if securityMatch && hashMatch then Some candidate
      else findByCredentials rest securityCode hashKey
  end.

Definition with_login_times (u : User) (now : Z) : User :=
  {| _id := _id u; username := username u;
     securityCodeHash := securityCodeHash u; hashKeyHash := hashKeyHash u;
     deviceInfo := deviceInfo u; newDeviceFound := newDeviceFound u;
     pendingDeviceInfo := pendingDeviceInfo u;
     twoFactorSecret := twoFactorSecret u;
     twoFactorEnabled := twoFactorEnabled u; wallets := wallets u;
     platformFeeBalance := platformFeeBalance u; isActive := isActive u;
     isLocked := isLocked u; lockReason := lockReason u;
     lastLogin := Some now; lastTwoFactorVerification := Some now;
     createdAt := createdAt u |}.

Definition with_twoFactorSecret (u : User) (secret : string) : User :=
  {| _id := _id u; username := username u;
     securityCodeHash := securityCodeHash u; hashKeyHash := hashKeyHash u;
     deviceInfo := deviceInfo u; newDeviceFound := newDeviceFound u;
     pendingDeviceInfo := pendingDeviceInfo u;
     twoFactorSecret := secret;
     twoFactorEnabled := twoFactorEnabled u; wallets := wallets u;
     platformFeeBalance := platformFeeBalance u; isActive := isActive u;
     isLocked := isLocked u; lockReason := lockReason u;
     lastLogin := lastLogin u;
     lastTwoFactorVerification := lastTwoFactorVerification u;
     createdAt := createdAt u |}.

(** The 403 answer of [login] on a device mismatch. *)
Definition deviceMismatch {D : Type} (analysis : Analysis) : Response D :=
  {| status := 403; success := false;
     message := "Device verification failed"; res_errors := [];
     res_code := Some "DEVICE_MISMATCH"; res_reason := None;
     res_analysis := Some (riskLevel analysis, reasons analysis);
     res_required := None; res_available := None; data := None |}.

(** [login]; [now] is the clock read by the two [new Date()].  The token is
    signed after the document was saved, so a failure of [generateToken]
    reaches the [catch] with the two timestamps written. *)
Definition login (cfg : Config) (body : LoginRequest) (now : Z)
  (store : list User) : Response LoginData * list User :=
  match lr_deviceInfo body with
  | None =>
      (failure 400
         "Security code, hash key, device info, and 2FA code are required",
       store)
  | Some device =>
  if negb (truthy_opt (lr_securityCode body))
     || negb (truthy_opt (lr_hashKey body))
     || negb (truthy_opt (lr_twoFactorCode body))
  then (failure 400
          "Security code, hash key, device info, and 2FA code are required",
        store)
  else
    let deviceValidation := VerifyDevice.validateDeviceInfo (Some device) in
    if negb (isValid deviceValidation)
    then (with_errors (failure 400 "Invalid device info")
            (errors deviceValidation), store)
    else
      let users := UserModel.find_active store in
      match findByCredentials users (or_empty (lr_securityCode body))
              (or_empty (lr_hashKey body)) with
      | None => (failure 401 "Invalid credentials", store)
      | Some user =>
          if isLocked user
          then (with_reason (failure 423 "Account is locked")
                  (lockReason user), store)
          else
            let normalizedDeviceInfo :=
              VerifyDevice.normalizeDeviceInfo device in
            if negb (UserModel.verifyDevice user normalizedDeviceInfo)
            then
              let analysis :=
                VerifyDevice.analyzeDeviceChange (Some (deviceInfo user))
                  (Some normalizedDeviceInfo) in
              (deviceMismatch analysis, store)
            else
              match authenticator_verify (or_empty (lr_twoFactorCode body))
                      (Some (twoFactorSecret user)) with
              | Throw _ => (failure 500 "Login failed", store)
              | Ok false => (failure 401 "Invalid 2FA code", store)
              | Ok true =>
                  let user' := with_login_times user now in
                  let store' := UserModel.save user' store in
                  if AuthMiddleware.generateToken_throws cfg
                  then (failure 500 "Login failed", store')
                  else
                  let token := AuthMiddleware.generateToken cfg (_id user') in
                  (succeed 200 "Login successful"
                     {| ld_id := _id user';
                        ld_username := username user';
                        ld_walletAddresses := walletAddresses user';
                        ld_twoFactorEnabled := twoFactorEnabled user';
                        ld_lastLogin := lastLogin user';
                        ld_platformFeeBalance := platformFeeBalance user';
                        ld_token := token |},
                   store')
              end
      end
  end.

(** A login request that passes the two validation steps of [login]: the
    four fields are present and the device descriptor is valid. *)
Definition wellformed_login (body : LoginRequest) (device : DeviceInfo) : Prop :=
  lr_deviceInfo body = Some device
  /\ truthy_opt (lr_securityCode body) = true
  /\ truthy_opt (lr_hashKey body) = true
  /\ truthy_opt (lr_twoFactorCode body) = true
  /\ isValid (VerifyDevice.validateDeviceInfo (Some device)) = true.

(** Both presented factors verify against the two digests of one account. *)
Definition credentials_match (u : User) (securityCode hashKey : string) : Prop :=
  UserModel.verifySecurityCode u securityCode = true
  /\ UserModel.verifyHashKey u hashKey = true.

(** [regenerate2FA]; [user] is [req.user], [rnd] the random bytes of the new
    secret. *)
Definition regenerate2FA (user : Document) (twoFactorCode : option string)
  (rnd : buffer) (store : list User)
  : Response RegenerateData * list User :=
  if negb (truthy_opt twoFactorCode)
  then (failure 400 "2FA code is required", store)
  else
    match authenticator_verify (or_empty twoFactorCode)
            (UserModel.doc_twoFactorSecret user) with
    | Throw _ => (failure 500 "2FA regeneration failed", store)
    | Ok false => (failure 401 "Invalid 2FA code", store)
    | Ok true =>
        let newTwoFactorSecret := authenticator_generateSecret rnd in
        let store' :=
          UserModel.save (with_twoFactorSecret (fields user) newTwoFactorSecret)
            store in
        let otpauth :=
          authenticator_keyuri (username (fields user)) "CryptoWallet"
            newTwoFactorSecret in
        let qrCodeUrl := qrcode_toDataURL otpauth in
        (succeed 200 "2FA secret regenerated successfully"
           {| rg_qrCodeUrl := qrCodeUrl;
              rg_manualEntryKey := newTwoFactorSecret |},
         store')
    end.

End WithLibrary.

End AuthController.

(** ** routes/authRoutes.js *)

Module AuthRoutes.

Section WithLibrary.
Context {L : Library}.

(** [router.post('/regenerate-2fa', authMiddleware, regenerate2FA)] *)
Definition post_regenerate_2fa (cfg : Config) (authHeader : option string)
  (twoFactorCode : option string) (rnd : buffer) (store : list User)
  : Response RegenerateData * list User :=
  match AuthMiddleware.authMiddleware cfg authHeader store with
  | inl response => (response, store)
  | inr user => AuthController.regenerate2FA user twoFactorCode rnd store
  end.

End WithLibrary.

End AuthRoutes.

(** ** utils/sendTx.js *)

(** An unspent output as the explorer lists it. *)
Record Utxo : Type := {
  txid : string;
  vout : N;
  value : Z
}.

(** The parameters of a send.  [sendCrypto] sets the first five;
    [sendTransaction] adds [privateKey]; [feeRate] and [testnet] are the
    optional ones of [sendBitcoinTransaction]. *)
Record TxParams : Type := {
  tp_chain : string;
  tp_to : string;
  tp_amount : Q;
  tp_encryptedPrivateKey : option string;
  tp_tokenAddress : option string;
  tp_privateKey : option string;
  tp_feeRate : option Z;
  tp_testnet : option bool
}.

Record TxResult : Type := {
  txHash : string;
  tx_chain : string;
  tx_to : string;
  tx_amount : Q;
  tx_fee : option Q;
  tx_inputCount : option nat;
  tx_status : string;
  explorerUrl : string
}.

(** The partially signed transaction under construction: the inputs (each
    with the hex of the transaction that funds it) and the outputs. *)
Record Psbt : Type := {
  psbt_inputs : list (Utxo * string);
  psbt_outputs : list (string * Z)
}.

(** What the selection of [sendBitcoinTransaction] decides before any input
    is added. *)
Record BitcoinPlan : Type := {
  plan_selected : list Utxo;
  plan_totalInput : Z;
  plan_fee : Z;
  plan_change : Z;
  plan_outputs : list (string * Z)
}.

(** The block explorer and the signer behind [sendBitcoinTransaction]:
    [GET /address/:a/utxo], [GET /tx/:id/hex], signing every input then
    finalizing and extracting the transaction hex, and [POST /tx].  The
    first argument of the three requests is [testnet]. *)
Record BitcoinBackend : Type := {
  get_utxos : bool -> string -> result (list Utxo);
  get_tx_hex : bool -> string -> result string;
  sign_and_extract : Psbt -> ECPair -> result string;
  post_tx : bool -> string -> result string
}.

(** The chains behind [sendTransaction]: the Bitcoin backend, and what
    [sendEthTransaction] and [sendTronTransaction] answer. *)
Record Chains : Type := {
  bitcoin_backend : BitcoinBackend;
  sendEthTransaction : TxParams -> result TxResult;
  sendTronTransaction : TxParams -> result TxResult
}.

(** A chain adapter was entered. *)
Inductive ChainCall : Type :=
| CallEth (chain : string)
| CallBitcoin
| CallTron.

Module SendTx.

Section WithLibrary.
Context {L : Library}.

(** The comparator [(a, b) => b.value - a.value] under the (stable)
    [Array.prototype.sort]: descending values, equal values in their
    original order. *)
Fixpoint insert_desc (u : Utxo) (l : list Utxo) : list Utxo :=
  match l with
  | [] => [u]
  | v :: l' =>
      if (value v <=? value u)%Z then u :: v :: l'
      else v :: insert_desc u l'
  end.

Definition sort_desc (l : list Utxo) : list Utxo :=
  fold_right insert_desc [] l.

(** [(selectedUtxos.length * 148 + 2 * 34 + 10) * feeRate] *)
Definition estimatedFee (count : nat) (feeRate : Z) : Z :=
  ((Z.of_nat count * 148 + 2 * 34 + 10) * feeRate)%Z.

(** The selection loop, from the state ([totalInput], [selectedUtxos]) it
    has reached. *)
Fixpoint selectUtxos (utxos : list Utxo) (amountSatoshis feeRate : Z)
  (totalInput : Z) (selectedUtxos : list Utxo) : Z * list Utxo :=
  match utxos with
  | [] => (totalInput, selectedUtxos)
  | utxo :: rest =>
      let totalInput := (totalInput + value utxo)%Z in
      let selectedUtxos := selectedUtxos ++ [utxo] in
      let estimatedFee := estimatedFee (List.length selectedUtxos) feeRate in
      if (amountSatoshis + estimatedFee <=? totalInput)%Z
      then (totalInput, selectedUtxos)
      else selectUtxos rest amountSatoshis feeRate totalInput selectedUtxos
  end.

(** From the UTXO list to the outputs: everything [sendBitcoinTransaction]
    computes between the explorer's answer and the first [psbt.addInput]. *)
Definition bitcoinPlan (utxos : list Utxo) (amountSatoshis feeRate : Z)
  (to address : string) : result BitcoinPlan :=
  if Nat.eqb (List.length utxos) 0 then Throw "No UTXOs available"
  else
    let (totalInput, selectedUtxos) :=
      selectUtxos (sort_desc utxos) amountSatoshis feeRate 0%Z [] in
    let fee := estimatedFee (List.length selectedUtxos) feeRate in
    let change := (totalInput - amountSatoshis - fee)%Z in
    if (totalInput <? amountSatoshis + fee)%Z then Throw "Insufficient funds"
    else
      Ok {| plan_selected := selectedUtxos;
            plan_totalInput := totalInput;
            plan_fee := fee;
            plan_change := change;
            plan_outputs :=
              (to, amountSatoshis)
              :: (if (546 <? change)%Z then [(address, change)] else []) |}.

(** The total value of a list of outputs, and whether the first [k] of the
    sorted outputs cover the amount plus the fee for [k] inputs. *)
Definition total (l : list Utxo) : Z :=
  fold_right (fun u acc => (value u + acc)%Z) 0%Z l.

Definition covers (sorted : list Utxo) (amountSatoshis feeRate : Z) (k : nat)
  : Prop :=
  (amountSatoshis + estimatedFee k feeRate <= total (firstn k sorted))%Z.

Definition descending (l : list Utxo) : Prop :=
  StronglySorted (fun a b => (value b <= value a)%Z) l.

Fixpoint addInputs (api : BitcoinBackend) (testnet : bool)
  (selectedUtxos : list Utxo) : result (list (Utxo * string)) :=
  match selectedUtxos with
  | [] => Ok []
  | utxo :: rest =>
      txHex <- get_tx_hex api testnet (txid utxo) ;;
      inputs <- addInputs api testnet rest ;;
      Ok ((utxo, txHex) :: inputs)
  end.

Definition sendBitcoinTransaction (api : BitcoinBackend) (params : TxParams)
  : result TxResult :=
  let feeRate := match tp_feeRate params with Some r => r | None => 10%Z end in
  let testnet :=
    match tp_testnet params with Some t => t | None => false end in
  rethrow "Failed to send Bitcoin transaction: "
    (keyPair <- ECPair_fromPrivateKey
                  (hex_decode (or_empty (tp_privateKey params))) ;;
     let address := payments_p2wpkh (kp_publicKey keyPair) in
     utxos <- get_utxos api testnet address ;;
     let amountSatoshis := Qfloor (number_mul (tp_amount params) 100000000) in
     plan <- bitcoinPlan utxos amountSatoshis feeRate (tp_to params) address ;;
     inputs <- addInputs api testnet (plan_selected plan) ;;
     let psbt :=
       {| psbt_inputs := inputs; psbt_outputs := plan_outputs plan |} in
     txHex <- sign_and_extract api psbt keyPair ;;
     txHash <- post_tx api testnet txHex ;;
     Ok {| txHash := txHash;
           tx_chain := "bitcoin";
           tx_to := tp_to params;
           tx_amount := tp_amount params;
           tx_fee := Some (number_div (inject_Z (plan_fee plan)) 100000000);
           tx_inputCount := Some (List.length (plan_selected plan));
           tx_status := "pending";
           explorerUrl := ("https://blockstream.info/tx/" ++ txHash)%string |}).

Definition validateTransactionParams (params : TxParams) : Validation :=
  let chain := tp_chain params in
  let to := tp_to params in
  let errors :=
    (if negb (truthy chain) then ["Chain is required"] else [])
    ++ (if negb (truthy to) then ["Recipient address is required"] else [])
    ++ (if Qle_bool (tp_amount params) 0
        then ["Amount must be greater than 0"] else [])
    ++ (if negb (truthy_opt (tp_privateKey params))
        then ["Private key is required"] else [])
    ++ (if truthy to then
          let c := toLowerCase chain in
          if String.eqb c "ethereum" || String.eqb c "bsc"
             || String.eqb c "polygon"
          then if negb (ethers_isAddress to)
               then ["Invalid Ethereum-compatible address"] else []
          else if String.eqb c "bitcoin"
          then if negb (regexp_test
                 "^[13][a-km-zA-HJ-NP-Z1-9]{25,34}$|^bc1[a-z0-9]{39,59}$" to)
               then ["Invalid Bitcoin address"] else []
          else if String.eqb c "tron"
          then if negb (regexp_test "^T[A-Za-z0-9]{33}$" to)
               then ["Invalid Tron address"] else []
          else []
        else []) in
  {| isValid := Nat.eqb (List.length errors) 0; errors := errors |}.

Definition with_privateKey (params : TxParams) (privateKey : string)
  (chain : string) : TxParams :=
  {| tp_chain := chain; tp_to := tp_to params; tp_amount := tp_amount params;
     tp_encryptedPrivateKey := tp_encryptedPrivateKey params;
     tp_tokenAddress := tp_tokenAddress params;
     tp_privateKey := Some privateKey;
     tp_feeRate := tp_feeRate params; tp_testnet := tp_testnet params |}.

(** [sendTransaction]: its result and the chain adapters it entered. *)
Definition sendTransaction (cfg : Config) (chains : Chains) (params : TxParams)
  : result TxResult * list ChainCall :=
  let chain := tp_chain params in
  let validation := validateTransactionParams params in
  if negb (isValid validation)
  then (Throw ("Transaction failed: Validation failed: "
               ++ String.concat ", " (errors validation))%string, [])
  else
    match Encrypt.decrypt (encryptionKey cfg)
            (or_empty (tp_encryptedPrivateKey params)) with
    | Throw m => (Throw ("Transaction failed: " ++ m)%string, [])
    | Ok privateKey =>
        let c := toLowerCase chain in
        let txParams := with_privateKey params privateKey in
        if String.eqb c "ethereum" || String.eqb c "eth"
        then (rethrow "Transaction failed: "
                (sendEthTransaction chains (txParams "ethereum")),
              [CallEth "ethereum"])
        else if String.eqb c "bsc" || String.eqb c "bnb"
        then (rethrow "Transaction failed: "
                (sendEthTransaction chains (txParams "bsc")),
              [CallEth "bsc"])
        else if String.eqb c "polygon" || String.eqb c "matic"
        then (rethrow "Transaction failed: "
                (sendEthTransaction chains (txParams "polygon")),
              [CallEth "polygon"])
        else if String.eqb c "bitcoin" || String.eqb c "btc"
        then (rethrow "Transaction failed: "
                (sendBitcoinTransaction (bitcoin_backend chains)
                   (txParams chain)),
              [CallBitcoin])
        else if String.eqb c "tron" || String.eqb c "trx"
        then (rethrow "Transaction failed: "
                (sendTronTransaction chains (txParams chain)),
              [CallTron])
        else (Throw ("Transaction failed: Unsupported chain: " ++ chain)%string,
              [])
    end.

End WithLibrary.

End SendTx.

(** ** utils/getBalance.js *)

(** The explorer's answer to [GET /address/:address]. *)
Record AddressStats : Type := {
  funded_txo_sum : Z;
  spent_txo_sum : Z;
  tx_count : Z
}.

Record AddressData : Type := {
  chain_stats : AddressStats;
  mempool_stats : AddressStats
}.

(** What [axios.get] does: a 2xx response with its data, a rejection that
    carries the response's status, or a rejection without a response. *)
Inductive Axios (A : Type) : Type :=
| AxiosData (d : A)
| AxiosStatus (code : nat) (msg : string)
| AxiosNoResponse (msg : string).
Arguments AxiosData {A} d.
Arguments AxiosStatus {A} code msg.
Arguments AxiosNoResponse {A} msg.

(** The balances are the numbers whose decimal strings the code returns. *)
Record BitcoinBalance : Type := {
  bb_balance : Q;
  bb_unconfirmedBalance : Q;
  bb_txCount : Z;
  bb_symbol : string;
  bb_decimals : nat;
  bb_chain : string
}.

Module GetBalance.

Definition getBitcoinBalance (explorer : bool -> string -> Axios AddressData)
  (address : string) (testnet : bool) : result BitcoinBalance :=
  match explorer testnet address with
  | AxiosData data =>
      let balance :=
        (inject_Z (funded_txo_sum (chain_stats data)) / 100000000)%Q in
      let unconfirmedBalance :=
        (inject_Z (funded_txo_sum (mempool_stats data)) / 100000000)%Q in
      Ok {| bb_balance := balance;
            bb_unconfirmedBalance := unconfirmedBalance;
            bb_txCount := tx_count (chain_stats data);
            bb_symbol := "BTC";
            bb_decimals := 8;
            bb_chain := "bitcoin" |}
  | AxiosStatus code msg =>
      if Nat.eqb code 404
      then Ok {| bb_balance := 0%Q;
                 bb_unconfirmedBalance := 0%Q;
                 bb_txCount := 0%Z;
                 bb_symbol := "BTC";
                 bb_decimals := 8;
                 bb_chain := "bitcoin" |}
      else Throw ("Failed to get Bitcoin balance: " ++ msg)
  | AxiosNoResponse msg => Throw ("Failed to get Bitcoin balance: " ++ msg)
  end.

(** The balance as the specification words it: confirmed plus unconfirmed
    funded totals minus the spent totals, in whole coins. *)
Definition spec_balance (data : AddressData) : Q :=
  (inject_Z (funded_txo_sum (chain_stats data)
             + funded_txo_sum (mempool_stats data)
             - spent_txo_sum (chain_stats data)
             - spent_txo_sum (mempool_stats data)) / 100000000)%Q.

End GetBalance.

(** ** controllers/walletController.js *)

Record SendRequest : Type := {
  sr_coinType : option string;
  sr_chain : option string;
  sr_recipient : option string;
  sr_amount : option string;
  sr_tokenAddress : option string
}.

Record SendData : Type := {
  sd_transaction : TxResult;
  sd_feeAmount : Q;
  sd_currency : string;
  sd_remainingBalance : Q
}.

Module WalletController.

Section WithLibrary.
Context {L : Library}.

Definition Qlt_bool (a b : Q) : bool := negb (Qle_bool b a).

Definition includes (l : list string) (s : string) : bool :=
  existsb (String.eqb s) l.

Definition with_platformFeeBalance (u : User) (balance : Q) : User :=
  {| _id := _id u; username := username u;
     securityCodeHash := securityCodeHash u; hashKeyHash := hashKeyHash u;
     deviceInfo := deviceInfo u; newDeviceFound := newDeviceFound u;
     pendingDeviceInfo := pendingDeviceInfo u;
     twoFactorSecret := twoFactorSecret u;
     twoFactorEnabled := twoFactorEnabled u; wallets := wallets u;
     platformFeeBalance := balance; isActive := isActive u;
     isLocked := isLocked u; lockReason := lockReason u;
     lastLogin := lastLogin u;
     lastTwoFactorVerification := lastTwoFactorVerification u;
     createdAt := createdAt u |}.

(** [parseFloat(process.env.PLATFORM_FEE_PERCENTAGE) || 0.1]; the literal
    [0.1] is the double nearest to one tenth. *)
Definition platformFeePercentage (cfg : Config) : Q :=
  match parseFloat (PLATFORM_FEE_PERCENTAGE cfg) with
  | Some q => if Qeq_bool q 0 then round64 (1 # 10) else q
  | None => round64 (1 # 10)
  end.

(** [numericAmount * (platformFeePercentage / 100)]: a division and a
    multiplication of doubles. *)
Definition feeAmount (cfg : Config) (numericAmount : Q) : Q :=
  number_mul numericAmount (number_div (platformFeePercentage cfg) 100).

(** The wallet [sendCrypto] picks for a lower-cased chain name. *)
Definition walletFor (user : User) (chainLower : string) : option WalletRecord :=
  if includes ["ethereum"; "eth"; "bsc"; "bnb"; "polygon"; "matic"] chainLower
  then Some (ethereum (wallets user))
  else if includes ["bitcoin"; "btc"] chainLower
  then Some (bitcoin (wallets user))
  else if includes ["tron"; "trx"] chainLower
  then Some (tron (wallets user))
  else None.

Definition insufficientFee {D : Type} (required available : Q) : Response D :=
  {| status := 400; success := false;
     message := "Insufficient platform fee balance (SHIBAU tokens required)";
     res_errors := []; res_code := None; res_reason := None;
     res_analysis := None; res_required := Some required;
     res_available := Some available; data := None |}.

(** [sendCrypto] over the function it imports as [sendTransaction]; the
    third component lists the chain adapters entered. *)
Definition sendCrypto_with
  (sendTransaction : TxParams -> result TxResult * list ChainCall)
  (cfg : Config) (user : Document) (body : SendRequest) (store : list User)
  : Response SendData * list User * list ChainCall :=
  if negb (truthy_opt (sr_coinType body)) || negb (truthy_opt (sr_chain body))
     || negb (truthy_opt (sr_recipient body))
     || negb (truthy_opt (sr_amount body))
  then (failure 400 "Coin type, chain, recipient, and amount are required",
        store, [])
  else
    match parseFloat (sr_amount body) with
    | None => (failure 400 "Amount must be a positive number", store, [])
    | Some numericAmount =>
    if Qle_bool numericAmount 0
    then (failure 400 "Amount must be a positive number", store, [])
    else
      let chain := or_empty (sr_chain body) in
      let chainLower := toLowerCase chain in
      match walletFor (fields user) chainLower with
      | None => (failure 400 ("Unsupported chain: " ++ chain), store, [])
      | Some wallet =>
          let encryptedPrivateKey := encryptedPrivateKey wallet in
          if negb (truthy_opt encryptedPrivateKey)
          then (failure 404 ("No wallet found for chain: " ++ chain),
                store, [])
          else
            let feeAmount := feeAmount cfg numericAmount in
            if Qlt_bool (platformFeeBalance (fields user)) feeAmount
            then (insufficientFee feeAmount (platformFeeBalance (fields user)),
                  store, [])
            else
              let txParams :=
                {| tp_chain := chainLower;
                   tp_to := or_empty (sr_recipient body);
                   tp_amount := numericAmount;
                   tp_encryptedPrivateKey := encryptedPrivateKey;
                   tp_tokenAddress := sr_tokenAddress body;
                   tp_privateKey := None;
                   tp_feeRate := None;
                   tp_testnet := None |} in
              match sendTransaction txParams with
              | (Throw _, calls) => (failure 500 "Transaction failed", store, calls)
              | (Ok txResult, calls) =>
                  let remaining :=
                    number_sub (platformFeeBalance (fields user)) feeAmount in
                  let store' :=
                    UserModel.save
                      (with_platformFeeBalance (fields user) remaining) store in
                  (succeed 200 "Transaction sent successfully"
                     {| sd_transaction := txResult;
                        sd_feeAmount := feeAmount;
                        sd_currency := "SHIBAU";
                        sd_remainingBalance := remaining |},
                   store', calls)
              end
      end
    end.

(** A send request that reaches the platform-fee check of [sendCrypto]:
    the four fields are present, the amount parses to a positive number,
    the chain is supported and its wallet has an encrypted key. *)
Definition reaches_fee_check (user : Document) (body : SendRequest)
  (numericAmount : Q) (wallet : WalletRecord) : Prop :=
  truthy_opt (sr_coinType body) = true
  /\ truthy_opt (sr_chain body) = true
  /\ truthy_opt (sr_recipient body) = true
  /\ truthy_opt (sr_amount body) = true
  /\ parseFloat (sr_amount body) = Some numericAmount
  /\ Qle_bool numericAmount 0 = false
  /\ walletFor (fields user) (toLowerCase (or_empty (sr_chain body)))
     = Some wallet
  /\ truthy_opt (encryptedPrivateKey wallet) = true.

(** [sendCrypto] as the module is wired. *)
Definition sendCrypto (cfg : Config) (chains : Chains) (user : Document)
  (body : SendRequest) (store : list User)
  : Response SendData * list User * list ChainCall :=
  sendCrypto_with (SendTx.sendTransaction cfg chains) cfg user body store.

End WithLibrary.

End WalletController.

(** ** utils/encrypt.js: [encryptObject] and [decryptObject]

    The values the two functions walk over.  [typeof] tells strings and
    objects (arrays are objects) from everything else; an object is given by
    its [Object.entries] (its own keys, each once), an array by its items. *)

Inductive JsAtom : Type :=
| JsNumber (q : Q)
| JsBoolean (b : bool)
| JsNull
| JsUndefined.

#[local] Set Warnings "-register-all".
Inductive JsValue : Type :=
| JsString (s : string)
| JsObject (entries : list (string * JsValue))
| JsArray (items : list JsValue)
| JsOther (a : JsAtom).
#[local] Set Warnings "register-all".

(** The property key of an array index: its decimal numeral. *)
Definition index_key (i : nat) : string :=
  NilZero.string_of_uint (Nat.to_uint i).

(** [Object.entries] of an array whose first index is [i]. *)
Fixpoint array_entries (items : list JsValue) (i : nat)
  : list (string * JsValue) :=
  match items with
  | [] => []
  | value :: rest => (index_key i, value) :: array_entries rest (S i)
  end.

(** [target[key] = value] on an object literal whose later assignments are
    [later]: the key ["__proto__"] reaches the setter of [Object.prototype]
    and adds no entry. *)
Definition assign (key : string) (value : JsValue)
  (later : list (string * JsValue)) : list (string * JsValue) :=
  if String.eqb key "__proto__" then later else (key, value) :: later.

Module EncryptObject.

Section WithLibrary.
Context {L : Library}.
Variable encryptionKey : option string.

(** The random bytes of the successive calls of [encrypt]: [rnd n] goes to
    the call number [n]. *)
Variable rnd : nat -> entropy.

(** What the body of the loop of [encryptObject] stores under a key, and
    the number of the next call of [encrypt].  The two inner loops are the
    recursive call on an object and on an array. *)
Fixpoint encryptValue (value : JsValue) (n : nat) : result (JsValue * nat) :=
  match value with
  | JsString s =>
      if Nat.ltb 0 (String.length s)
      then blob <- Encrypt.encrypt encryptionKey s (rnd n) ;;
           Ok (JsString blob, S n)
      else Ok (value, n)
  | JsObject entries =>
      r <- (fix loop (entries : list (string * JsValue)) (n : nat)
              : result (list (string * JsValue) * nat) :=
              match entries with
              | [] => Ok ([], n)
              | (key, value) :: rest =>
                  v <- encryptValue value n ;;
                  r <- loop rest (snd v) ;;
                  Ok (assign key (fst v) (fst r), snd r)
              end) entries n ;;
      Ok (JsObject (fst r), snd r)
  | JsArray items =>
      r <- (fix loop (items : list JsValue) (i n : nat)
              : result (list (string * JsValue) * nat) :=
              match items with
              | [] => Ok ([], n)
              | value :: rest =>
                  v <- encryptValue value n ;;
                  r <- loop rest (S i) (snd v) ;;
                  Ok (assign (index_key i) (fst v) (fst r), snd r)
              end) items 0 n ;;
      Ok (JsObject (fst r), snd r)
  | JsOther _ => Ok (value, n)
  end.

(** [encryptObject obj], [obj] given by its entries: the entries of the
    object it returns. *)
Fixpoint encryptObject (obj : list (string * JsValue)) (n : nat)
  : result (list (string * JsValue) * nat) :=
  match obj with
  | [] => Ok ([], n)
  | (key, value) :: rest =>
      v <- encryptValue value n ;;
      r <- encryptObject rest (snd v) ;;
      Ok (assign key (fst v) (fst r), snd r)
  end.

(** [decryptObject] swallows the failure of [decrypt] and keeps the value. *)
Fixpoint decryptValue (value : JsValue) : JsValue :=
  match value with
  | JsString s =>
      if Nat.ltb 0 (String.length s)
      then match Encrypt.decrypt encryptionKey s with
           | Ok text => JsString text
           | Throw _ => value
           end
      else value
  | JsObject entries =>
      JsObject
        ((fix loop (entries : list (string * JsValue))
            : list (string * JsValue) :=
            match entries with
            | [] => []
            | (key, value) :: rest =>
                assign key (decryptValue value) (loop rest)
            end) entries)
  | JsArray items =>
      JsObject
        ((fix loop (items : list JsValue) (i : nat)
            : list (string * JsValue) :=
            match items with
            | [] => []
            | value :: rest =>
                assign (index_key i) (decryptValue value) (loop rest (S i))
            end) items 0)
  | JsOther _ => value
  end.

Fixpoint decryptObject (obj : list (string * JsValue))
  : list (string * JsValue) :=
  match obj with
  | [] => []
  | (key, value) :: rest =>
      assign key (decryptValue value) (decryptObject rest)
  end.

End WithLibrary.

(** Both functions build a fresh plain object for every object they walk
    into: an array comes back as the object of its indices, and an entry
    under the key ["__proto__"] is lost. *)
Fixpoint objectify (value : JsValue) : JsValue :=
  match value with
  | JsObject entries =>
      JsObject
        ((fix loop (entries : list (string * JsValue))
            : list (string * JsValue) :=
            match entries with
            | [] => []
            | (key, value) :: rest => assign key (objectify value) (loop rest)
            end) entries)
  | JsArray items =>
      JsObject
        ((fix loop (items : list JsValue) (i : nat)
            : list (string * JsValue) :=
            match items with
            | [] => []
            | value :: rest =>
                assign (index_key i) (objectify value) (loop rest (S i))
            end) items 0)
  | _ => value
  end.

Fixpoint objectify_entries (obj : list (string * JsValue))
  : list (string * JsValue) :=
  match obj with
  | [] => []
  | (key, value) :: rest =>
      assign key (objectify value) (objectify_entries rest)
  end.

(** No array and no key ["__proto__"] in or below the value. *)
Fixpoint plain (value : JsValue) : bool :=
  match value with
  | JsObject entries =>
      (fix loop (entries : list (string * JsValue)) : bool :=
         match entries with
         | [] => true
         | (key, value) :: rest =>
             negb (String.eqb key "__proto__") && plain value && loop rest
         end) entries
  | JsArray _ => false
  | _ => true
  end.

Fixpoint plain_entries (obj : list (string * JsValue)) : bool :=
  match obj with
  | [] => true
  | (key, value) :: rest =>
      negb (String.eqb key "__proto__") && plain value && plain_entries rest
  end.

(** A string that is not empty, in or below the value: what [encryptObject]
    hands to [encrypt]. *)
Fixpoint has_text (value : JsValue) : bool :=
  match value with
  | JsString s => Nat.ltb 0 (String.length s)
  | JsObject entries =>
      (fix loop (entries : list (string * JsValue)) : bool :=
         match entries with
         | [] => false
         | (_, value) :: rest => has_text value || loop rest
         end) entries
  | JsArray items =>
      (fix loop (items : list JsValue) : bool :=
         match items with
         | [] => false
         | value :: rest => has_text value || loop rest
         end) items
  | JsOther _ => false
  end.

Fixpoint has_text_entries (obj : list (string * JsValue)) : bool :=
  match obj with
  | [] => false
  | (_, value) :: rest => has_text value || has_text_entries rest
  end.

End EncryptObject.

(** Induction over a value with the hypothesis on every value below it. *)
Section JsValueInduction.
Variable P : JsValue -> Prop.
Hypothesis P_string : forall s, P (JsString s).
Hypothesis P_object : forall entries,
  Forall (fun kv => P (snd kv)) entries -> P (JsObject entries).
Hypothesis P_array : forall items, Forall P items -> P (JsArray items).
Hypothesis P_other : forall a, P (JsOther a).

Fixpoint JsValue_nested_ind (value : JsValue) : P value :=
  match value with
  | JsString s => P_string s
  | JsObject entries =>
      P_object entries
        ((fix loop (entries : list (string * JsValue))
            : Forall (fun kv => P (snd kv)) entries :=
            match entries with
            | [] => Forall_nil _
            | kv :: rest =>
                Forall_cons kv (JsValue_nested_ind (snd kv)) (loop rest)
            end) entries)
  | JsArray items =>
      P_array items
        ((fix loop (items : list JsValue) : Forall P items :=
            match items with
            | [] => Forall_nil _
            | value :: rest =>
                Forall_cons value (JsValue_nested_ind value) (loop rest)
            end) items)
  | JsOther a => P_other a
  end.

End JsValueInduction.

(** ** controllers/authController.js: [deviceChangeRequest] *)

(** [data] of the answer to a device change request. *)
Record DeviceChangeData : Type := {
  dc_requestId : string;
  dc_analysis : option RiskLevel * list string;
  dc_estimatedReviewTime : string
}.

Module DeviceChange.

Section WithLibrary.
Context {L : Library}.

(** [user.newDeviceFound = true; user.pendingDeviceInfo = d]: the schema
    keeps the five declared paths of the descriptor. *)
Definition with_pendingDevice (u : User) (d : DeviceInfo) : User :=
  {| _id := _id u; username := username u;
     securityCodeHash := securityCodeHash u; hashKeyHash := hashKeyHash u;
     deviceInfo := deviceInfo u; newDeviceFound := true;
     pendingDeviceInfo := Some (UserModel.cast_device d);
     twoFactorSecret := twoFactorSecret u;
     twoFactorEnabled := twoFactorEnabled u; wallets := wallets u;
     platformFeeBalance := platformFeeBalance u; isActive := isActive u;
     isLocked := isLocked u; lockReason := lockReason u;
     lastLogin := lastLogin u;
     lastTwoFactorVerification := lastTwoFactorVerification u;
     createdAt := createdAt u |}.

(** The request body has the four fields of a login. *)
Definition deviceChangeRequest (body : LoginRequest) (store : list User)
  : Response DeviceChangeData * list User :=
  match lr_deviceInfo body with
  | None =>
      (failure 400
         "Security code, hash key, device info, and 2FA code are required",
       store)
  | Some device =>
  if negb (truthy_opt (lr_securityCode body))
     || negb (truthy_opt (lr_hashKey body))
     || negb (truthy_opt (lr_twoFactorCode body))
  then (failure 400
          "Security code, hash key, device info, and 2FA code are required",
        store)
  else
    let deviceValidation := VerifyDevice.validateDeviceInfo (Some device) in
    if negb (isValid deviceValidation)
    then (with_errors (failure 400 "Invalid device info")
            (errors deviceValidation), store)
    else
      let users := UserModel.find_active store in
      match AuthController.findByCredentials users
              (or_empty (lr_securityCode body))
              (or_empty (lr_hashKey body)) with
      | None => (failure 401 "Invalid credentials", store)
      | Some user =>
          match authenticator_verify (or_empty (lr_twoFactorCode body))
                  (Some (twoFactorSecret user)) with
          | Throw _ => (failure 500 "Device change request failed", store)
          | Ok false => (failure 401 "Invalid 2FA code", store)
          | Ok true =>
              let normalizedDeviceInfo :=
                VerifyDevice.normalizeDeviceInfo device in
              let analysis :=
                VerifyDevice.analyzeDeviceChange (Some (deviceInfo user))
                  (Some normalizedDeviceInfo) in
              let user' := with_pendingDevice user normalizedDeviceInfo in
              let store' := UserModel.save user' store in
              (succeed 200 "Device change request submitted for admin review"
                 {| dc_requestId := _id user';
                    dc_analysis := (riskLevel analysis, reasons analysis);
                    dc_estimatedReviewTime := "24-48 hours" |},
               store')
          end
      end
  end.

(** An account without the two fields a device change request writes. *)
Definition unstaged (u : User) : User :=
  {| _id := _id u; username := username u;
     securityCodeHash := securityCodeHash u; hashKeyHash := hashKeyHash u;
     deviceInfo := deviceInfo u; newDeviceFound := false;
     pendingDeviceInfo := None;
     twoFactorSecret := twoFactorSecret u;
     twoFactorEnabled := twoFactorEnabled u; wallets := wallets u;
     platformFeeBalance := platformFeeBalance u; isActive := isActive u;
     isLocked := isLocked u; lockReason := lockReason u;
     lastLogin := lastLogin u;
     lastTwoFactorVerification := lastTwoFactorVerification u;
     createdAt := createdAt u |}.

End WithLibrary.

End DeviceChange.

(** The database gives every document its own [_id]. *)
Definition unique_ids (store : list User) : Prop := NoDup (map _id store).

(** An account without the two timestamps a login writes. *)
Definition untimed (u : User) : User :=
  {| _id := _id u; username := username u;
     securityCodeHash := securityCodeHash u; hashKeyHash := hashKeyHash u;
     deviceInfo := deviceInfo u; newDeviceFound := newDeviceFound u;
     pendingDeviceInfo := pendingDeviceInfo u;
     twoFactorSecret := twoFactorSecret u;
     twoFactorEnabled := twoFactorEnabled u; wallets := wallets u;
     platformFeeBalance := platformFeeBalance u; isActive := isActive u;
     isLocked := isLocked u; lockReason := lockReason u;
     lastLogin := None; lastTwoFactorVerification := None;
     createdAt := createdAt u |}.

(** What a write leaves alone, path by path.  [kept_by_login a b]: [b] has
    every path of [a] that the record models other than the two timestamps a
    login writes; [kept_by_staging a b]: every such path other than the two
    fields a device change request writes. *)
Definition kept_by_login (a b : User) : Prop :=
  _id b = _id a /\ username b = username a
  /\ securityCodeHash b = securityCodeHash a
  /\ hashKeyHash b = hashKeyHash a
  /\ deviceInfo b = deviceInfo a
  /\ newDeviceFound b = newDeviceFound a
  /\ pendingDeviceInfo b = pendingDeviceInfo a
  /\ twoFactorSecret b = twoFactorSecret a
  /\ twoFactorEnabled b = twoFactorEnabled a
  /\ wallets b = wallets a
  /\ platformFeeBalance b = platformFeeBalance a
  /\ isActive b = isActive a /\ isLocked b = isLocked a
  /\ lockReason b = lockReason a
  /\ createdAt b = createdAt a.

Definition kept_by_staging (a b : User) : Prop :=
  _id b = _id a /\ username b = username a
  /\ securityCodeHash b = securityCodeHash a
  /\ hashKeyHash b = hashKeyHash a
  /\ deviceInfo b = deviceInfo a
  /\ twoFactorSecret b = twoFactorSecret a
  /\ twoFactorEnabled b = twoFactorEnabled a
  /\ wallets b = wallets a
  /\ platformFeeBalance b = platformFeeBalance a
  /\ isActive b = isActive a /\ isLocked b = isLocked a
  /\ lockReason b = lockReason a
  /\ lastLogin b = lastLogin a
  /\ lastTwoFactorVerification b = lastTwoFactorVerification a
  /\ createdAt b = createdAt a.

(** ** middlewares/authMiddleware.js: the device and 2FA middlewares, and
    routes/walletRoutes.js *)

Module HighSecurity.

Section WithLibrary.
Context {L : Library}.

(** A middleware either ends the request with a response or calls
    [next()]; [None] is the call of [next()]. *)
Definition deviceMiddleware {D : Type} (user : Document)
  (deviceInfo : option DeviceInfo) : option (Response D) :=
  match deviceInfo with
  | None => Some (failure 400 "Device info is required")
  | Some d =>
      if negb (UserModel.verifyDevice (fields user) d)
      then Some {| status := 403; success := false;
                   message := "Device verification failed";
                   res_errors := []; res_code := Some "DEVICE_MISMATCH";
                   res_reason := None; res_analysis := None;
                   res_required := None; res_available := None;
                   data := None |}
      else None
  end.

Definition with_lastTwoFactorVerification (u : User) (now : Z) : User :=
  {| _id := _id u; username := username u;
     securityCodeHash := securityCodeHash u; hashKeyHash := hashKeyHash u;
     deviceInfo := deviceInfo u; newDeviceFound := newDeviceFound u;
     pendingDeviceInfo := pendingDeviceInfo u;
     twoFactorSecret := twoFactorSecret u;
     twoFactorEnabled := twoFactorEnabled u; wallets := wallets u;
     platformFeeBalance := platformFeeBalance u; isActive := isActive u;
     isLocked := isLocked u; lockReason := lockReason u;
     lastLogin := lastLogin u; lastTwoFactorVerification := Some now;
     createdAt := createdAt u |}.

(** [twoFactorMiddleware]: a response, or the document it has updated and
    saved before calling [next()]. *)
Definition twoFactorMiddleware {D : Type} (user : Document)
  (twoFactorCode : option string) (now : Z) (store : list User)
  : (Response D + Document) * list User :=
  if negb (truthy_opt twoFactorCode)
  then (inl (failure 400 "2FA code is required"), store)
  else if negb (twoFactorEnabled (fields user))
  then (inl (failure 400 "2FA is not enabled for this account"), store)
  else
    match authenticator_verify (or_empty twoFactorCode)
            (UserModel.doc_twoFactorSecret user) with
    | Throw _ => (inl (failure 500 "2FA verification error"), store)
    | Ok false => (inl (failure 401 "Invalid 2FA code"), store)
    | Ok true =>
        let user' :=
          {| selection := selection user;
             fields := with_lastTwoFactorVerification (fields user) now |} in
        (inr user', UserModel.save (fields user') store)
    end.

(** [[authMiddleware, deviceMiddleware, twoFactorMiddleware]] *)
Definition highSecurityMiddleware {D : Type} (cfg : Config)
  (authHeader : option string) (deviceInfo : option DeviceInfo)
  (twoFactorCode : option string) (now : Z) (store : list User)
  : (Response D + Document) * list User :=
  match AuthMiddleware.authMiddleware cfg authHeader store with
  | inl response => (inl response, store)
  | inr user =>
      match deviceMiddleware user deviceInfo with
      | Some response => (inl response, store)
      | None => twoFactorMiddleware user twoFactorCode now store
      end
  end.

(** [router.post('/send', transactionLimiter, highSecurityMiddleware,
    sendCrypto)], for a request the rate limiter lets through. *)
Definition post_send (cfg : Config) (chains : Chains)
  (authHeader : option string) (deviceInfo : option DeviceInfo)
  (twoFactorCode : option string) (body : SendRequest) (now : Z)
  (store : list User) : Response SendData * list User * list ChainCall :=
  match highSecurityMiddleware cfg authHeader deviceInfo twoFactorCode now
          store with
  | (inl response, store') => (response, store', [])
  | (inr user, store') => WalletController.sendCrypto cfg chains user body store'
  end.

End WithLibrary.

End HighSecurity.

(** ** config/chains.js *)

Record ChainConfig : Type := {
  cc_name : string;
  cc_symbol : string;
  cc_explorer : string;
  cc_decimals : nat
}.

(** The five entries of [chains]. *)
Definition chains_table (key : string) : option ChainConfig :=
  if String.eqb key "ethereum"
  then Some {| cc_name := "Ethereum"; cc_symbol := "ETH";
               cc_explorer := "https://etherscan.io"; cc_decimals := 18 |}
  else if String.eqb key "bsc"
  then Some {| cc_name := "Binance Smart Chain"; cc_symbol := "BNB";
               cc_explorer := "https://bscscan.com"; cc_decimals := 18 |}
  else if String.eqb key "polygon"
  then Some {| cc_name := "Polygon"; cc_symbol := "MATIC";
               cc_explorer := "https://polygonscan.com"; cc_decimals := 18 |}
  else if String.eqb key "bitcoin"
  then Some {| cc_name := "Bitcoin"; cc_symbol := "BTC";
               cc_explorer := "https://blockstream.info"; cc_decimals := 8 |}
  else if String.eqb key "tron"
  then Some {| cc_name := "Tron"; cc_symbol := "TRX";
               cc_explorer := "https://tronscan.org"; cc_decimals := 6 |}
  else None.

(** [chains[key]] as the code tests and reads it: the configuration of a
    chain, or a value that is truthy and has none of its fields for the two
    lower-case keys every object inherits, or [undefined]. *)
Inductive ChainLookup : Type :=
| Configured (chainConfig : ChainConfig)
| Inherited
| Undefined.

Definition chains_lookup (key : string) : ChainLookup :=
  match chains_table key with
  | Some chainConfig => Configured chainConfig
  | None =>
      if String.eqb key "constructor" || String.eqb key "__proto__"
      then Inherited
      else Undefined
  end.

(** [`${chainConfig.explorer}`] *)
Definition explorer_of (found : ChainLookup) : string :=
  match found with
  | Configured chainConfig => cc_explorer chainConfig
  | _ => "undefined"
  end.

(** [Object.entries(tokens.ethereum)] and its siblings. *)
Definition tokens_ethereum : list (string * string) :=
  [ ("USDT", "0xdAC17F958D2ee523a2206206994597C13D831ec7");
    ("USDC", "0xA0b86a33E6441c66c5B91266a48c1Be6b8996825");
    ("LINK", "0x514910771AF9Ca656af840dff83E8264EcF986CA") ].

Definition tokens_bsc : list (string * string) :=
  [ ("USDT", "0x55d398326f99059fF775485246999027B3197955");
    ("BUSD", "0xe9e7CEA3DedcA5984780Bafc599bD69ADd087D56");
    ("CAKE", "0x0E09FaBB73Bd3Ade0a17ECC321fD13a19e81cE82") ].

Definition tokens_polygon : list (string * string) :=
  [ ("USDT", "0xc2132D05D31c914a87C6611C10748AEb04B58e8F");
    ("USDC", "0x2791Bca1f2de4661ED88A30C99A7a9449Aa84174");
    ("WMATIC", "0x0d500B1d8E8eF31E21C99d1Db9A6444d3ADf1270") ].

Definition tokens_tron : list (string * string) :=
  [ ("USDT", "TR7NHqjeKQxGTCi8q8ZY4pL8otSzgjLj6t") ].

(** ** The number formatting the chain code calls

    [ethers.utils.formatUnits value decimals] ([formatEther] is the case of
    18 decimals, the unit ['gwei'] the case of 9), [Number.prototype
    .toString], and [new ethers.Wallet(privateKey)], which throws on a key
    that is not one. *)
Class Formatting : Type := {
  formatUnits : Z -> Z -> string;
  number_toString : Q -> string;
  ethers_Wallet : string -> result EthersWallet
}.

Definition formatEther {F : Formatting} (wei : Z) : string :=
  formatUnits wei 18.

(** [BigNumber.prototype.toString]: the decimal numeral. *)
Definition bigNumber_toString (z : Z) : string :=
  NilZero.string_of_int (Z.to_int z).

(** [s.includes(sub)] *)
Definition string_includes (s sub : string) : bool :=
  match String.index 0 sub s with
  | Some _ => true
  | None => false
  end.

(** ** models/User.js: [getWalletAddress] *)

Module UserWallets.

Section WithLibrary.
Context {L : Library}.

(** [null] and an [undefined] address are both [None]. *)
Definition getWalletAddress (this : User) (chain : string) : option string :=
  let chainLower := toLowerCase chain in
  if WalletController.includes
       ["ethereum"; "eth"; "bsc"; "bnb"; "polygon"; "matic"] chainLower
  then address (ethereum (wallets this))
  else if WalletController.includes ["bitcoin"; "btc"] chainLower
  then address (bitcoin (wallets this))
  else if WalletController.includes ["tron"; "trx"] chainLower
  then address (tron (wallets this))
  else None.

End WithLibrary.

End UserWallets.

(** ** utils/sendTx.js: [estimateTransactionFee] and [sendEthTransaction] *)

Record FeeEstimate : Type := {
  fe_gasPrice : option string;
  fe_gasLimit : option string;
  fe_estimatedFee : string;
  fe_feeRate : option string;
  fe_bandwidth : option string;
  fe_energy : option string;
  fe_currency : string
}.

(** A transaction request handed to the signer, and what the calls of an
    EVM node answer; the first argument is the key of the chain. *)
Record TxRequest : Type := {
  rq_to : string;
  rq_value : Z;
  rq_gasPrice : Z;
  rq_gasLimit : Z
}.

Record EvmTransaction : Type := {
  et_hash : string;
  et_gasPrice : option Z;
  et_gasLimit : option Z;
  et_nonce : Z
}.

Record EvmProvider : Type := {
  getGasPrice : string -> result Z;
  getBalance : string -> string -> result Z;
  wallet_estimateGas : string -> string -> string -> Z -> Z -> result Z;
  wallet_sendTransaction : string -> string -> TxRequest
                           -> result EvmTransaction;
  contract_decimals : string -> string -> result Z;
  contract_estimateGas_transfer : string -> string -> string -> string -> Z
                                  -> result Z;
  contract_transfer : string -> string -> string -> TxRequest
                      -> result EvmTransaction;
  contract_balance : string -> string -> string -> result (Z * Z * string);
  parseUnits : string -> Z -> result Z
}.

Record EvmResult : Type := {
  er_txHash : string;
  er_chain : string;
  er_to : string;
  er_amount : Q;
  er_tokenAddress : option string;
  er_gasPrice : option string;
  er_gasLimit : option string;
  er_nonce : Z;
  er_status : string;
  er_explorerUrl : string
}.

Module SendTxEvm.

Section WithLibrary.
Context {L : Library} {F : Formatting}.

Definition estimateTransactionFee (provider : EvmProvider) (params : TxParams)
  : result FeeEstimate :=
  rethrow "Fee estimation failed: "
    (let chain := tp_chain params in
     let c := toLowerCase chain in
     if String.eqb c "ethereum" || String.eqb c "bsc" || String.eqb c "polygon"
     then
       match chains_table c with
       | None =>
           Throw "Cannot read properties of undefined (reading 'rpcUrl')"
       | Some chainConfig =>
           gasPrice <- getGasPrice provider c ;;
           let gasLimit :=
             if truthy_opt (tp_tokenAddress params) then 65000%Z
             else 21000%Z in
           let feeWei := (gasPrice * gasLimit)%Z in
           let feeEth := formatEther feeWei in
           Ok {| fe_gasPrice := Some (formatUnits gasPrice 9);
                 fe_gasLimit := Some (bigNumber_toString gasLimit);
                 fe_estimatedFee := feeEth;
                 fe_feeRate := None; fe_bandwidth := None; fe_energy := None;
                 fe_currency := cc_symbol chainConfig |}
       end
     else if String.eqb c "bitcoin"
     then Ok {| fe_gasPrice := None; fe_gasLimit := None;
                fe_estimatedFee := "0.0001";
                fe_feeRate := Some "10"; fe_bandwidth := None;
                fe_energy := None; fe_currency := "BTC" |}
     else if String.eqb c "tron"
     then Ok {| fe_gasPrice := None; fe_gasLimit := None;
                fe_estimatedFee := "0";
                fe_feeRate := None; fe_bandwidth := Some "Variable";
                fe_energy :=
                  Some (if truthy_opt (tp_tokenAddress params) then "65000"
                        else "0");
                fe_currency := "TRX" |}
     else Throw ("Fee estimation not supported for " ++ chain)).

(** [x || y] on gas values: zero is falsy. *)
Definition or_else (x : option Z) (y : Z) : Z :=
  match x with
  | Some v => if (v =? 0)%Z then y else v
  | None => y
  end.

(** [estimatedGas.mul(120).div(100)]; the estimate is not negative. *)
Definition withBuffer (estimatedGas : Z) : Z := (estimatedGas * 120 / 100)%Z.

(** [sendEthTransaction]; [gasPrice] and [gasLimit] are the two optional
    parameters, [amountText] is [amount.toString()]. *)
Definition sendEthTransaction (provider : EvmProvider) (params : TxParams)
  (gasPrice gasLimit : option Z) : result EvmResult :=
  let chain := tp_chain params in
  let to := tp_to params in
  let privateKey := or_empty (tp_privateKey params) in
  let amountText := number_toString (tp_amount params) in
  rethrow ("Failed to send " ++ chain ++ " transaction: ")
    (let c := toLowerCase chain in
     match chains_lookup c with
     | Undefined => Throw ("Unsupported chain: " ++ chain)
     | chainConfig =>
         wallet <- ethers_Wallet privateKey ;;
         transaction <-
           (if truthy_opt (tp_tokenAddress params)
            then
              let tokenAddress := or_empty (tp_tokenAddress params) in
              decimals <- contract_decimals provider c tokenAddress ;;
              amountWei <- parseUnits provider amountText decimals ;;
              estimatedGas <- contract_estimateGas_transfer provider c
                                tokenAddress privateKey to amountWei ;;
              let limit := or_else gasLimit (withBuffer estimatedGas) in
              price <- match gasPrice with
                       | Some p =>
                           if (p =? 0)%Z then getGasPrice provider c else Ok p
                       | None => getGasPrice provider c
                       end ;;
              contract_transfer provider c tokenAddress privateKey
                {| rq_to := to; rq_value := amountWei; rq_gasPrice := price;
                   rq_gasLimit := limit |}
            else
              amountWei <- parseUnits provider amountText 18 ;;
              price <- match gasPrice with
                       | Some p =>
                           if (p =? 0)%Z then getGasPrice provider c else Ok p
                       | None => getGasPrice provider c
                       end ;;
              estimatedGas <- wallet_estimateGas provider c privateKey to
                                amountWei price ;;
              let limit := or_else gasLimit (withBuffer estimatedGas) in
              wallet_sendTransaction provider c privateKey
                {| rq_to := to; rq_value := amountWei; rq_gasPrice := price;
                   rq_gasLimit := limit |}) ;;
         Ok {| er_txHash := et_hash transaction;
               er_chain := chain;
               er_to := to;
               er_amount := tp_amount params;
               er_tokenAddress := tp_tokenAddress params;
               er_gasPrice := option_map bigNumber_toString
                                (et_gasPrice transaction);
               er_gasLimit := option_map bigNumber_toString
                                (et_gasLimit transaction);
               er_nonce := et_nonce transaction;
               er_status := "pending";
               er_explorerUrl :=
                 explorer_of chainConfig ++ "/tx/" ++ et_hash transaction |}
     end).

End WithLibrary.

End SendTxEvm.

(** ** utils/getBalance.js: the other balances *)

Record TokenBalance : Type := {
  tb_balance : string;
  tb_symbol : string;
  tb_decimals : string;
  tb_tokenAddress : string;
  tb_chain : string
}.

(** What [tronWeb.trx.getAccount] answers: the fields may be absent. *)
Record TronAccount : Type := {
  ta_balance : option Z;
  ta_bandwidth : option Z;
  ta_energy : option Z
}.

(** The Tron node: the account of an address, and the three reads of a
    TRC20 contract (balance, symbol, decimals). *)
Record TronNode : Type := {
  trx_getAccount : string -> result TronAccount;
  trc20_read : string -> string -> result (Z * string * N)
}.

Record TronBalance : Type := {
  trb_balance : Q;
  trb_symbol : string;
  trb_decimals : nat;
  trb_chain : string;
  trb_bandwidth : Z;
  trb_energy : Z
}.

(** What [getAllBalances] returns; [bandwidth] and [energy] are set on
    Tron only. *)
Record ChainBalances : Type := {
  cb_chain : string;
  cb_address : string;
  cb_native : string;
  cb_native_symbol : string;
  cb_tokens : list (string * TokenBalance);
  cb_bandwidth : option Z;
  cb_energy : option Z;
  cb_timestamp : string
}.

(** An entry of [allBalances]: the balances of a chain, or
    [{ error: message }]. *)
Inductive ChainEntry : Type :=
| Balances (b : ChainBalances)
| BalanceError (message : string).

(** [allBalances]: a chain whose wallet has no address has no entry. *)
Record AllChainsBalances : Type := {
  acb_ethereum : option ChainEntry;
  acb_bsc : option ChainEntry;
  acb_polygon : option ChainEntry;
  acb_bitcoin : option ChainEntry;
  acb_tron : option ChainEntry;
  acb_timestamp : string
}.

(** The nodes and the explorer behind the balance functions. *)
Record BalanceBackend : Type := {
  evm : EvmProvider;
  btc_explorer : bool -> string -> Axios AddressData;
  tron_node : TronNode
}.

Module Balances.

Section WithLibrary.
Context {L : Library} {F : Formatting}.

Definition getEthCompatibleBalance (provider : EvmProvider)
  (address chain : string) : result string :=
  rethrow ("Failed to get " ++ chain ++ " balance: ")
    (match chains_lookup (toLowerCase chain) with
     | Undefined => Throw ("Unsupported chain: " ++ chain)
     | _ =>
         balance <- getBalance provider (toLowerCase chain) address ;;
         Ok (formatEther balance)
     end).

Definition getTokenBalance (provider : EvmProvider)
  (address tokenAddress chain : string) : result TokenBalance :=
  rethrow "Failed to get token balance: "
    (match chains_lookup (toLowerCase chain) with
     | Undefined => Throw ("Unsupported chain: " ++ chain)
     | _ =>
         r <- contract_balance provider (toLowerCase chain) tokenAddress
                address ;;
         let '(balance, decimals, symbol) := r in
         let formattedBalance := formatUnits balance decimals in
         Ok {| tb_balance := formattedBalance;
               tb_symbol := symbol;
               tb_decimals := bigNumber_toString decimals;
               tb_tokenAddress := tokenAddress;
               tb_chain := chain |}
     end).

(** [x || 0] *)
Definition or_zero (x : option Z) : Z :=
  match x with
  | Some v => v
  | None => 0%Z
  end.

Definition getTronBalance (node : TronNode) (address : string)
  : result TronBalance :=
  match trx_getAccount node address with
  | Ok account =>
      let balance := or_zero (ta_balance account) in
      let formattedBalance := (inject_Z balance / 1000000)%Q in
      Ok {| trb_balance := formattedBalance;
            trb_symbol := "TRX";
            trb_decimals := 6;
            trb_chain := "tron";
            trb_bandwidth := or_zero (ta_bandwidth account);
            trb_energy := or_zero (ta_energy account) |}
  | Throw message =>
      if string_includes message "account not found"
      then Ok {| trb_balance := 0%Q;
                 trb_symbol := "TRX";
                 trb_decimals := 6;
                 trb_chain := "tron";
                 trb_bandwidth := 0%Z;
                 trb_energy := 0%Z |}
      else Throw ("Failed to get Tron balance: " ++ message)
  end.

Definition getTRC20Balance (node : TronNode) (address tokenAddress : string)
  : result TokenBalance :=
  rethrow "Failed to get TRC20 balance: "
    (r <- trc20_read node tokenAddress address ;;
     let '(balance, symbol, decimals) := r in
     let formattedBalance :=
       number_toString
         (inject_Z balance / inject_Z (10 ^ Z.of_N decimals))%Q in
     Ok {| tb_balance := formattedBalance;
           tb_symbol := symbol;
           tb_decimals := bigNumber_toString (Z.of_N decimals);
           tb_tokenAddress := tokenAddress;
           tb_chain := "tron" |}).

(** [parseFloat(tokenBalance.balance) > 0] *)
Definition positive_balance (balance : string) : bool :=
  match parseFloat (Some balance) with
  | Some q => negb (Qle_bool q 0)
  | None => false
  end.

(** The loop over the token table: a token is listed when its balance was
    read and is positive; a failed read is logged and skipped. *)
Fixpoint collectTokens (read : string -> result TokenBalance)
  (table : list (string * string)) : list (string * TokenBalance) :=
  match table with
  | [] => []
  | (symbol, tokenAddress) :: rest =>
      match read tokenAddress with
      | Ok tokenBalance =>
          if positive_balance (tb_balance tokenBalance)
          then (symbol, tokenBalance) :: collectTokens read rest
          else collectTokens read rest
      | Throw _ => collectTokens read rest
      end
  end.

(** [getAllBalances]; [now] is [new Date().toISOString()]. *)
Definition getAllBalances (backend : BalanceBackend) (address chain : string)
  (now : string) : result ChainBalances :=
  rethrow "Failed to get all balances: "
    (let chainLower := toLowerCase chain in
     let evmBalances (key symbol : string) (table : list (string * string)) :=
       native <- getEthCompatibleBalance (evm backend) address key ;;
       Ok {| cb_chain := chainLower; cb_address := address;
             cb_native := native; cb_native_symbol := symbol;
             cb_tokens :=
               collectTokens
                 (fun tokenAddress =>
                    getTokenBalance (evm backend) address tokenAddress key)
                 table;
             cb_bandwidth := None; cb_energy := None;
             cb_timestamp := now |} in
     if String.eqb chainLower "ethereum" || String.eqb chainLower "eth"
     then evmBalances "ethereum" "ETH" tokens_ethereum
     else if String.eqb chainLower "bsc" || String.eqb chainLower "bnb"
     then evmBalances "bsc" "BNB" tokens_bsc
     else if String.eqb chainLower "polygon" || String.eqb chainLower "matic"
     then evmBalances "polygon" "MATIC" tokens_polygon
     else if String.eqb chainLower "bitcoin" || String.eqb chainLower "btc"
     then
       bitcoinBalance <-
         GetBalance.getBitcoinBalance (btc_explorer backend) address false ;;
       Ok {| cb_chain := chainLower; cb_address := address;
             cb_native := number_toString (bb_balance bitcoinBalance);
             cb_native_symbol := "BTC";
             cb_tokens := [];
             cb_bandwidth := None; cb_energy := None;
             cb_timestamp := now |}
     else if String.eqb chainLower "tron" || String.eqb chainLower "trx"
     then
       tronBalance <- getTronBalance (tron_node backend) address ;;
       Ok {| cb_chain := chainLower; cb_address := address;
             cb_native := number_toString (trb_balance tronBalance);
             cb_native_symbol := "TRX";
             cb_tokens :=
               collectTokens
                 (fun tokenAddress =>
                    getTRC20Balance (tron_node backend) address tokenAddress)
                 tokens_tron;
             cb_bandwidth := Some (trb_bandwidth tronBalance);
             cb_energy := Some (trb_energy tronBalance);
             cb_timestamp := now |}
     else Throw ("Unsupported chain: " ++ chain)).

(** [p.catch(err => ({ error: err.message }))] and the [try]/[catch] with
    the same effect. *)
Definition entry_of (r : result ChainBalances) : ChainEntry :=
  match r with
  | Ok b => Balances b
  | Throw message => BalanceError message
  end.

Definition getAllChainsBalances (backend : BalanceBackend) (wallets : Wallets)
  (now : string) : result AllChainsBalances :=
  rethrow "Failed to get all chains balances: "
    (let evmEntry (chain : string) :=
       if truthy_opt (address (ethereum wallets))
       then Some (entry_of
                    (getAllBalances backend
                       (or_empty (address (ethereum wallets))) chain now))
       else None in
     Ok {| acb_ethereum := evmEntry "ethereum";
           acb_bsc := evmEntry "bsc";
           acb_polygon := evmEntry "polygon";
           acb_bitcoin :=
             if truthy_opt (address (bitcoin wallets))
             then Some (entry_of
                          (getAllBalances backend
                             (or_empty (address (bitcoin wallets)))
                             "bitcoin" now))
             else None;
           acb_tron :=
             if truthy_opt (address (tron wallets))
             then Some (entry_of
                          (getAllBalances backend
                             (or_empty (address (tron wallets))) "tron" now))
             else None;
           acb_timestamp := now |}).

End WithLibrary.

End Balances.

(** ** controllers/walletController.js: the queries *)

Record EstimateRequest : Type := {
  eq_chain : option string;
  eq_recipient : option string;
  eq_amount : option string;
  eq_tokenAddress : option string
}.

(** [data] of the answer of [estimateFee]. *)
Record EstimateData : Type := {
  ed_networkFee : FeeEstimate;
  ed_platformFee_amount : Q;
  ed_platformFee_currency : string;
  ed_platformFee_percentage : Q;
  ed_total_amount : Q;
  ed_total_networkFee : string;
  ed_total_platformFee : Q
}.

Module WalletQueries.

Section WithLibrary.
Context {L : Library} {F : Formatting}.

Definition getBalances (backend : BalanceBackend) (user : Document)
  (now : string) : Response AllChainsBalances :=
  match Balances.getAllChainsBalances backend (wallets (fields user)) now with
  | Ok balanceData => succeed 200 "Balances retrieved successfully" balanceData
  | Throw _ => failure 500 "Failed to retrieve balances"
  end.

Definition getChainBalance (backend : BalanceBackend) (user : Document)
  (chain : option string) (now : string) : Response ChainBalances :=
  if negb (truthy_opt chain)
  then failure 400 "Chain parameter is required"
  else
    let chain := or_empty chain in
    let address := UserWallets.getWalletAddress (fields user) chain in
    if negb (truthy_opt address)
    then failure 404 ("No wallet found for chain: " ++ chain)
    else
      match Balances.getAllBalances backend (or_empty address) chain now with
      | Ok balanceData =>
          succeed 200 (chain ++ " balance retrieved successfully") balanceData
      | Throw _ => failure 500 ("Failed to retrieve " ++ chain ++ " balance")
      end.

Definition estimateFee (cfg : Config) (provider : EvmProvider)
  (body : EstimateRequest) : Response EstimateData :=
  if negb (truthy_opt (eq_chain body)) || negb (truthy_opt (eq_recipient body))
     || negb (truthy_opt (eq_amount body))
  then failure 400 "Chain, recipient, and amount are required"
  else
    match parseFloat (eq_amount body) with
    | None => failure 400 "Amount must be a positive number"
    | Some numericAmount =>
    if Qle_bool numericAmount 0
    then failure 400 "Amount must be a positive number"
    else
      match SendTxEvm.estimateTransactionFee provider
              {| tp_chain := or_empty (eq_chain body);
                 tp_to := or_empty (eq_recipient body);
                 tp_amount := numericAmount;
                 tp_encryptedPrivateKey := None;
                 tp_tokenAddress := eq_tokenAddress body;
                 tp_privateKey := None;
                 tp_feeRate := None;
                 tp_testnet := None |} with
      | Throw _ => failure 500 "Fee estimation failed"
      | Ok feeEstimate =>
          let platformFeePercentage :=
            WalletController.platformFeePercentage cfg in
          let platformFee :=
            number_mul numericAmount (number_div platformFeePercentage 100) in
          succeed 200 "Fee estimated successfully"
            {| ed_networkFee := feeEstimate;
               ed_platformFee_amount := platformFee;
               ed_platformFee_currency := "SHIBAU";
               ed_platformFee_percentage := platformFeePercentage;
               ed_total_amount := numericAmount;
               ed_total_networkFee := fe_estimatedFee feeEstimate;
               ed_total_platformFee := platformFee |}
      end
    end.

End WithLibrary.

End WalletQueries.

(** ** controllers/authController.js: [verifyToken], and its route *)

(** [data.user] of the answer of [verifyToken]. *)
Record VerifyData : Type := {
  vd_id : string;
  vd_username : string;
  vd_walletAddresses : WalletAddresses;
  vd_twoFactorEnabled : bool;
  vd_lastLogin : option Z;
  vd_platformFeeBalance : Q;
  vd_isActive : bool;
  vd_newDeviceFound : bool
}.

Module TokenRoute.

Section WithLibrary.
Context {L : Library}.

(** The answer carries no message. *)
Definition verifyToken (user : Document) : Response VerifyData :=
  succeed 200 ""
    {| vd_id := _id (fields user);
       vd_username := username (fields user);
       vd_walletAddresses := AuthController.walletAddresses (fields user);
       vd_twoFactorEnabled := twoFactorEnabled (fields user);
       vd_lastLogin := lastLogin (fields user);
       vd_platformFeeBalance := platformFeeBalance (fields user);
       vd_isActive := isActive (fields user);
       vd_newDeviceFound := newDeviceFound (fields user) |}.

(** [router.get('/verify', authMiddleware, verifyToken)] *)
Definition get_verify (cfg : Config) (authHeader : option string)
  (store : list User) : Response VerifyData :=
  match AuthMiddleware.authMiddleware cfg authHeader store with
  | inl response => response
  | inr user => verifyToken user
  end.

End WithLibrary.

End TokenRoute.

(** ** Further contracts and measures *)

(** [bcrypt.compare] accepts a value against the hash [bcrypt.hash] made of
    it, under any salt. *)
Class BcryptLaws (L : Library) : Prop := {
  bcrypt_compare_hash : forall plain salt,
    bcrypt_compare plain (bcrypt_hash plain salt) = true
}.

(** Under a secret that is set, [jwt.verify] decodes the user id
    [jwt.sign] signed (within the 24 hours of the token), and a token is
    not the empty string. *)
Class JwtLaws (L : Library) : Prop := {
  jwt_verify_sign : forall userId secret,
    jwt_verify (jwt_sign userId (Some secret)) (Some secret)
    = JwtDecoded userId;
  jwt_sign_nonempty : forall userId secret,
    jwt_sign userId (Some secret) <> ""
}.

(** The total value of the outputs of a transaction. *)
Definition outputs_total (outputs : list (string * Z)) : Z :=
  fold_right (fun o acc => (snd o + acc)%Z) 0%Z outputs.

(** ** An executable instance of the library interface

    Small stand-ins with the shape of the real functions, so that every
    definition above can be run: the keystream complements each byte, the
    tag is a one-byte checksum padded to 16 bytes, the encodings are
    transparent, a one-time code is the secret itself. *)

Module Reference.

Local Open Scope string_scope.

Definition flip (b : byte) : byte :=
  match Byte.of_N (255 - Byte.to_N b) with
  | Some c => c
  | None => b
  end.

Definition sumN (bs : buffer) : N :=
  fold_right (fun b acc => (Byte.to_N b + acc)%N) 0%N bs.

Definition byte_of (n : N) : byte :=
  match Byte.of_N (n mod 256) with
  | Some c => c
  | None => x00
  end.

Definition checksum_tag (key aad data : buffer) : buffer :=
  byte_of (sumN key + sumN aad + sumN data) :: repeat x00 15.

Fixpoint digits (s : string) (acc : N) : option N :=
  match s with
  | EmptyString => Some acc
  | String c s' =>
      let d := N_of_ascii c in
      if (48 <=? d)%N && (d <=? 57)%N
      then digits s' (10 * acc + (d - 48))%N
      else None
  end.

Definition parse_number (o : option string) : option Q :=
  match o with
  | Some (String c s) =>
      option_map (fun n => inject_Z (Z.of_N n)) (digits (String c s) 0%N)
  | _ => None
  end.

(** [trim] on strings whose only white space is the space character. *)
Fixpoint strip_left (s : string) : string :=
  match s with
  | String " " s' => strip_left s'
  | _ => s
  end.

Definition reverse (s : string) : string :=
  string_of_list_ascii (rev (list_ascii_of_string s)).

Definition strip_spaces (s : string) : string :=
  reverse (strip_left (reverse (strip_left s))).

Definition wallet_of (tag : string) : EthersWallet :=
  {| ew_address := "0xA" ++ tag;
     ew_privateKey := "0xK" ++ tag;
     ew_mnemonic := Some ("abandon " ++ tag);
     ew_publicKey := "0xP" ++ tag |}.

Definition library : Library :=
  {| pbkdf2Sync := fun password salt _ keylen =>
       firstn keylen
         (salt ++ list_byte_of_string password ++ repeat x00 keylen)%list;
     gcm_keystream := fun _ data => map flip data;
     gcm_tag := checksum_tag;
     base64_encode := string_of_list_byte;
     base64_decode := list_byte_of_string;
     hex_encode := string_of_list_byte;
     sha256 := list_byte_of_string;
     sha256_hex := fun s => s;
     trim := strip_spaces;
     bcrypt_hash := fun plain _ => "$2b$12$" ++ plain;
     bcrypt_compare := fun plain hash => String.eqb ("$2b$12$" ++ plain) hash;
     authenticator_generateSecret := fun rnd => "K" ++ string_of_list_byte rnd;
     authenticator_verify := fun token secret =>
       match secret with
       | Some s => Ok (String.eqb token s)
       | None => Throw "The first argument must be of type string"
       end;
     authenticator_keyuri := fun account service secret =>
       "otpauth://totp/" ++ service ++ ":" ++ account ++ "?secret=" ++ secret;
     qrcode_toDataURL := fun s => "data:image/png;base64," ++ s;
     jwt_sign := fun userId _ => "jwt:" ++ userId;
     jwt_verify := fun token _ =>
       if String.prefix "jwt:" token
       then JwtDecoded (String.substring 4 (String.length token - 4) token)
       else JsonWebTokenError;
     ethers_createRandom := fun rnd => Ok (wallet_of (string_of_list_byte rnd));
     ethers_fromMnemonic := fun m => Ok (wallet_of m);
     ECPair_fromPrivateKey := fun b =>
       Ok {| kp_privateKey := b; kp_publicKey := map flip b;
             kp_wif := "W" ++ string_of_list_byte b |};
     payments_p2pkh := fun pub => "1" ++ string_of_list_byte pub;
     payments_p2wpkh := fun pub => "bc1q" ++ string_of_list_byte pub;
     tron_fromPrivateKey := fun k => "T" ++ k;
     tron_toHex := fun a => "41" ++ a;
     hex_decode := list_byte_of_string;
     toLowerCase := fun s => s;
     parseFloat := parse_number;
     ethers_isAddress := fun _ => true;
     regexp_test := fun _ _ => true |}.

(** The sample key of the README. *)
Definition config : Config :=
  {| jwtSecret := Some "jwt-secret";
     encryptionKey := Some "your-32-byte-encryption-key-here123";
     PLATFORM_FEE_PERCENTAGE := None |}.

Definition entropy0 : entropy :=
  {| rnd_salt := repeat x00 64; rnd_iv := repeat x00 16 |}.

Definition entropy1 : entropy :=
  {| rnd_salt := repeat x01 64; rnd_iv := repeat x00 16 |}.

(** Two registered accounts and the requests used to run the handlers. *)
Definition device_alice : DeviceInfo :=
  {| deviceId := Some "device-0001-alice"; platform := Some "android";
     model := Some "Pixel 7"; version := Some "14";
     fingerprint := Some "fp-alice"; userAgent := None;
     screenResolution := None; timezone := None; language := None |}.

Definition device_other : DeviceInfo :=
  {| deviceId := Some "device-0002-other"; platform := Some "android";
     model := Some "Pixel 7"; version := Some "14";
     fingerprint := Some "fp-alice"; userAgent := None;
     screenResolution := None; timezone := None; language := None |}.

Definition wallet (name : string) : WalletRecord :=
  {| address := Some ("addr-" ++ name);
     encryptedPrivateKey := Some ("blob-key-" ++ name);
     encryptedSeed := Some ("blob-seed-" ++ name) |}.

Definition account (id name : string) (device : DeviceInfo) (balance : Q)
  : User :=
  {| _id := id; username := name;
     securityCodeHash := "$2b$12$" ++ name ++ "-code";
     hashKeyHash := "$2b$12$" ++ name ++ "-key";
     deviceInfo := device; newDeviceFound := false;
     pendingDeviceInfo := None;
     twoFactorSecret := "K" ++ name; twoFactorEnabled := true;
     wallets :=
       {| ethereum := wallet (name ++ "-eth");
          bitcoin := wallet (name ++ "-btc");
          tron := wallet (name ++ "-tron") |};
     platformFeeBalance := balance; isActive := true; isLocked := false;
     lockReason := None; lastLogin := None;
     lastTwoFactorVerification := None; createdAt := 0%Z |}.

Definition alice : User := account "u1" "alice" device_alice (1 # 1024).

Definition bob : User := account "u2" "bob" device_other 5.

Definition store : list User := [alice; bob].

(** Alice's secret code with Bob's hash key. *)
Definition login_crossed : LoginRequest :=
  {| lr_securityCode := Some "alice-code"; lr_hashKey := Some "bob-key";
     lr_deviceInfo := Some device_alice; lr_twoFactorCode := Some "Kalice" |}.

(** Alice's credentials and a valid code from another device. *)
Definition login_other_device : LoginRequest :=
  {| lr_securityCode := Some "alice-code"; lr_hashKey := Some "alice-key";
     lr_deviceInfo := Some device_other; lr_twoFactorCode := Some "Kalice" |}.

(** Alice's credentials and a valid code from her own device. *)
Definition login_alice : LoginRequest :=
  {| lr_securityCode := Some "alice-code"; lr_hashKey := Some "alice-key";
     lr_deviceInfo := Some device_alice; lr_twoFactorCode := Some "Kalice" |}.

(** A registration of a third account. *)
Definition registration : RegisterRequest :=
  {| rr_username := Some "carol"; rr_securityCode := Some "carol-code";
     rr_hashKey := Some "carol-key"; rr_deviceInfo := Some device_alice |}.

Definition register_entropy : RegisterEntropy :=
  {| rnd_totp := [x41; x42];
     rnd_wallets :=
       {| rnd_seed := [x35; x65]; rnd_eth := [x37];
          rnd_enc_eth_key := entropy0; rnd_enc_eth_seed := entropy1;
          rnd_enc_btc_key := entropy0; rnd_enc_btc_seed := entropy1;
          rnd_enc_tron_key := entropy0; rnd_enc_tron_seed := entropy1 |};
     rnd_salt_code := [x01]; rnd_salt_key := [x02];
     new_id := "u3"; reg_now := 1%Z |}.

(** A send of 100 coins by Alice, whose fee credit is 1/1024: the fee is
    the double 100 * (0.1 / 100), about 0.1. *)
Definition send_request : SendRequest :=
  {| sr_coinType := Some "BTC"; sr_chain := Some "bitcoin";
     sr_recipient := Some "bc1qrecipient"; sr_amount := Some "100";
     sr_tokenAddress := None |}.

Definition chains : Chains :=
  {| bitcoin_backend :=
       {| get_utxos := fun _ _ => Ok [];
          get_tx_hex := fun _ _ => Ok "00";
          sign_and_extract := fun _ _ => Ok "00";
          post_tx := fun _ _ => Ok "txid" |};
     sendEthTransaction := fun _ => Throw "no provider";
     sendTronTransaction := fun _ => Throw "no provider" |}.

End Reference.

(** ** Further sample data *)

Module Samples.

Local Open Scope string_scope.

Definition formatting : Formatting :=
  {| formatUnits := fun value _ => bigNumber_toString value;
     number_toString := fun q => bigNumber_toString (Qfloor q);
     ethers_Wallet := fun key => Ok (Reference.wallet_of key) |}.

(** A node that answers every call; of the token contracts, USDT holds 5
    units, USDC holds none and every other contract reverts. *)
Definition provider : EvmProvider :=
  {| getGasPrice := fun _ => Ok 20%Z;
     getBalance := fun _ _ => Ok 7%Z;
     wallet_estimateGas := fun _ _ _ _ _ => Ok 21000%Z;
     wallet_sendTransaction := fun _ _ request =>
       Ok {| et_hash := "0xhash";
             et_gasPrice := Some (rq_gasPrice request);
             et_gasLimit := Some (rq_gasLimit request);
             et_nonce := 0%Z |};
     contract_decimals := fun _ _ => Ok 6%Z;
     contract_estimateGas_transfer := fun _ _ _ _ _ => Ok 52000%Z;
     contract_transfer := fun _ _ _ request =>
       Ok {| et_hash := "0xtoken";
             et_gasPrice := Some (rq_gasPrice request);
             et_gasLimit := Some (rq_gasLimit request);
             et_nonce := 1%Z |};
     contract_balance := fun _ tokenAddress _ =>
       if String.eqb tokenAddress "0xdAC17F958D2ee523a2206206994597C13D831ec7"
       then Ok (5%Z, 6%Z, "USDT")
       else if String.eqb tokenAddress
                 "0xA0b86a33E6441c66c5B91266a48c1Be6b8996825"
       then Ok (0%Z, 6%Z, "USDC")
       else Throw "call revert exception";
     parseUnits := fun text _ =>
       match Reference.digits text 0%N with
       | Some n => Ok (Z.of_N n)
       | None => Throw "invalid decimal value"
       end |}.

(** An explorer that knows every address, and a Tron node that knows none
    but reads the USDT contract. *)
Definition backend : BalanceBackend :=
  {| evm := provider;
     btc_explorer := fun _ _ =>
       AxiosData
         {| chain_stats :=
              {| funded_txo_sum := 150000000%Z; spent_txo_sum := 50000000%Z;
                 tx_count := 2%Z |};
            mempool_stats :=
              {| funded_txo_sum := 0%Z; spent_txo_sum := 0%Z;
                 tx_count := 0%Z |} |};
     tron_node :=
       {| trx_getAccount := fun _ => Throw "class X: account not found";
          trc20_read := fun _ _ => Ok (3000000%Z, "USDT", 6%N) |} |}.

(** An object with a nested object, an empty string and a number. *)
Definition wallet_export : list (string * JsValue) :=
  [ ("label", JsString "savings");
    ("keys", JsObject [("eth", JsString "0xK"); ("note", JsString "")]);
    ("count", JsOther (JsNumber 2)) ].

(** Alice's account, locked. *)
Definition locked_alice : User :=
  {| _id := "u1"; username := "alice";
     securityCodeHash := securityCodeHash Reference.alice;
     hashKeyHash := hashKeyHash Reference.alice;
     deviceInfo := Reference.device_alice; newDeviceFound := false;
     pendingDeviceInfo := None; twoFactorSecret := "Kalice";
     twoFactorEnabled := true; wallets := wallets Reference.alice;
     platformFeeBalance := 0%Q; isActive := true; isLocked := true;
     lockReason := Some "review"; lastLogin := None;
     lastTwoFactorVerification := None; createdAt := 0%Z |}.

(** A descriptor without a fingerprint, and an account bound to it as
    registration binds it. *)
Definition device_bare : DeviceInfo :=
  {| deviceId := Some "device-0004-dave"; platform := Some "ios";
     model := None; version := None; fingerprint := None;
     userAgent := None; screenResolution := None; timezone := None;
     language := None |}.

Definition dave : User :=
  Reference.account "u4" "dave"
    (UserModel.cast_device
       (VerifyDevice.normalizeDeviceInfo (L := Reference.library) device_bare))
    0.

(** The envelope of a private key, and a send under the alias of Ethereum
    to a recipient that is no address. *)
Definition key_blob : string :=
  match Encrypt.encrypt (L := Reference.library)
          (encryptionKey Reference.config) "0xK" Reference.entropy0 with
  | Ok blob => blob
  | Throw _ => ""
  end.

Definition alias_send : TxParams :=
  {| tp_chain := "eth"; tp_to := "not-an-address"; tp_amount := 1%Q;
     tp_encryptedPrivateKey := Some key_blob; tp_tokenAddress := None;
     tp_privateKey := Some "placeholder"; tp_feeRate := None;
     tp_testnet := None |}.

Definition native_send : TxParams :=
  {| tp_chain := "ethereum"; tp_to := "0xrecipient"; tp_amount := 1%Q;
     tp_encryptedPrivateKey := None; tp_tokenAddress := None;
     tp_privateKey := Some "0xK"; tp_feeRate := None; tp_testnet := None |}.

Definition alias_quote : EstimateRequest :=
  {| eq_chain := Some "eth"; eq_recipient := Some "0xrecipient";
     eq_amount := Some "5"; eq_tokenAddress := None |}.

Definition bitcoin_quote : EstimateRequest :=
  {| eq_chain := Some "bitcoin"; eq_recipient := Some "bc1qrecipient";
     eq_amount := Some "100"; eq_tokenAddress := None |}.

(** Alice's credentials from her own device with a code that is not the
    current one. *)
Definition login_stale_code : LoginRequest :=
  {| lr_securityCode := Some "alice-code"; lr_hashKey := Some "alice-key";
     lr_deviceInfo := Some Reference.device_alice;
     lr_twoFactorCode := Some "000000" |}.

(** The letter e with an acute accent, two bytes and one UTF-16 unit, and
    [n] copies of a string. *)
Definition e_acute : string :=
  String (ascii_of_nat 195) (String (ascii_of_nat 169) EmptyString).

Fixpoint copies (n : nat) (s : string) : string :=
  match n with
  | O => EmptyString
  | S n' => s ++ copies n' s
  end.

Definition device_accented (n : nat) : DeviceInfo :=
  {| deviceId := Some (copies n e_acute); platform := Some "ios";
     model := None; version := None; fingerprint := None;
     userAgent := None; screenResolution := None; timezone := None;
     language := None |}.

(** The configuration of a process started without [JWT_SECRET]. *)
Definition config_without_secret : Config :=
  {| jwtSecret := None;
     encryptionKey := encryptionKey Reference.config;
     PLATFORM_FEE_PERCENTAGE := None |}.

(** A registration under Alice's user name between spaces. *)
Definition padded_registration : RegisterRequest :=
  {| rr_username := Some " alice "; rr_securityCode := Some "carol-code";
     rr_hashKey := Some "carol-key";
     rr_deviceInfo := Some Reference.device_alice |}.

(** A registration whose secret code begins with the bcrypt marker. *)
Definition marked_registration : RegisterRequest :=
  {| rr_username := Some "carol"; rr_securityCode := Some "$2b$carol-code";
     rr_hashKey := Some "carol-key";
     rr_deviceInfo := Some Reference.device_alice |}.

Definition wallet_entropy (seedByte ethByte : byte) (e : entropy)
  : WalletEntropy :=
  {| rnd_seed := [seedByte]; rnd_eth := [ethByte];
     rnd_enc_eth_key := e; rnd_enc_eth_seed := e;
     rnd_enc_btc_key := e; rnd_enc_btc_seed := e;
     rnd_enc_tron_key := e; rnd_enc_tron_seed := e |}.

End Samples.

(* ================================================================== *)
(** * Part II: theorems *)
(* ================================================================== *)

(** ** Buffers and strings *)

Lemma truthy_true_iff (s : string) : truthy s = true <-> s <> "".
Proof.
  unfold truthy. rewrite negb_true_iff. split.
  - intros H E. subst s. discriminate H.
  - intros H. apply String.eqb_neq. exact H.
Qed.

Lemma truthy_of_length (s : string) : 0 < String.length s -> truthy s = true.
Proof.
  destruct s as [| c s]; simpl; intros H; [lia | reflexivity].
Qed.

Lemma buffer_eqb_eq (a b : buffer) : buffer_eqb a b = true <-> a = b.
Proof.
  revert b. induction a as [| x a IH]; intros [| y b]; simpl; split;
    try discriminate; try reflexivity.
  - rewrite andb_true_iff. intros [Hxy Hab].
    apply Byte.byte_dec_bl in Hxy. apply IH in Hab. congruence.
  - intros E. injection E as -> ->. rewrite andb_true_iff. split.
    + apply Byte.byte_dec_lb. reflexivity.
    + apply IH. reflexivity.
Qed.

Lemma buffer_eqb_neq (a b : buffer) : a <> b -> buffer_eqb a b = false.
Proof.
  intros H. destruct (buffer_eqb a b) eqn:E; [| reflexivity].
  apply buffer_eqb_eq in E. contradiction.
Qed.

Lemma firstn_app_exact (n : nat) (a b : buffer) :
  List.length a = n -> firstn n (a ++ b) = a.
Proof.
  intros <-. rewrite firstn_app, Nat.sub_diag, firstn_all. simpl.
  apply app_nil_r.
Qed.

Lemma skipn_app_exact (n : nat) (a b : buffer) :
  List.length a = n -> skipn n (a ++ b) = b.
Proof.
  intros <-. rewrite skipn_app, Nat.sub_diag, skipn_all. reflexivity.
Qed.

Lemma set_byte_length (i : nat) (x : byte) (b : buffer) :
  List.length (set_byte i x b) = List.length b.
Proof.
  revert i. induction b as [| y b IH]; intros [| i]; simpl; auto.
Qed.

Lemma set_byte_app_l (i : nat) (x : byte) (a b : buffer) :
  i < List.length a -> set_byte i x (a ++ b) = set_byte i x a ++ b.
Proof.
  revert i. induction a as [| y a IH]; intros [| i]; simpl; intros H;
    try lia; try reflexivity.
  rewrite IH by lia. reflexivity.
Qed.

Lemma set_byte_app_r (i : nat) (x : byte) (a b : buffer) :
  List.length a <= i -> set_byte i x (a ++ b) = a ++ set_byte (i - List.length a) x b.
Proof.
  revert i. induction a as [| y a IH]; intros i; simpl; intros H.
  - rewrite Nat.sub_0_r. reflexivity.
  - destruct i as [| i]; [lia |]. simpl. rewrite IH by lia. reflexivity.
Qed.

Lemma set_byte_changes (i : nat) (x : byte) (b : buffer) :
  i < List.length b -> nth i b x00 <> x -> set_byte i x b <> b.
Proof.
  revert i. induction b as [| y b IH]; intros [| i]; simpl; intros H N E;
    try lia.
  - injection E as E. congruence.
  - injection E as E. apply (IH i); [lia | exact N | exact E].
Qed.

Lemma nth_app_shift (i : nat) (a b : buffer) :
  List.length a <= i -> nth i (a ++ b) x00 = nth (i - List.length a) b x00.
Proof.
  intros H. apply app_nth2. lia.
Qed.

(** ** The envelope cipher (utils/encrypt.js) *)

Section EnvelopeCipher.
Context {L : Library} {HL : CipherLaws L}.

Lemma encrypt_ok (key : option string) (text : string) (e : entropy) :
  Encrypt.key_invalid key = false -> text <> "" ->
  Encrypt.encrypt key text e = Ok (base64_encode (Encrypt.sealed key text e)).
Proof.
  intros Hk Ht. unfold Encrypt.encrypt, Encrypt.cipher_run, Encrypt.sealed.
  apply truthy_true_iff in Ht. rewrite Ht, Hk. reflexivity.
Qed.

Lemma encrypt_inv (key : option string) (text : string) (e : entropy)
  (blob : string) :
  Encrypt.encrypt key text e = Ok blob ->
  Encrypt.key_invalid key = false /\ text <> ""
  /\ blob = base64_encode (Encrypt.sealed key text e).
Proof.
  unfold Encrypt.encrypt, Encrypt.cipher_run, Encrypt.sealed.
  destruct (truthy text) eqn:Ht; simpl; [| discriminate].
  destruct (Encrypt.key_invalid key) eqn:Hk; simpl; [discriminate |].
  intros E. injection E as <-. repeat split.
  apply truthy_true_iff. exact Ht.
Qed.

Lemma base64_encode_injective (a b : buffer) :
  base64_encode a = base64_encode b -> a = b.
Proof.
  intros E. rewrite <- (base64_decode_encode a), <- (base64_decode_encode b).
  rewrite E. reflexivity.
Qed.

(** [decrypt] on an encoded buffer of the wire layout runs the decipher on
    the three fields it slices out; the IV field is not read. *)
Lemma decrypt_layout (key : option string) (salt iv tag ct : buffer) :
  Encrypt.key_invalid key = false ->
  List.length salt = 64 -> List.length iv = 16 -> List.length tag = 16 ->
  Encrypt.decrypt key (base64_encode (salt ++ iv ++ tag ++ ct))
  = rethrow "Decryption failed: "
      (decrypted <- Encrypt.decipher_run (Encrypt.deriveKey key salt)
                      Encrypt.AAD tag ct ;;
       Ok (string_of_list_byte decrypted)).
Proof.
  intros Hk Hs Hi Ht. unfold Encrypt.decrypt.
  assert (Hne : truthy (base64_encode (salt ++ iv ++ tag ++ ct)) = true).
  { apply truthy_of_length.
    pose proof (base64_encode_length (salt ++ iv ++ tag ++ ct)) as Hl.
    rewrite !length_app in Hl. lia. }
  rewrite Hne, Hk. simpl negb. cbv iota.
  rewrite base64_decode_encode.
  unfold subarray, subarray_from, Encrypt.SALT_LENGTH, Encrypt.IV_LENGTH,
    Encrypt.AUTH_TAG_LENGTH.
  replace (64 - 0) with 64 by lia.
  replace (64 + 16 + 16 - (64 + 16)) with 16 by lia.
  change (skipn 0 (salt ++ iv ++ tag ++ ct)) with (salt ++ iv ++ tag ++ ct).
  rewrite (firstn_app_exact 64 salt) by exact Hs.
  replace (salt ++ iv ++ tag ++ ct) with ((salt ++ iv) ++ tag ++ ct)
    by (rewrite <- app_assoc; reflexivity).
  rewrite (skipn_app_exact (64 + 16) (salt ++ iv))
    by (rewrite length_app; lia).
  rewrite (firstn_app_exact 16 tag) by exact Ht.
  replace ((salt ++ iv) ++ tag ++ ct) with ((salt ++ iv ++ tag) ++ ct)
    by (rewrite <- !app_assoc; reflexivity).
  rewrite (skipn_app_exact (64 + 16 + 16) (salt ++ iv ++ tag))
    by (rewrite !length_app; lia).
  reflexivity.
Qed.

(** On a tag of the full sixteen bytes the decipher compares the whole
    tag. *)
Lemma decipher_run_full_tag (key aad authTag encrypted : buffer) :
  List.length authTag = 16 ->
  Encrypt.decipher_run key aad authTag encrypted
  = if buffer_eqb (gcm_tag key aad encrypted) authTag
    then Ok (gcm_keystream key encrypted)
    else Throw "Unsupported state or unable to authenticate data".
Proof.
  intros Ht. unfold Encrypt.decipher_run. rewrite Ht.
  cbn [Encrypt.tag_length_valid existsb Nat.eqb orb negb].
  rewrite <- (gcm_tag_length key aad encrypted), firstn_all.
  reflexivity.
Qed.

Lemma decrypt_sealed (key : option string) (text : string) (e : entropy) :
  Encrypt.key_invalid key = false -> Encrypt.entropy_ok e ->
  Encrypt.decrypt key (base64_encode (Encrypt.sealed key text e)) = Ok text.
Proof.
  intros Hk [Hs Hi]. unfold Encrypt.sealed.
  rewrite decrypt_layout; try assumption; try apply gcm_tag_length.
  rewrite decipher_run_full_tag by apply gcm_tag_length.
  rewrite (proj2 (buffer_eqb_eq _ _) eq_refl). simpl.
  rewrite gcm_keystream_involutive, string_of_list_byte_of_string.
  reflexivity.
Qed.

Lemma sealed_injective_entropy (key : option string) (text : string)
  (e1 e2 : entropy) :
  Encrypt.entropy_ok e1 -> Encrypt.entropy_ok e2 ->
  Encrypt.sealed key text e1 = Encrypt.sealed key text e2 -> e1 = e2.
Proof.
  intros [Hs1 Hi1] [Hs2 Hi2] E. unfold Encrypt.sealed in E.
  destruct e1 as [s1 i1], e2 as [s2 i2]; simpl in *.
  assert (Es : s1 = s2).
  { apply (f_equal (firstn 64)) in E.
    rewrite !firstn_app_exact in E by assumption. exact E. }
  subst s2. apply app_inv_head in E.
  assert (Ei : i1 = i2).
  { apply (f_equal (firstn 16)) in E.
    rewrite !firstn_app_exact in E by assumption. exact E. }
  subst i2. reflexivity.
Qed.

End EnvelopeCipher.

(** C1 (as amended): for every non-empty string [text], under a master key
    of at least 32 characters, [decrypt (encrypt text)] returns [text]; and
    two calls of [encrypt] on the same text whose random salt and IV are not
    the same pair yield different blobs.  (On the empty string [encrypt]
    throws.) *)
Theorem encrypt_decrypt_roundtrip (L : Library) (HL : CipherLaws L)
  (key : option string) (text : string) (e1 e2 : entropy) :
  Encrypt.key_invalid key = false -> text <> "" ->
  Encrypt.entropy_ok e1 -> Encrypt.entropy_ok e2 ->
  exists blob1 blob2,
    Encrypt.encrypt key text e1 = Ok blob1
    /\ Encrypt.decrypt key blob1 = Ok text
    /\ Encrypt.encrypt key text e2 = Ok blob2
    /\ Encrypt.decrypt key blob2 = Ok text
    /\ (e1 <> e2 -> blob1 <> blob2).
Proof.
  intros Hk Ht H1 H2.
  exists (base64_encode (Encrypt.sealed key text e1)),
    (base64_encode (Encrypt.sealed key text e2)).
  repeat split.
  - apply encrypt_ok; assumption.
  - apply decrypt_sealed; assumption.
  - apply encrypt_ok; assumption.
  - apply decrypt_sealed; assumption.
  - intros Hne E. apply Hne. apply base64_encode_injective in E.
    eapply sealed_injective_entropy; eassumption.
Qed.

(** C2: a blob produced by [encrypt] in which one byte of the auth-tag or
    ciphertext region (offset 80 onwards) is replaced by a different byte
    makes [decrypt] throw; no plaintext is returned. *)
Theorem decrypt_rejects_tampered_byte (L : Library) (HL : CipherLaws L)
  (HT : GcmTagDetectsByte L) (key : option string) (text : string)
  (e : entropy) (blob : string) (i : nat) (x : byte) :
  Encrypt.entropy_ok e ->
  Encrypt.encrypt key text e = Ok blob ->
  Encrypt.SALT_LENGTH + Encrypt.IV_LENGTH <= i ->
  i < List.length (base64_decode blob) ->
  nth i (base64_decode blob) x00 <> x ->
  exists m,
    Encrypt.decrypt key (base64_encode (set_byte i x (base64_decode blob)))
    = Throw m.
Proof.
  intros [Hs Hi] Henc Hlo Hhi Hx.
  apply encrypt_inv in Henc. destruct Henc as (Hk & _ & ->).
  rewrite base64_decode_encode in *. unfold Encrypt.sealed in *.
  set (k := Encrypt.deriveKey key (rnd_salt e)) in *.
  set (ct := gcm_keystream k (list_byte_of_string text)) in *.
  set (tag := gcm_tag k Encrypt.AAD ct) in *.
  assert (Htag : List.length tag = 16) by apply gcm_tag_length.
  unfold Encrypt.SALT_LENGTH, Encrypt.IV_LENGTH in *.
  rewrite !length_app in Hhi.
  replace (rnd_salt e ++ rnd_iv e ++ tag ++ ct)
    with ((rnd_salt e ++ rnd_iv e) ++ tag ++ ct) in *
    by (rewrite <- app_assoc; reflexivity).
  assert (Hlen : List.length (rnd_salt e ++ rnd_iv e) = 80)
    by (rewrite length_app; lia).
  rewrite nth_app_shift in Hx by lia.
  rewrite set_byte_app_r by lia. rewrite Hlen in *.
  rewrite <- app_assoc.
  destruct (Nat.lt_ge_cases (i - 80) 16) as [Hin | Hout].
  - rewrite app_nth1 in Hx by lia.
    rewrite set_byte_app_l by lia.
    rewrite decrypt_layout; try assumption;
      [| rewrite set_byte_length; exact Htag].
    rewrite decipher_run_full_tag by (rewrite set_byte_length; exact Htag).
    fold k.
    rewrite buffer_eqb_neq.
    + simpl. eexists. reflexivity.
    + intros E. symmetry in E. revert E.
      apply (set_byte_changes (i - 80) x tag); [rewrite Htag; lia | exact Hx].
  - rewrite app_nth2 in Hx by lia.
    rewrite set_byte_app_r by lia. rewrite Htag in *.
    rewrite decrypt_layout; try assumption.
    rewrite decipher_run_full_tag by exact Htag. fold k.
    rewrite buffer_eqb_neq.
    + simpl. eexists. reflexivity.
    + apply gcm_tag_set_byte; [lia | exact Hx].
Qed.

(** ** The reference instance satisfies the contracts *)

Lemma flip_involutive (b : byte) : Reference.flip (Reference.flip b) = b.
Proof. destruct b; reflexivity. Qed.

Lemma string_of_list_byte_length (b : buffer) :
  String.length (string_of_list_byte b) = List.length b.
Proof.
  unfold string_of_list_byte.
  induction b as [| x b IH]; simpl; [reflexivity | now rewrite IH].
Qed.

Lemma reference_cipher_laws : CipherLaws Reference.library.
Proof.
  constructor; simpl.
  - intros _ data. rewrite map_map. rewrite <- (map_id data) at 2.
    apply map_ext. apply flip_involutive.
  - intros _ data. apply length_map.
  - intros key aad data. reflexivity.
  - apply list_byte_of_string_of_list_byte.
  - intros b. rewrite string_of_list_byte_length. apply Nat.le_refl.
Qed.

Lemma byte_of_to_N (n : N) : Byte.to_N (Reference.byte_of n) = (n mod 256)%N.
Proof.
  unfold Reference.byte_of.
  destruct (Byte.of_N (n mod 256)) as [c |] eqn:E.
  - apply Byte.to_of_N. exact E.
  - apply Byte.of_N_None_iff in E.
    pose proof (N.mod_upper_bound n 256). lia.
Qed.

Lemma sumN_set_byte (i : nat) (x : byte) (data : buffer) :
  i < List.length data ->
  (Reference.sumN (set_byte i x data) + Byte.to_N (nth i data x00)
   = Reference.sumN data + Byte.to_N x)%N.
Proof.
  revert i. induction data as [| y data IH]; intros [| i]; simpl; intros H;
    try lia.
  specialize (IH i ltac:(lia)). lia.
Qed.

Lemma byte_to_N_injective (a b : byte) : Byte.to_N a = Byte.to_N b -> a = b.
Proof.
  intros E. pose proof (Byte.of_to_N a) as Ha. pose proof (Byte.of_to_N b) as Hb.
  rewrite E in Ha. congruence.
Qed.

Lemma reference_tag_detects : GcmTagDetectsByte Reference.library.
Proof.
  constructor. simpl. unfold Reference.checksum_tag.
  intros key aad data i x Hi Hx E. injection E as E.
  apply (f_equal Byte.to_N) in E. rewrite !byte_of_to_N in E.
  pose proof (sumN_set_byte i x data Hi) as Hsum.
  pose proof (Byte.to_N_bounded (nth i data x00)) as Hb1.
  pose proof (Byte.to_N_bounded x) as Hb2.
  assert (Hne : Byte.to_N (nth i data x00) <> Byte.to_N x).
  { intros C. apply Hx. apply byte_to_N_injective. exact C. }
  set (a := (Reference.sumN key + Reference.sumN aad)%N) in *.
  set (s' := Reference.sumN (set_byte i x data)) in *.
  set (s := Reference.sumN data) in *.
  set (o := Byte.to_N (nth i data x00)) in *.
  set (n := Byte.to_N x) in *.
  clearbody a s' s o n.
  pose proof (N.Div0.div_mod (a + s') 256) as D1.
  pose proof (N.Div0.div_mod (a + s) 256) as D2.
  pose proof (N.mod_upper_bound (a + s') 256 ltac:(lia)) as U1.
  rewrite E in D1. nia.
Qed.

(** On the empty string [encrypt] throws, whatever the library, the key and
    the random bytes; there is no blob to decrypt. *)
Lemma encrypt_rejects_empty_text :
  Encrypt.encrypt (L := Reference.library) (encryptionKey Reference.config) ""
    Reference.entropy0
  = Throw "Encryption failed: Text to encrypt cannot be empty"
  /\ (forall (L : Library) (key : option string) (e : entropy),
        Encrypt.encrypt key "" e
        = Throw "Encryption failed: Text to encrypt cannot be empty").
Proof.
  split; [reflexivity | intros L key e; reflexivity].
Qed.

Lemma encrypt_decrypt_roundtrip_witness :
  exists blob1 blob2,
    Encrypt.encrypt (L := Reference.library) (encryptionKey Reference.config)
      "0xK" Reference.entropy0 = Ok blob1
    /\ Encrypt.decrypt (L := Reference.library)
         (encryptionKey Reference.config) blob1 = Ok "0xK"
    /\ Encrypt.encrypt (L := Reference.library)
         (encryptionKey Reference.config) "0xK" Reference.entropy1 = Ok blob2
    /\ Encrypt.decrypt (L := Reference.library)
         (encryptionKey Reference.config) blob2 = Ok "0xK"
    /\ (Reference.entropy0 <> Reference.entropy1 -> blob1 <> blob2).
Proof.
  apply (encrypt_decrypt_roundtrip Reference.library reference_cipher_laws
           (encryptionKey Reference.config) "0xK"
           Reference.entropy0 Reference.entropy1).
  - reflexivity.
  - discriminate.
  - split; reflexivity.
  - split; reflexivity.
Defined.

Lemma decrypt_rejects_tampered_byte_witness :
  exists blob,
    Encrypt.encrypt (L := Reference.library) (encryptionKey Reference.config)
      "0xK" Reference.entropy0 = Ok blob
    /\ exists m,
         Encrypt.decrypt (L := Reference.library)
         (encryptionKey Reference.config)
           (@base64_encode Reference.library
              (set_byte 96 x00 (@base64_decode Reference.library blob)))
         = Throw m.
Proof.
  eexists. split; [reflexivity |].
  apply (decrypt_rejects_tampered_byte Reference.library
           reference_cipher_laws reference_tag_detects
           (encryptionKey Reference.config) "0xK" Reference.entropy0).
  - split; reflexivity.
  - reflexivity.
  - vm_compute. lia.
  - vm_compute. lia.
  - vm_compute. discriminate.
Defined.

(** ** Device trust (utils/verifyDevice.js) *)

Lemma strict_eq_spec (a b : option string) :
  if strict_eq a b then a = b else a <> b.
Proof.
  destruct a as [x |], b as [y |]; simpl; try congruence.
  destruct (String.eqb_spec x y); congruence.
Qed.

Ltac case_strict_eq a b :=
  let H := fresh "H" in
  pose proof (strict_eq_spec a b) as H; destruct (strict_eq a b).

Lemma strict_eq_true_iff (a b : option string) :
  strict_eq a b = true <-> a = b.
Proof.
  pose proof (strict_eq_spec a b) as H.
  destruct (strict_eq a b); split; intros; congruence.
Qed.

Lemma strict_eq_refl (a : option string) : strict_eq a a = true.
Proof. apply strict_eq_true_iff. reflexivity. Qed.

(** C6 (as amended): for present descriptors [analyzeDeviceChange] pushes
    one reason for a differing deviceId, one for a differing platform, one
    for a differing fingerprint, and one for the model only when both
    descriptors carry a non-empty model and the two differ; riskLevel is
    high exactly at two or more reasons, medium at exactly one, low at none,
    and isSuspicious holds exactly when there is a reason. *)
Theorem analyzeDeviceChange_classification (old new : DeviceInfo) :
  let a := VerifyDevice.analyzeDeviceChange (Some old) (Some new) in
  (In "Device ID changed completely" (reasons a)
   <-> deviceId old <> deviceId new)
  /\ (In "Platform changed" (reasons a) <-> platform old <> platform new)
  /\ (In "Device model changed" (reasons a)
      <-> truthy_opt (model old) = true /\ truthy_opt (model new) = true
          /\ model old <> model new)
  /\ (In "Device fingerprint changed" (reasons a)
      <-> fingerprint old <> fingerprint new)
  /\ List.length (reasons a)
     = Nat.b2n (negb (strict_eq (deviceId old) (deviceId new)))
       + Nat.b2n (negb (strict_eq (platform old) (platform new)))
       + Nat.b2n (truthy_opt (model old) && truthy_opt (model new)
                  && negb (strict_eq (model old) (model new)))
       + Nat.b2n (negb (strict_eq (fingerprint old) (fingerprint new)))
  /\ (riskLevel a = Some high <-> 2 <= List.length (reasons a))
  /\ (riskLevel a = Some medium <-> List.length (reasons a) = 1)
  /\ (riskLevel a = Some low <-> List.length (reasons a) = 0)
  /\ (isSuspicious a = true <-> reasons a <> []).
Proof.
  unfold VerifyDevice.analyzeDeviceChange. cbv zeta.
  case_strict_eq (deviceId old) (deviceId new);
  case_strict_eq (platform old) (platform new);
  case_strict_eq (model old) (model new);
  case_strict_eq (fingerprint old) (fingerprint new);
  destruct (truthy_opt (model old)), (truthy_opt (model new));
  simpl; repeat split; intros;
  repeat match goal with
         | H : _ \/ _ |- _ => destruct H
         | H : _ /\ _ |- _ => destruct H
         end;
  try discriminate; try contradiction; try congruence; try lia;
  auto 6.
Qed.

(** A descriptor that lost its model: the model field differs, yet no
    reason is pushed and the change is classified low and not suspicious,
    where one reason per differing field would give one reason. *)
Lemma analyzeDeviceChange_missing_model :
  let old :=
    {| deviceId := Some "device-0001"; platform := Some "android";
       model := Some "Pixel 7"; version := Some "14";
       fingerprint := Some "fp-1"; userAgent := None;
       screenResolution := None; timezone := None; language := None |} in
  let new :=
    {| deviceId := Some "device-0001"; platform := Some "android";
       model := None; version := Some "14";
       fingerprint := Some "fp-1"; userAgent := None;
       screenResolution := None; timezone := None; language := None |} in
  VerifyDevice.analyzeDeviceChange (Some old) (Some new)
  = {| isSuspicious := false; reasons := []; riskLevel := Some low |}
  /\ VerifyDevice.spec_reason_count old new = 1.
Proof.
  split; reflexivity.
Qed.

(** ** Login (controllers/authController.js) *)

Section Login.
Context {L : Library}.

Lemma findByCredentials_Some (users : list User) (sc hk : string) (u : User) :
  AuthController.findByCredentials users sc hk = Some u ->
  In u users /\ AuthController.credentials_match u sc hk.
Proof.
  unfold AuthController.credentials_match.
  induction users as [| c rest IH]; simpl; [discriminate |].
  destruct (UserModel.verifySecurityCode c sc) eqn:E1;
    destruct (UserModel.verifyHashKey c hk) eqn:E2; simpl;
    try (intros H; destruct (IH H) as (Hin & Hm); auto).
  intros E. injection E as <-. auto.
Qed.

Lemma findByCredentials_None (users : list User) (sc hk : string) :
  AuthController.findByCredentials users sc hk = None <->
  (forall u, In u users -> ~ AuthController.credentials_match u sc hk).
Proof.
  unfold AuthController.credentials_match.
  induction users as [| c rest IH]; simpl.
  - split; [intros _ u [] | reflexivity].
  - destruct (UserModel.verifySecurityCode c sc) eqn:E1;
      destruct (UserModel.verifyHashKey c hk) eqn:E2; simpl.
    + split; [discriminate |]. intros H. exfalso. apply (H c); auto.
    + rewrite IH. split.
      * intros H u [<- | Hin]; [intros [_ C]; congruence | auto].
      * intros H u Hin. apply H. auto.
    + rewrite IH. split.
      * intros H u [<- | Hin]; [intros [C _]; congruence | auto].
      * intros H u Hin. apply H. auto.
    + rewrite IH. split.
      * intros H u [<- | Hin]; [intros [C _]; congruence | auto].
      * intros H u Hin. apply H. auto.
Qed.

Lemma find_active_In (store : list User) (u : User) :
  In u (UserModel.find_active store) <-> In u store /\ isActive u = true.
Proof. unfold UserModel.find_active. apply filter_In. Qed.

(** After the two validation steps, [login] is its scan followed by the
    checks on the account found. *)
Lemma login_wellformed (cfg : Config) (body : LoginRequest) (now : Z)
  (store : list User) (device : DeviceInfo) :
  AuthController.wellformed_login body device ->
  AuthController.login cfg body now store
  = match AuthController.findByCredentials (UserModel.find_active store)
            (or_empty (lr_securityCode body)) (or_empty (lr_hashKey body)) with
    | None => (failure 401 "Invalid credentials", store)
    | Some user =>
        if isLocked user
        then (with_reason (failure 423 "Account is locked") (lockReason user),
              store)
        else
          if negb (UserModel.verifyDevice user
                     (VerifyDevice.normalizeDeviceInfo device))
          then (AuthController.deviceMismatch
                  (VerifyDevice.analyzeDeviceChange (Some (deviceInfo user))
                     (Some (VerifyDevice.normalizeDeviceInfo device))),
                store)
          else
            match authenticator_verify (or_empty (lr_twoFactorCode body))
                    (Some (twoFactorSecret user)) with
            | Throw _ => (failure 500 "Login failed", store)
            | Ok false => (failure 401 "Invalid 2FA code", store)
            | Ok true =>
                let user' := AuthController.with_login_times user now in
                if AuthMiddleware.generateToken_throws cfg
                then (failure 500 "Login failed", UserModel.save user' store)
                else
                (succeed 200 "Login successful"
                   {| ld_id := _id user';
                      ld_username := username user';
                      ld_walletAddresses :=
                        AuthController.walletAddresses user';
                      ld_twoFactorEnabled := twoFactorEnabled user';
                      ld_lastLogin := lastLogin user';
                      ld_platformFeeBalance := platformFeeBalance user';
                      ld_token :=
                        AuthMiddleware.generateToken cfg (_id user') |},
                 UserModel.save user' store)
            end
    end.
Proof.
  intros (Hd & Hsc & Hhk & Hcode & Hvalid).
  unfold AuthController.login. rewrite Hd, Hsc, Hhk, Hcode, Hvalid.
  reflexivity.
Qed.

(** The scan returns the first candidate both of whose digests verify. *)
Lemma findByCredentials_split (users : list User) (sc hk : string) (u : User) :
  AuthController.findByCredentials users sc hk = Some u <->
  exists before after,
    users = before ++ u :: after
    /\ (forall x, In x before ->
          ~ (bcrypt_compare sc (securityCodeHash x) = true
             /\ bcrypt_compare hk (hashKeyHash x) = true))
    /\ bcrypt_compare sc (securityCodeHash u) = true
    /\ bcrypt_compare hk (hashKeyHash u) = true.
Proof.
  induction users as [| c rest IH];
    cbn [AuthController.findByCredentials].
  - split; [discriminate |].
    intros (before & after & E & _). destruct before; discriminate E.
  - unfold UserModel.verifySecurityCode, UserModel.verifyHashKey.
    destruct (bcrypt_compare sc (securityCodeHash c)
              && bcrypt_compare hk (hashKeyHash c)) eqn:Hc.
    + apply andb_true_iff in Hc. destruct Hc as (H1 & H2). split.
      * intros E. injection E as <-. exists [], rest.
        split; [reflexivity |]. split; [intros x [] | auto].
      * intros (before & after & E & Hnone & _).
        destruct before as [| b before].
        -- injection E as <- _. reflexivity.
        -- injection E as <- _. exfalso.
           apply (Hnone c); [left; reflexivity | auto].
    + rewrite IH. split.
      * intros (before & after & -> & Hnone & Hu).
        exists (c :: before), after. split; [reflexivity |].
        split; [| exact Hu].
        intros x [<- | Hx]; [| auto].
        intros (H1 & H2). rewrite H1, H2 in Hc. discriminate Hc.
      * intros (before & after & E & Hnone & H1 & H2).
        destruct before as [| b before].
        -- injection E as <- _. rewrite H1, H2 in Hc. discriminate Hc.
        -- injection E as <- ->. exists before, after.
           split; [reflexivity |]. split; [| auto].
           intros x Hx. apply Hnone. right. exact Hx.
Qed.

Lemma verifyDevice_true_iff (u : User) (d : DeviceInfo) :
  UserModel.verifyDevice u d = true <->
  deviceId (deviceInfo u) = deviceId d
  /\ fingerprint (deviceInfo u) = fingerprint d.
Proof.
  unfold UserModel.verifyDevice.
  rewrite andb_true_iff, !strict_eq_true_iff. reflexivity.
Qed.

(** A login that succeeds has passed every check of the handler. *)
Lemma login_success_inv (cfg : Config) (body : LoginRequest) (now : Z)
  (store : list User) :
  success (fst (AuthController.login cfg body now store)) = true ->
  exists device u,
    AuthController.wellformed_login body device
    /\ AuthController.findByCredentials (UserModel.find_active store)
         (or_empty (lr_securityCode body)) (or_empty (lr_hashKey body))
       = Some u
    /\ isLocked u = false
    /\ UserModel.verifyDevice u (VerifyDevice.normalizeDeviceInfo device)
       = true
    /\ authenticator_verify (or_empty (lr_twoFactorCode body))
         (Some (twoFactorSecret u)) = Ok true
    /\ truthy_opt (jwtSecret cfg) = true
    /\ option_map ld_id (data (fst (AuthController.login cfg body now store)))
       = Some (_id u).
Proof.
  unfold AuthController.login.
  destruct (lr_deviceInfo body) as [device |] eqn:Hd; [| discriminate].
  destruct (truthy_opt (lr_securityCode body)) eqn:Hsc; [| discriminate].
  destruct (truthy_opt (lr_hashKey body)) eqn:Hhk; [| discriminate].
  destruct (truthy_opt (lr_twoFactorCode body)) eqn:Hcode; [| discriminate].
  cbn [negb orb].
  destruct (isValid (VerifyDevice.validateDeviceInfo (Some device)))
    eqn:Hvalid; [| discriminate].
  cbn [negb].
  destruct (AuthController.findByCredentials _ _ _) as [u |] eqn:Hfind;
    [| discriminate].
  destruct (isLocked u) eqn:Hlock; [discriminate |].
  destruct (UserModel.verifyDevice u _) eqn:Hdev; [| discriminate].
  cbn [negb].
  destruct (authenticator_verify _ _) as [[|] | m] eqn:Hotp;
    try discriminate.
  unfold AuthMiddleware.generateToken_throws.
  destruct (truthy_opt (jwtSecret cfg)) eqn:Hjwt; [| discriminate].
  cbn [negb].
  intros _. exists device, u. unfold AuthController.wellformed_login.
  repeat split; try assumption; reflexivity.
Qed.

(** A login writes only after the scan has found an account. *)
Lemma login_no_match_store (cfg : Config) (body : LoginRequest) (now : Z)
  (store : list User) :
  AuthController.findByCredentials (UserModel.find_active store)
    (or_empty (lr_securityCode body)) (or_empty (lr_hashKey body)) = None ->
  snd (AuthController.login cfg body now store) = store.
Proof.
  intros Hfind. unfold AuthController.login.
  destruct (lr_deviceInfo body) as [device |]; [| reflexivity].
  destruct (negb _ || _ || _); [reflexivity |].
  destruct (negb (isValid _)); [reflexivity |].
  rewrite Hfind. reflexivity.
Qed.

End Login.

(** C4 (as amended): [login] authenticates exactly when the request has its
    four fields and a valid descriptor, and the first active account, in the
    order of the collection, against whose two stored digests both presented
    factors verify is not locked, is bound to the deviceId and fingerprint of
    the normalized descriptor, and has a 2FA secret for which the presented
    code is valid (and the JWT secret is configured, so that the token can be
    signed).  So a login that authenticates is for an active account
    both of whose digests verify: when no active account verifies both
    factors (in particular when the two factors verify on two different
    accounts only) [login] does not authenticate and writes nothing, and for
    a request that passes validation the answer is the uniform 401 "Invalid
    credentials" exactly in that case.  An account that verifies both
    factors is not enough to authenticate. *)
Theorem login_authenticates_iff (L : Library) (cfg : Config)
  (body : LoginRequest) (now : Z) (store : list User) :
  let sc := or_empty (lr_securityCode body) in
  let hk := or_empty (lr_hashKey body) in
  let verifies (u : User) :=
    bcrypt_compare sc (securityCodeHash u) = true
    /\ bcrypt_compare hk (hashKeyHash u) = true in
  let r := AuthController.login cfg body now store in
  (success (fst r) = true <->
   exists device before u after,
     AuthController.wellformed_login body device
     /\ filter isActive store = before ++ u :: after
     /\ (forall x, In x before -> ~ verifies x)
     /\ verifies u
     /\ isLocked u = false
     /\ deviceId (deviceInfo u)
        = deviceId (VerifyDevice.normalizeDeviceInfo device)
     /\ fingerprint (deviceInfo u)
        = fingerprint (VerifyDevice.normalizeDeviceInfo device)
     /\ authenticator_verify (or_empty (lr_twoFactorCode body))
          (Some (twoFactorSecret u)) = Ok true
     /\ truthy_opt (jwtSecret cfg) = true)
  /\ (success (fst r) = true ->
      exists u, In u store /\ isActive u = true /\ verifies u
                /\ option_map ld_id (data (fst r)) = Some (_id u))
  /\ ((forall u, In u store -> isActive u = true -> ~ verifies u) ->
      success (fst r) = false /\ snd r = store)
  /\ (forall device, AuthController.wellformed_login body device ->
        (r = (failure 401 "Invalid credentials", store) <->
         forall u, In u store -> isActive u = true -> ~ verifies u)).
Proof.
  intros sc hk verifies r.
  assert (Hscan : forall u,
            AuthController.findByCredentials (UserModel.find_active store)
              sc hk = Some u ->
            In u store /\ isActive u = true /\ verifies u).
  { intros u Hfind.
    apply findByCredentials_split in Hfind.
    destruct Hfind as (before & after & E & _ & Hv).
    assert (Hin : In u (UserModel.find_active store))
      by (rewrite E; apply in_or_app; right; left; reflexivity).
    apply find_active_In in Hin. destruct Hin as (Hin & Hact).
    repeat split; [exact Hin | exact Hact | apply Hv | apply Hv]. }
  assert (Hnone : (forall u, In u store -> isActive u = true -> ~ verifies u)
                  -> success (fst r) = false).
  { intros Hno. destruct (success (fst r)) eqn:Hs; [| reflexivity].
    destruct (login_success_inv cfg body now store Hs)
      as (device & u & _ & Hfind & _).
    destruct (Hscan u Hfind) as (Hin & Hact & Hv).
    exfalso. exact (Hno u Hin Hact Hv). }
  split; [| split; [| split]].
  - split.
    + intros Hs.
      destruct (login_success_inv cfg body now store Hs)
        as (device & u & Hwf & Hfind & Hlock & Hdev & Hotp & Hjwt & _).
      apply findByCredentials_split in Hfind.
      destruct Hfind as (before & after & E & Hbefore & Hv).
      apply verifyDevice_true_iff in Hdev.
      exists device, before, u, after.
      split; [exact Hwf |]. split; [exact E |]. split; [exact Hbefore |].
      split; [exact Hv |]. split; [exact Hlock |].
      split; [apply Hdev |]. split; [apply Hdev |].
      split; [exact Hotp | exact Hjwt].
    + intros (device & before & u & after & Hwf & E & Hbefore & Hv & Hlock
              & Hid & Hfp & Hotp & Hjwt).
      assert (Hfind :
        AuthController.findByCredentials (UserModel.find_active store) sc hk
        = Some u).
      { apply findByCredentials_split. exists before, after.
        split; [exact E |]. split; [exact Hbefore | exact Hv]. }
      subst r. rewrite (login_wellformed cfg body now store device Hwf).
      fold sc hk. rewrite Hfind, Hlock.
      rewrite (proj2 (verifyDevice_true_iff _ _) (conj Hid Hfp)).
      cbn [negb]. rewrite Hotp.
      unfold AuthMiddleware.generateToken_throws. rewrite Hjwt.
      reflexivity.
  - intros Hs.
    destruct (login_success_inv cfg body now store Hs)
      as (device & u & _ & Hfind & _ & _ & _ & _ & Hdata).
    destruct (Hscan u Hfind) as (Hin & Hact & Hv).
    exists u. auto.
  - intros Hno. split; [exact (Hnone Hno) |].
    apply login_no_match_store. fold sc hk.
    apply findByCredentials_None. intros u Hin Hv.
    apply find_active_In in Hin. destruct Hin as (Hin & Hact).
    exact (Hno u Hin Hact Hv).
  - intros device Hwf. subst r.
    rewrite (login_wellformed cfg body now store device Hwf). fold sc hk.
    destruct (AuthController.findByCredentials (UserModel.find_active store)
                sc hk) as [u |] eqn:Hfind.
    + destruct (Hscan u eq_refl) as (Hin & Hact & Hv).
      split; [| intros Hno; exfalso; exact (Hno u Hin Hact Hv)].
      destruct (isLocked u); [discriminate |].
      destruct (negb _); [discriminate |].
      destruct (authenticator_verify _ _) as [[|] | m]; try discriminate.
      destruct (AuthMiddleware.generateToken_throws cfg); discriminate.
    + split; [| reflexivity]. intros _ u Hin Hact Hv.
      apply (proj1 (findByCredentials_None _ _ _) Hfind u).
      * apply find_active_In. auto.
      * exact Hv.
Qed.

(** C4, where the sentence of the specification fails: Alice's account is
    active and both presented factors verify against its two digests, yet
    [login] does not authenticate when the 2FA code is not valid (401
    "Invalid 2FA code"), when the request comes from a device the account is
    not bound to (403), and when the account is locked (423). *)
Lemma login_refuses_matching_account :
  (In Reference.alice Reference.store
   /\ isActive Reference.alice = true
   /\ @bcrypt_compare Reference.library "alice-code"
        (securityCodeHash Reference.alice) = true
   /\ @bcrypt_compare Reference.library "alice-key"
        (hashKeyHash Reference.alice) = true)
  /\ AuthController.login (L := Reference.library) Reference.config
       Samples.login_stale_code 0%Z Reference.store
     = (failure 401 "Invalid 2FA code", Reference.store)
  /\ status (fst (AuthController.login (L := Reference.library)
                    Reference.config Reference.login_other_device 0%Z
                    Reference.store)) = 403
  /\ (isActive Samples.locked_alice = true
      /\ @bcrypt_compare Reference.library "alice-code"
           (securityCodeHash Samples.locked_alice) = true
      /\ @bcrypt_compare Reference.library "alice-key"
           (hashKeyHash Samples.locked_alice) = true
      /\ status (fst (AuthController.login (L := Reference.library)
                        Reference.config Reference.login_alice 0%Z
                        [Samples.locked_alice; Reference.bob])) = 423).
Proof.
  split; [split; [left; reflexivity | repeat split] |].
  repeat split.
Qed.

Lemma verifyDevice_false_iff {L : Library} (u : User) (d : DeviceInfo) :
  UserModel.verifyDevice u d = false <->
  deviceId (deviceInfo u) <> deviceId d
  \/ fingerprint (deviceInfo u) <> fingerprint d.
Proof.
  unfold UserModel.verifyDevice.
  case_strict_eq (deviceId (deviceInfo u)) (deviceId d);
    case_strict_eq (fingerprint (deviceInfo u)) (fingerprint d);
    simpl; split; intros; try discriminate; try reflexivity; auto.
  destruct H1; contradiction.
Qed.

Lemma analyzeDeviceChange_mismatch_risk (old new : DeviceInfo) :
  deviceId old <> deviceId new \/ fingerprint old <> fingerprint new ->
  let a := VerifyDevice.analyzeDeviceChange (Some old) (Some new) in
  (riskLevel a = Some medium \/ riskLevel a = Some high)
  /\ (deviceId old <> deviceId new ->
      In "Device ID changed completely" (reasons a)).
Proof.
  intros Hd. unfold VerifyDevice.analyzeDeviceChange. cbv zeta.
  case_strict_eq (deviceId old) (deviceId new);
  case_strict_eq (platform old) (platform new);
  case_strict_eq (fingerprint old) (fingerprint new);
  destruct (truthy_opt (model old) && truthy_opt (model new)
            && negb (strict_eq (model old) (model new)));
  simpl; split; auto; try (intros; contradiction);
  destruct Hd; contradiction.
Qed.

(** C5: when the credentials of a validated login request select an
    unlocked account and the normalized presented device differs from the
    stored binding in deviceId or fingerprint, [login] answers 403
    DEVICE_MISMATCH with the analysis of the change, whose riskLevel is
    medium or high (and names the deviceId change when the deviceId
    differs), and the stored accounts are returned unchanged. *)
Theorem login_device_mismatch (L : Library) (cfg : Config)
  (body : LoginRequest) (now : Z) (store : list User) (device : DeviceInfo)
  (user : User) :
  AuthController.wellformed_login body device ->
  AuthController.findByCredentials (UserModel.find_active store)
    (or_empty (lr_securityCode body)) (or_empty (lr_hashKey body))
  = Some user ->
  isLocked user = false ->
  let presented := VerifyDevice.normalizeDeviceInfo device in
  deviceId (deviceInfo user) <> deviceId presented
  \/ fingerprint (deviceInfo user) <> fingerprint presented ->
  let analysis :=
    VerifyDevice.analyzeDeviceChange (Some (deviceInfo user))
      (Some presented) in
  AuthController.login cfg body now store
  = ({| status := 403; success := false;
        message := "Device verification failed"; res_errors := [];
        res_code := Some "DEVICE_MISMATCH"; res_reason := None;
        res_analysis := Some (riskLevel analysis, reasons analysis);
        res_required := None; res_available := None; data := None |},
     store)
  /\ (riskLevel analysis = Some medium \/ riskLevel analysis = Some high)
  /\ (deviceId (deviceInfo user) <> deviceId presented ->
      In "Device ID changed completely" (reasons analysis)).
Proof.
  intros Hwf Hfind Hlock presented Hdiff analysis.
  rewrite (login_wellformed cfg body now store device Hwf), Hfind, Hlock.
  fold presented.
  rewrite (proj2 (verifyDevice_false_iff user presented) Hdiff). simpl negb.
  cbv iota. split; [reflexivity |].
  apply analyzeDeviceChange_mismatch_risk. exact Hdiff.
Qed.

Lemma login_device_mismatch_witness :
  AuthController.findByCredentials (L := Reference.library)
    (UserModel.find_active Reference.store) "alice-code" "alice-key"
  = Some Reference.alice
  /\ AuthController.login (L := Reference.library) Reference.config
       Reference.login_other_device 0%Z Reference.store
     = ({| status := 403; success := false;
           message := "Device verification failed"; res_errors := [];
           res_code := Some "DEVICE_MISMATCH"; res_reason := None;
           res_analysis := Some (Some medium, ["Device ID changed completely"]);
           res_required := None; res_available := None; data := None |},
        Reference.store).
Proof.
  split; [reflexivity |].
  refine (proj1 (login_device_mismatch Reference.library Reference.config
                   Reference.login_other_device 0%Z Reference.store
                   Reference.device_other Reference.alice _ _ _ _)).
  - repeat split; reflexivity.
  - reflexivity.
  - reflexivity.
  - left. vm_compute. discriminate.
Defined.

(** ** Registration (controllers/authController.js, utils/generateWallets.js) *)

Lemma list_byte_of_string_length (s : string) :
  List.length (list_byte_of_string s) = String.length s.
Proof.
  rewrite <- (string_of_list_byte_of_string s) at 2.
  rewrite string_of_list_byte_length. reflexivity.
Qed.

Section Registration.
Context {L : Library} {HL : CipherLaws L}.

Lemma sealed_length (key : option string) (text : string) (e : entropy) :
  Encrypt.entropy_ok e ->
  List.length (Encrypt.sealed key text e) = 96 + String.length text.
Proof.
  intros [Hs Hi]. unfold Encrypt.sealed.
  rewrite !length_app, gcm_tag_length, gcm_keystream_length,
    list_byte_of_string_length, Hs, Hi.
  reflexivity.
Qed.

(** What [encrypt] returns is an envelope of its argument. *)
Lemma encrypt_envelope (cfg : Config) (text : string) (e : entropy)
  (blob : string) :
  Encrypt.entropy_ok e ->
  Encrypt.encrypt (encryptionKey cfg) text e = Ok blob ->
  GenerateWallets.envelope_of cfg blob text.
Proof.
  intros He Henc. apply encrypt_inv in Henc. destruct Henc as (Hk & Ht & ->).
  pose proof (sealed_length (encryptionKey cfg) text e He) as Hlen.
  unfold GenerateWallets.envelope_of, Encrypt.blob_shaped. repeat split.
  - rewrite base64_decode_encode, Hlen.
    unfold Encrypt.SALT_LENGTH, Encrypt.IV_LENGTH, Encrypt.AUTH_TAG_LENGTH.
    lia.
  - rewrite base64_decode_encode. reflexivity.
  - apply decrypt_sealed; assumption.
  - intros E.
    pose proof (base64_encode_length
                  (Encrypt.sealed (encryptionKey cfg) text e)) as Hb.
    rewrite E, Hlen in Hb. lia.
Qed.

Lemma bind_Ok {A B : Type} (r : result A) (k : A -> result B) (b : B) :
  bind r k = Ok b -> exists a, r = Ok a /\ k a = Ok b.
Proof.
  destruct r as [a | m]; simpl; [| discriminate]. intros H. exists a. auto.
Qed.

Lemma rethrow_Ok {A : Type} (p : string) (r : result A) (a : A) :
  rethrow p r = Ok a -> r = Ok a.
Proof. destruct r; simpl; [auto | discriminate]. Qed.

(** What a successful [generateAllWallets] has built. *)
Lemma generateAllWallets_Ok (cfg : Config) (rnd : WalletEntropy)
  (generated : AllWallets) :
  GenerateWallets.generateAllWallets cfg None rnd = Ok generated ->
  let seed := hex_encode (rnd_seed rnd) in
  exists ethW btcW tronW ethKey ethSeed btcKey btcSeed tronKey tronSeed,
    GenerateWallets.generateEthereumWallet None (rnd_eth rnd) = Ok ethW
    /\ GenerateWallets.generateBitcoinWallet (Some (seed ++ "_btc")%string) []
       = Ok btcW
    /\ GenerateWallets.generateTronWallet (Some (seed ++ "_tron")%string) []
       = Ok tronW
    /\ Encrypt.encrypt (encryptionKey cfg) (eth_privateKey ethW)
         (rnd_enc_eth_key rnd) = Ok ethKey
    /\ Encrypt.encrypt (encryptionKey cfg) (or_empty (eth_mnemonic ethW))
         (rnd_enc_eth_seed rnd) = Ok ethSeed
    /\ Encrypt.encrypt (encryptionKey cfg) (btc_privateKey btcW)
         (rnd_enc_btc_key rnd) = Ok btcKey
    /\ Encrypt.encrypt (encryptionKey cfg) (seed ++ "_btc")%string
         (rnd_enc_btc_seed rnd) = Ok btcSeed
    /\ Encrypt.encrypt (encryptionKey cfg) (tron_privateKey tronW)
         (rnd_enc_tron_key rnd) = Ok tronKey
    /\ Encrypt.encrypt (encryptionKey cfg) (seed ++ "_tron")%string
         (rnd_enc_tron_seed rnd) = Ok tronSeed
    /\ GenerateWallets.cast_wallets (aw_wallets generated)
       = {| ethereum :=
              {| address := Some (eth_address ethW);
                 encryptedPrivateKey := Some ethKey;
                 encryptedSeed := Some ethSeed |};
            bitcoin :=
              {| address := Some (btc_address btcW);
                 encryptedPrivateKey := Some btcKey;
                 encryptedSeed := Some btcSeed |};
            tron :=
              {| address := Some (tron_address tronW);
                 encryptedPrivateKey := Some tronKey;
                 encryptedSeed := Some tronSeed |} |}.
Proof.
  intros H seed. unfold GenerateWallets.generateAllWallets in H.
  apply rethrow_Ok in H. simpl truthy_opt in H. cbv iota in H. fold seed in H.
  apply bind_Ok in H. destruct H as (ethW & Heth & H).
  apply bind_Ok in H. destruct H as (btcW & Hbtc & H).
  apply bind_Ok in H. destruct H as (tronW & Htron & H).
  apply bind_Ok in H. destruct H as (ethKey & HethKey & H).
  apply bind_Ok in H. destruct H as (ethSeed & HethSeed & H).
  apply bind_Ok in H. destruct H as (btcKey & HbtcKey & H).
  apply bind_Ok in H. destruct H as (btcSeed & HbtcSeed & H).
  apply bind_Ok in H. destruct H as (tronKey & HtronKey & H).
  apply bind_Ok in H. destruct H as (tronSeed & HtronSeed & H).
  injection H as <-.
  exists ethW, btcW, tronW, ethKey, ethSeed, btcKey, btcSeed, tronKey, tronSeed.
  repeat split; assumption.
Qed.

End Registration.

Lemma generateEthereumWallet_address {L : Library} {HK : KeygenLaws L}
  (rnd : buffer) (eth : EthereumWallet) :
  GenerateWallets.generateEthereumWallet None rnd = Ok eth ->
  eth_address eth <> "".
Proof.
  unfold GenerateWallets.generateEthereumWallet. intros H.
  apply rethrow_Ok in H. simpl in H.
  apply bind_Ok in H. destruct H as (w & Hw & H). injection H as <-. simpl.
  eapply ethers_createRandom_address. exact Hw.
Qed.

Lemma generateBitcoinWallet_address {L : Library} {HK : KeygenLaws L}
  (seed : option string) (rnd : buffer) (btc : BitcoinWallet) :
  GenerateWallets.generateBitcoinWallet seed rnd = Ok btc ->
  btc_address btc <> "".
Proof.
  unfold GenerateWallets.generateBitcoinWallet. intros H.
  apply rethrow_Ok in H. apply bind_Ok in H. destruct H as (kp & _ & H).
  injection H as <-. simpl. apply payments_p2wpkh_address.
Qed.

Lemma generateTronWallet_address {L : Library} {HK : KeygenLaws L}
  (seed : option string) (rnd : buffer) (tron : TronWallet) :
  GenerateWallets.generateTronWallet seed rnd = Ok tron ->
  tron_address tron <> "".
Proof.
  unfold GenerateWallets.generateTronWallet. intros H.
  apply rethrow_Ok in H. injection H as <-. simpl.
  apply tron_fromPrivateKey_address.
Qed.

(** C3: a successful registration stores one new account whose three wallet
    records each consist of a non-empty address, an envelope of the private
    key and an envelope of the seed (each envelope has the wire format,
    decrypts to the secret and differs from it), and nothing else of what
    the generators returned; the payload carries the three addresses, the
    token, the QR code and the 2FA secret, and no other wallet field. *)
Theorem register_wallets_enveloped (L : Library) (HL : CipherLaws L)
  (HK : KeygenLaws L) (cfg : Config) (body : RegisterRequest)
  (rnd : RegisterEntropy) (store : list User)
  (resp : Response RegisterData) (store' : list User) :
  GenerateWallets.wallet_entropy_ok (rnd_wallets rnd) ->
  AuthController.register cfg body rnd store = (resp, store') ->
  success resp = true ->
  let seed := hex_encode (rnd_seed (rnd_wallets rnd)) in
  let secret := authenticator_generateSecret (rnd_totp rnd) in
  exists user ethW btcW tronW,
    GenerateWallets.generateEthereumWallet None (rnd_eth (rnd_wallets rnd))
    = Ok ethW
    /\ GenerateWallets.generateBitcoinWallet (Some (seed ++ "_btc")%string) []
       = Ok btcW
    /\ GenerateWallets.generateTronWallet (Some (seed ++ "_tron")%string) []
       = Ok tronW
    /\ store' = store ++ [user]
    /\ GenerateWallets.enveloped cfg (ethereum (wallets user))
         (eth_address ethW) (eth_privateKey ethW)
         (or_empty (eth_mnemonic ethW))
    /\ GenerateWallets.enveloped cfg (bitcoin (wallets user))
         (btc_address btcW) (btc_privateKey btcW) (seed ++ "_btc")%string
    /\ GenerateWallets.enveloped cfg (tron (wallets user))
         (tron_address tronW) (tron_privateKey tronW) (seed ++ "_tron")%string
    /\ status resp = 201
    /\ data resp
       = Some {| rd_id := new_id rnd;
                 rd_username := trim (or_empty (rr_username body));
                 rd_walletAddresses :=
                   {| wa_ethereum := Some (eth_address ethW);
                      wa_bitcoin := Some (btc_address btcW);
                      wa_tron := Some (tron_address tronW) |};
                 rd_twoFactorEnabled := true;
                 rd_isActive := true;
                 rd_createdAt := reg_now rnd;
                 rd_token := AuthMiddleware.generateToken cfg (new_id rnd);
                 rd_qrCodeUrl :=
                   qrcode_toDataURL
                     (authenticator_keyuri (or_empty (rr_username body))
                        "CryptoWallet" secret);
                 rd_manualEntryKey := secret |}.
Proof.
  intros (He1 & He2 & He3 & He4 & He5 & He6) Hreg Hok seed secret.
  unfold AuthController.register in Hreg.
  destruct (rr_deviceInfo body) as [device |];
    [| injection Hreg as <- <-; discriminate].
  destruct (_ || _) in Hreg; [injection Hreg as <- <-; discriminate |].
  destruct (negb _) in Hreg; [injection Hreg as <- <-; discriminate |].
  destruct (UserModel.findOne_username _ _) in Hreg;
    [injection Hreg as <- <-; discriminate |].
  destruct (GenerateWallets.generateAllWallets cfg None (rnd_wallets rnd))
    as [generated | m] eqn:Hgen;
    [| injection Hreg as <- <-; discriminate].
  destruct (negb _) in Hreg; [injection Hreg as <- <-; discriminate |].
  destruct (AuthMiddleware.generateToken_throws cfg) in Hreg;
    [injection Hreg as <- <-; discriminate |].
  injection Hreg as <- <-.
  apply generateAllWallets_Ok in Hgen. fold seed in Hgen.
  destruct Hgen as (ethW & btcW & tronW & ethKey & ethSeed & btcKey & btcSeed
                    & tronKey & tronSeed & Heth & Hbtc & Htron & HethKey
                    & HethSeed & HbtcKey & HbtcSeed & HtronKey & HtronSeed
                    & Hcast).
  eexists. exists ethW, btcW, tronW.
  split; [exact Heth |]. split; [exact Hbtc |]. split; [exact Htron |].
  split; [reflexivity |]. simpl wallets. rewrite Hcast. simpl.
  split; [| split; [| split; [| split; [reflexivity |]]]].
  - split; [eapply generateEthereumWallet_address; exact Heth |].
    exists ethKey, ethSeed.
    split; [reflexivity |];
      split; (eapply encrypt_envelope; [| eassumption]; assumption).
  - split; [eapply generateBitcoinWallet_address; exact Hbtc |].
    exists btcKey, btcSeed.
    split; [reflexivity |];
      split; (eapply encrypt_envelope; [| eassumption]; assumption).
  - split; [eapply generateTronWallet_address; exact Htron |].
    exists tronKey, tronSeed.
    split; [reflexivity |];
      split; (eapply encrypt_envelope; [| eassumption]; assumption).
  - reflexivity.
Qed.

Lemma reference_keygen_laws : KeygenLaws Reference.library.
Proof.
  constructor; simpl.
  - intros rnd w E. injection E as <-. discriminate.
  - intros pub. discriminate.
  - intros key. discriminate.
Qed.

Lemma register_wallets_enveloped_witness :
  success (fst (AuthController.register (L := Reference.library)
                  Reference.config Reference.registration
                  Reference.register_entropy Reference.store)) = true
  /\ exists user ethW btcW tronW,
       snd (AuthController.register (L := Reference.library)
              Reference.config Reference.registration
              Reference.register_entropy Reference.store)
       = Reference.store ++ [user]
       /\ GenerateWallets.enveloped (L := Reference.library) Reference.config
            (ethereum (wallets user)) (eth_address ethW)
            (eth_privateKey ethW) (or_empty (eth_mnemonic ethW))
       /\ GenerateWallets.enveloped (L := Reference.library) Reference.config
            (bitcoin (wallets user)) (btc_address btcW)
            (btc_privateKey btcW) "5e_btc"
       /\ GenerateWallets.enveloped (L := Reference.library) Reference.config
            (tron (wallets user)) (tron_address tronW)
            (tron_privateKey tronW) "5e_tron".
Proof.
  assert (Hok : success (fst (AuthController.register (L := Reference.library)
                  Reference.config Reference.registration
                  Reference.register_entropy Reference.store)) = true)
    by (vm_compute; reflexivity).
  split; [exact Hok |].
  destruct (register_wallets_enveloped Reference.library
              reference_cipher_laws reference_keygen_laws
              Reference.config Reference.registration
              Reference.register_entropy Reference.store _ _
              ltac:(repeat split; reflexivity)
              (surjective_pairing _) Hok)
    as (user & ethW & btcW & tronW & _ & _ & _ & Hstore & He & Hb & Ht & _).
  exists user, ethW, btcW, tronW. auto.
Defined.

(** ** 2FA regeneration (routes/authRoutes.js, middlewares/authMiddleware.js) *)

(** The document [authMiddleware] passes on never carries the 2FA secret. *)
Lemma authMiddleware_document {L : Library} (cfg : Config)
  (authHeader : option string) (store : list User) (user : Document) :
  AuthMiddleware.authMiddleware (D := RegenerateData) cfg authHeader store
  = inr user ->
  UserModel.doc_twoFactorSecret user = None.
Proof.
  unfold AuthMiddleware.authMiddleware.
  destruct (negb (truthy_opt authHeader)); [discriminate |].
  destruct (negb (String.prefix _ _)); [discriminate |].
  destruct (negb (truthy _)); [discriminate |].
  destruct (jwt_verify _ _); try discriminate.
  destruct (UserModel.findById store userId) as [u |]; [| discriminate].
  simpl. destruct (negb (isActive u)); [discriminate |].
  destruct (isLocked u); [discriminate |].
  intros E. injection E as <-. reflexivity.
Qed.

(** On a document that carries the secret, the handler does what the
    specification says: a valid code replaces the stored secret of the
    account. *)
Lemma regenerate2FA_full_document {L : Library} (u : User)
  (code : string) (rnd : buffer) (store : list User) :
  code <> "" ->
  authenticator_verify code (Some (twoFactorSecret u)) = Ok true ->
  let r :=
    AuthController.regenerate2FA {| selection := AllPaths; fields := u |}
      (Some code) rnd store in
  success (fst r) = true
  /\ snd r
     = UserModel.save
         (AuthController.with_twoFactorSecret u
            (authenticator_generateSecret rnd)) store.
Proof.
  intros Hc Hv. unfold AuthController.regenerate2FA,
    UserModel.doc_twoFactorSecret.
  cbn [selection fields truthy_opt or_empty].
  apply truthy_true_iff in Hc. rewrite Hc, Hv. simpl. auto.
Qed.

(** C9, what the code does: through the route, [regenerate2FA] verifies the
    code against the secret of a document that [authMiddleware] loaded
    without it, so no request succeeds and the stored secret is never
    replaced, also when the code is valid for the stored secret. *)
Theorem post_regenerate_2fa_never_replaces (L : Library) (HO : OtplibLaws L)
  (cfg : Config) (authHeader twoFactorCode : option string) (rnd : buffer)
  (store : list User) :
  let r :=
    AuthRoutes.post_regenerate_2fa cfg authHeader twoFactorCode rnd store in
  success (fst r) = false /\ snd r = store.
Proof.
  unfold AuthRoutes.post_regenerate_2fa.
  destruct (AuthMiddleware.authMiddleware cfg authHeader store)
    as [response | user] eqn:Hmw.
  - simpl. split; [| reflexivity].
    unfold AuthMiddleware.authMiddleware in Hmw.
    destruct (negb (truthy_opt authHeader));
      [injection Hmw as <-; reflexivity |].
    destruct (negb (String.prefix _ _));
      [injection Hmw as <-; reflexivity |].
    destruct (negb (truthy _)); [injection Hmw as <-; reflexivity |].
    destruct (jwt_verify _ _); try (injection Hmw as <-; reflexivity).
    destruct (UserModel.findById store userId) as [u |];
      [| injection Hmw as <-; reflexivity].
    simpl in Hmw. destruct (negb (isActive u));
      [injection Hmw as <-; reflexivity |].
    destruct (isLocked u); [injection Hmw as <-; reflexivity | discriminate].
  - apply authMiddleware_document in Hmw.
    unfold AuthController.regenerate2FA. rewrite Hmw.
    destruct (negb (truthy_opt twoFactorCode)); [simpl; auto |].
    pose proof (authenticator_verify_undefined (or_empty twoFactorCode)) as Hu.
    destruct (authenticator_verify (or_empty twoFactorCode) None)
      as [[|] | m]; simpl; auto.
    contradiction Hu. reflexivity.
Qed.

Lemma reference_otplib_laws : OtplibLaws Reference.library.
Proof. constructor. intros token. simpl. discriminate. Qed.

Lemma post_regenerate_2fa_never_replaces_witness :
  authenticator_verify (Library := Reference.library) "Kalice"
    (Some (twoFactorSecret Reference.alice)) = Ok true
  /\ success (fst (AuthRoutes.post_regenerate_2fa (L := Reference.library)
                     Reference.config (Some "Bearer jwt:u1") (Some "Kalice")
                     [x41] Reference.store)) = false
  /\ snd (AuthRoutes.post_regenerate_2fa (L := Reference.library)
            Reference.config (Some "Bearer jwt:u1") (Some "Kalice")
            [x41] Reference.store) = Reference.store.
Proof.
  split; [reflexivity |].
  exact (post_regenerate_2fa_never_replaces Reference.library
           reference_otplib_laws Reference.config (Some "Bearer jwt:u1")
           (Some "Kalice") [x41] Reference.store).
Defined.

(** ** Bitcoin input selection (utils/sendTx.js) *)

Lemma insert_desc_perm (u : Utxo) (l : list Utxo) :
  Permutation (SendTx.insert_desc u l) (u :: l).
Proof.
  induction l as [| v l IH]; simpl.
  - apply Permutation_refl.
  - destruct (value v <=? value u)%Z.
    + apply Permutation_refl.
    + eapply perm_trans; [apply perm_skip; exact IH | apply perm_swap].
Qed.

Lemma sort_desc_perm (l : list Utxo) : Permutation (SendTx.sort_desc l) l.
Proof.
  induction l as [| u l IH]; simpl.
  - apply perm_nil.
  - eapply perm_trans; [apply insert_desc_perm | apply perm_skip; exact IH].
Qed.

Lemma insert_desc_descending (u : Utxo) (l : list Utxo) :
  SendTx.descending l -> SendTx.descending (SendTx.insert_desc u l).
Proof.
  unfold SendTx.descending.
  induction l as [| v l IH]; simpl; intros Hs.
  - constructor; constructor.
  - inversion Hs as [| ? ? Hl Hv]; subst.
    destruct (value v <=? value u)%Z eqn:E.
    + apply Z.leb_le in E. constructor; [exact Hs |].
      constructor; [exact E |].
      eapply Forall_impl; [| exact Hv]. simpl. intros a Ha. lia.
    + apply Z.leb_gt in E. constructor; [apply IH; exact Hl |].
      eapply Permutation_Forall;
        [apply Permutation_sym; apply insert_desc_perm |].
      constructor; [lia | exact Hv].
Qed.

Lemma sort_desc_descending (l : list Utxo) :
  SendTx.descending (SendTx.sort_desc l).
Proof.
  induction l as [| u l IH]; simpl.
  - constructor.
  - apply insert_desc_descending. exact IH.
Qed.

Lemma total_perm (a b : list Utxo) :
  Permutation a b -> SendTx.total a = SendTx.total b.
Proof.
  induction 1; simpl; lia.
Qed.

(** The selection loop, from any state it has reached: it stops at the
    first further output after which the running total covers the amount
    and the fee for the inputs selected so far, or runs through the list. *)
Lemma selectUtxos_spec (rest : list Utxo) (A r t : Z) (sel : list Utxo) :
  let reach k :=
    (A + SendTx.estimatedFee (List.length sel + k) r
     <= t + SendTx.total (firstn k rest))%Z in
  (exists k,
      1 <= k <= List.length rest /\ reach k
      /\ (forall j, 1 <= j < k -> ~ reach j)
      /\ SendTx.selectUtxos rest A r t sel
         = ((t + SendTx.total (firstn k rest))%Z, sel ++ firstn k rest))
  \/ ((forall j, 1 <= j <= List.length rest -> ~ reach j)
      /\ SendTx.selectUtxos rest A r t sel
         = ((t + SendTx.total rest)%Z, sel ++ rest)).
Proof.
  revert t sel. induction rest as [| u rest IH]; intros t sel reach.
  - right. split; [intros j Hj; simpl in Hj; lia |].
    simpl. rewrite Z.add_0_r, app_nil_r. reflexivity.
  - subst reach. simpl SendTx.selectUtxos.
    rewrite length_app. simpl List.length.
    destruct (A + SendTx.estimatedFee (List.length sel + 1) r
              <=? t + value u)%Z eqn:E.
    + apply Z.leb_le in E. left. exists 1. simpl.
      rewrite Z.add_0_r. repeat split; try lia.
    + apply Z.leb_gt in E.
      destruct (IH (t + value u)%Z (sel ++ [u])) as
        [(k & Hk & Hreach & Hmin & Hsel) | (Hnone & Hsel)];
        rewrite length_app in *; simpl List.length in *.
      * left. exists (S k). simpl firstn. simpl SendTx.total.
        replace (List.length sel + S k) with (List.length sel + 1 + k)
          by lia.
        repeat split; try lia.
        -- intros j Hj. destruct j as [| j]; [lia |].
           simpl firstn. simpl SendTx.total.
           destruct j as [| j].
           ++ simpl. lia.
           ++ replace (List.length sel + S (S j))
                with (List.length sel + 1 + S j) by lia.
              specialize (Hmin (S j) ltac:(lia)). lia.
        -- rewrite Hsel, <- app_assoc. simpl.
           f_equal. lia.
      * right. split.
        -- intros j Hj. destruct j as [| j]; [lia |].
           simpl firstn. simpl SendTx.total.
           destruct j as [| j].
           ++ simpl. lia.
           ++ replace (List.length sel + S (S j))
                with (List.length sel + 1 + S j) by lia.
              specialize (Hnone (S j) ltac:(simpl in Hj; lia)). lia.
        -- rewrite Hsel, <- app_assoc. simpl. f_equal. lia.
Qed.


(** C7 (as amended): [sendBitcoinTransaction] sorts the outputs by
    descending value and selects the shortest non-empty prefix whose total
    covers the amount plus fee(count) = (count * 148 + 2 * 34 + 10) *
    feeRate, the fee being recomputed after each output is added; the send
    is rejected with "Insufficient funds" exactly when the list is not empty
    and no non-empty prefix covers (then the full set does not cover
    either), and with "No UTXOs available" when the explorer lists no
    output; otherwise the recipient output is followed by a change output to
    the sender exactly when the change exceeds 546 satoshis. *)
Theorem bitcoinPlan_selection (utxos : list Utxo) (A r : Z)
  (to address : string) :
  let sorted := SendTx.sort_desc utxos in
  Permutation sorted utxos /\ SendTx.descending sorted
  /\ ((utxos = []
       /\ SendTx.bitcoinPlan utxos A r to address
          = Throw "No UTXOs available")
      \/ (utxos <> []
          /\ (forall k, 1 <= k <= List.length sorted ->
                ~ SendTx.covers sorted A r k)
          /\ (SendTx.total utxos
              < A + SendTx.estimatedFee (List.length utxos) r)%Z
          /\ SendTx.bitcoinPlan utxos A r to address
             = Throw "Insufficient funds")
      \/ (exists k,
            1 <= k <= List.length sorted
            /\ SendTx.covers sorted A r k
            /\ (forall j, 1 <= j < k -> ~ SendTx.covers sorted A r j)
            /\ let selected := firstn k sorted in
               let fee := SendTx.estimatedFee k r in
               let change := (SendTx.total selected - A - fee)%Z in
               exists outputs,
                 SendTx.bitcoinPlan utxos A r to address
                 = Ok {| plan_selected := selected;
                         plan_totalInput := SendTx.total selected;
                         plan_fee := fee;
                         plan_change := change;
                         plan_outputs := outputs |}
                 /\ ((546 < change)%Z ->
                     outputs = [(to, A); (address, change)])
                 /\ ((change <= 546)%Z -> outputs = [(to, A)]))).
Proof.
  intros sorted.
  pose proof (sort_desc_perm utxos) as Hperm. fold sorted in Hperm.
  split; [exact Hperm |]. split; [apply sort_desc_descending |].
  unfold SendTx.bitcoinPlan. fold sorted.
  assert (Hlen : List.length sorted = List.length utxos)
    by (apply Permutation_length; exact Hperm).
  destruct (Nat.eqb (List.length utxos) 0) eqn:E0.
  { left. apply Nat.eqb_eq, length_zero_iff_nil in E0. auto. }
  apply Nat.eqb_neq in E0. right.
  assert (Hne : utxos <> [])
    by (intros C; apply E0; rewrite C; reflexivity).
  destruct (selectUtxos_spec sorted A r 0%Z [])
    as [(k & Hk & Hreach & Hmin & Hsel) | (Hnone & Hsel)];
    simpl List.length in *; simpl app in *; rewrite Hsel;
    rewrite ?Z.add_0_l in *.
  - right. exists k. rewrite firstn_length_le by lia.
    assert (Hcov : SendTx.covers sorted A r k) by exact Hreach.
    unfold SendTx.covers in Hcov.
    replace (SendTx.total (firstn k sorted)
             <? A + SendTx.estimatedFee k r)%Z with false
      by (symmetry; apply Z.ltb_ge; exact Hcov).
    split; [exact Hk |]. split; [exact Hreach |].
    split; [intros j Hj; exact (Hmin j Hj) |].
    cbv zeta. eexists. split; [reflexivity |].
    split; intros Hc.
    + apply Z.ltb_lt in Hc. rewrite Hc. reflexivity.
    + apply Z.ltb_ge in Hc. rewrite Hc. reflexivity.
  - left. assert (Hfull : ~ (A + SendTx.estimatedFee (List.length sorted) r
                             <= SendTx.total (firstn (List.length sorted)
                                                sorted))%Z).
    { apply (Hnone (List.length sorted)). lia. }
    rewrite firstn_all in Hfull.
    replace (SendTx.total sorted
             <? A + SendTx.estimatedFee (List.length sorted) r)%Z with true
      by (symmetry; apply Z.ltb_lt; lia).
    split; [exact Hne |].
    split; [intros j Hj; exact (Hnone j Hj) |].
    split; [| reflexivity].
    rewrite <- (total_perm _ _ Hperm), <- Hlen. lia.
Qed.

Example bitcoinPlan_change_output :
  SendTx.bitcoinPlan
    [ {| txid := "a"; vout := 0%N; value := 1000%Z |};
      {| txid := "b"; vout := 1%N; value := 3000%Z |};
      {| txid := "c"; vout := 0%N; value := 2000%Z |} ]
    4000%Z 1%Z "bc1qrecipient" "bc1qsender"
  = Ok {| plan_selected :=
            [ {| txid := "b"; vout := 1%N; value := 3000%Z |};
              {| txid := "c"; vout := 0%N; value := 2000%Z |} ];
          plan_totalInput := 5000%Z;
          plan_fee := 374%Z;
          plan_change := 626%Z;
          plan_outputs := [("bc1qrecipient", 4000%Z); ("bc1qsender", 626%Z)] |}.
Proof. reflexivity. Qed.

(** The fee grows with every input, so the full set may fail to cover the
    amount plus the fee for all of its inputs while a shorter prefix covers
    the amount plus its own fee: the send then proceeds with the prefix and
    is not rejected.  And an empty list is rejected under another message. *)
Lemma bitcoinPlan_full_set_short :
  let utxos :=
    [ {| txid := "a"; vout := 0%N; value := 1%Z |};
      {| txid := "b"; vout := 0%N; value := 5000%Z |} ] in
  (SendTx.total utxos
   < 2500 + SendTx.estimatedFee (List.length utxos) 10)%Z
  /\ SendTx.bitcoinPlan utxos 2500%Z 10%Z "bc1qrecipient" "bc1qsender"
     = Ok {| plan_selected :=
               [ {| txid := "b"; vout := 0%N; value := 5000%Z |} ];
             plan_totalInput := 5000%Z;
             plan_fee := 2260%Z;
             plan_change := 240%Z;
             plan_outputs := [("bc1qrecipient", 2500%Z)] |}
  /\ SendTx.bitcoinPlan [] 2500%Z 10%Z "bc1qrecipient" "bc1qsender"
     = Throw "No UTXOs available".
Proof. repeat split. Qed.

(** [sendBitcoinTransaction] fails with the plan's error before it adds an
    input, and reports the plan's fee and input count when it succeeds. *)
Lemma sendBitcoinTransaction_plan {L : Library} (api : BitcoinBackend)
  (params : TxParams) (keyPair : ECPair) (utxos : list Utxo) :
  let feeRate := match tp_feeRate params with Some r => r | None => 10%Z end in
  let testnet := match tp_testnet params with Some t => t | None => false end in
  let address := payments_p2wpkh (kp_publicKey keyPair) in
  let amountSatoshis := Qfloor (number_mul (tp_amount params) 100000000) in
  ECPair_fromPrivateKey (hex_decode (or_empty (tp_privateKey params)))
  = Ok keyPair ->
  get_utxos api testnet address = Ok utxos ->
  match SendTx.bitcoinPlan utxos amountSatoshis feeRate (tp_to params)
          address with
  | Throw m =>
      SendTx.sendBitcoinTransaction api params
      = Throw ("Failed to send Bitcoin transaction: " ++ m)
  | Ok plan =>
      forall result, SendTx.sendBitcoinTransaction api params = Ok result ->
        tx_inputCount result = Some (List.length (plan_selected plan))
        /\ tx_fee result
           = Some (number_div (inject_Z (plan_fee plan)) 100000000)
  end.
Proof.
  intros feeRate testnet address amountSatoshis Hkey Hutxos.
  unfold SendTx.sendBitcoinTransaction.
  fold feeRate testnet. rewrite Hkey. cbn [bind]. fold address.
  rewrite Hutxos. cbn [bind]. fold amountSatoshis.
  destruct (SendTx.bitcoinPlan utxos amountSatoshis feeRate (tp_to params)
              address) as [plan | m]; [| reflexivity].
  cbn [bind]. intros result H.
  apply rethrow_Ok in H.
  apply bind_Ok in H. destruct H as (inputs & _ & H).
  apply bind_Ok in H. destruct H as (txHex & _ & H).
  apply bind_Ok in H. destruct H as (hash & _ & H).
  injection H as <-. simpl. auto.
Qed.

(** ** Bitcoin balance (utils/getBalance.js) *)

(** C8, what the code does: the balance is the confirmed funded total alone
    and the unconfirmed balance the mempool's funded total alone; the spent
    totals are not read.  For an address that received 1.5 BTC and spent
    0.5 BTC the code reports 1.5 where the specification's formula gives
    1; a 404 answer gives zero balances. *)
Theorem getBitcoinBalance_ignores_spent :
  let data :=
    {| chain_stats :=
         {| funded_txo_sum := 150000000; spent_txo_sum := 50000000;
            tx_count := 2 |};
       mempool_stats :=
         {| funded_txo_sum := 0; spent_txo_sum := 0; tx_count := 0 |} |} in
  exists b,
    GetBalance.getBitcoinBalance (fun _ _ => AxiosData data)
      "bc1qexample" false = Ok b
    /\ (bb_balance b == 3 # 2)%Q
    /\ (bb_unconfirmedBalance b == 0)%Q
    /\ (GetBalance.spec_balance data == 1)%Q
    /\ (GetBalance.spec_balance data < bb_balance b)%Q
    /\ (forall spent spent' : Z,
          GetBalance.getBitcoinBalance
            (fun _ _ =>
               AxiosData
                 {| chain_stats :=
                      {| funded_txo_sum := 150000000; spent_txo_sum := spent;
                         tx_count := 2 |};
                    mempool_stats :=
                      {| funded_txo_sum := 0; spent_txo_sum := spent';
                         tx_count := 0 |} |})
            "bc1qexample" false = Ok b)
    /\ (forall msg,
          option_map bb_balance
            (match GetBalance.getBitcoinBalance
                     (fun _ _ => AxiosStatus 404 msg) "bc1qexample" false with
             | Ok z => Some z
             | Throw _ => None
             end) = Some 0%Q).
Proof.
  eexists. split; [reflexivity |].
  repeat split; try reflexivity.
Qed.

(** ** Platform fee (controllers/walletController.js) *)

Lemma Qlt_bool_iff (a b : Q) :
  WalletController.Qlt_bool a b = true <-> (a < b)%Q.
Proof.
  unfold WalletController.Qlt_bool. rewrite negb_true_iff. split.
  - intros H. apply Qnot_le_lt. intros C. apply Qle_bool_iff in C. congruence.
  - intros H. destruct (Qle_bool b a) eqn:E; [| reflexivity].
    apply Qle_bool_iff in E. exfalso. exact (Qlt_not_le _ _ H E).
Qed.

(** C10: for a send request that reaches the fee check, when the platform
    fee (the double [amount * (percentage / 100)]) exceeds the account's fee
    balance, [sendCrypto] answers 400 "Insufficient platform fee balance"
    without calling [sendTransaction] (no chain adapter is entered) and
    leaves the stored accounts as they are; and whenever [sendCrypto] changes
    the store at all, [sendTransaction] has returned a result and the change
    is the decrement of the fee balance by the fee (the double
    [balance - fee]). *)
Theorem sendCrypto_fee_gate (L : Library)
  (sendTransaction : TxParams -> result TxResult * list ChainCall)
  (cfg : Config) (user : Document) (body : SendRequest) (store : list User)
  (numericAmount : Q) (wallet : WalletRecord) :
  WalletController.reaches_fee_check user body numericAmount wallet ->
  let fee := WalletController.feeAmount cfg numericAmount in
  let balance := platformFeeBalance (fields user) in
  ((balance < fee)%Q ->
   WalletController.sendCrypto_with sendTransaction cfg user body store
   = (WalletController.insufficientFee fee balance, store, []))
  /\ (forall resp store' calls,
        WalletController.sendCrypto_with sendTransaction cfg user body store
        = (resp, store', calls) ->
        store' <> store ->
        ~ (balance < fee)%Q
        /\ success resp = true
        /\ store'
           = UserModel.save
               (WalletController.with_platformFeeBalance (fields user)
                  (number_sub balance fee)) store
        /\ exists params txResult,
             sendTransaction params = (Ok txResult, calls)).
Proof.
  intros (Hc & Hch & Hr & Ha & Hp & Hpos & Hw & Hk) fee balance.
  unfold WalletController.sendCrypto_with.
  rewrite Hc, Hch, Hr, Ha, Hp, Hpos, Hw, Hk. simpl negb. cbv iota.
  fold fee balance.
  destruct (WalletController.Qlt_bool balance fee) eqn:Hlt.
  - split; [reflexivity |].
    intros resp store' calls E. injection E as <- <- <-.
    intros C. contradiction C. reflexivity.
  - split.
    + intros H. apply Qlt_bool_iff in H. congruence.
    + intros resp store' calls.
      match goal with
      | |- context [sendTransaction ?p] =>
          destruct (sendTransaction p) as [[txResult | m] calls0] eqn:Hsend
      end.
      * intros E. injection E as <- <- <-. intros _.
        split; [intros C; apply Qlt_bool_iff in C; congruence |].
        split; [reflexivity |]. split; [reflexivity |].
        eexists. exists txResult. exact Hsend.
      * intros E. injection E as <- <- <-.
        intros C. contradiction C. reflexivity.
Qed.

Lemma sendCrypto_fee_gate_witness :
  WalletController.reaches_fee_check (L := Reference.library)
    {| selection := WithoutCredentials; fields := Reference.alice |}
    Reference.send_request 100 (bitcoin (wallets Reference.alice))
  /\ WalletController.sendCrypto (L := Reference.library) Reference.config
       Reference.chains
       {| selection := WithoutCredentials; fields := Reference.alice |}
       Reference.send_request Reference.store
     = (WalletController.insufficientFee
          (WalletController.feeAmount (L := Reference.library)
             Reference.config 100)
          (1 # 1024)%Q,
        Reference.store, []).
Proof.
  assert (Hreach :
    WalletController.reaches_fee_check (L := Reference.library)
      {| selection := WithoutCredentials; fields := Reference.alice |}
      Reference.send_request 100 (bitcoin (wallets Reference.alice)))
    by (repeat split; reflexivity).
  split; [exact Hreach |].
  apply (proj1 (sendCrypto_fee_gate Reference.library
                  (SendTx.sendTransaction (L := Reference.library)
                     Reference.config Reference.chains)
                  Reference.config
                  {| selection := WithoutCredentials;
                     fields := Reference.alice |}
                  Reference.send_request Reference.store 100
                  (bitcoin (wallets Reference.alice)) Hreach)).
  reflexivity.
Defined.

(** ** Further properties of the code *)

(** The IV field of a blob is not read: [createDecipher] derives key and IV
    from the derived key alone, so two blobs that differ only in the 16 IV
    bytes decrypt alike. *)
Theorem decrypt_ignores_iv (L : Library) (HL : CipherLaws L)
  (key : option string) (salt iv iv' tag ct : buffer) :
  Encrypt.key_invalid key = false ->
  List.length salt = 64 -> List.length iv = 16 -> List.length iv' = 16 ->
  List.length tag = 16 ->
  Encrypt.decrypt key (base64_encode (salt ++ iv ++ tag ++ ct))
  = Encrypt.decrypt key (base64_encode (salt ++ iv' ++ tag ++ ct)).
Proof.
  intros Hk Hs Hi Hi' Ht.
  rewrite !decrypt_layout by assumption. reflexivity.
Qed.

Lemma decrypt_ignores_iv_witness :
  Encrypt.decrypt (L := Reference.library) (encryptionKey Reference.config)
    (@base64_encode Reference.library
       (repeat x00 64 ++ repeat x00 16 ++ repeat x00 16 ++ [x41]))
  = Encrypt.decrypt (L := Reference.library) (encryptionKey Reference.config)
      (@base64_encode Reference.library
         (repeat x00 64 ++ repeat xff 16 ++ repeat x00 16 ++ [x41])).
Proof.
  apply (decrypt_ignores_iv Reference.library reference_cipher_laws
           (encryptionKey Reference.config) (repeat x00 64) (repeat x00 16)
           (repeat xff 16) (repeat x00 16) [x41]); reflexivity.
Defined.

(** Device matching: [verifyDevice] fails closed on a missing descriptor,
    holds exactly when deviceId and fingerprint are both equal, so it is
    reflexive; and a change of the model alone (both models non-empty)
    leaves the devices matching while [analyzeDeviceChange] reports the one
    reason "Device model changed" at riskLevel medium. *)
Theorem verifyDevice_matching (stored provided : DeviceInfo) :
  VerifyDevice.verifyDevice None (Some provided) = false
  /\ VerifyDevice.verifyDevice (Some stored) None = false
  /\ (VerifyDevice.verifyDevice (Some stored) (Some provided) = true
      <-> deviceId stored = deviceId provided
          /\ fingerprint stored = fingerprint provided)
  /\ VerifyDevice.verifyDevice (Some stored) (Some stored) = true
  /\ (deviceId stored = deviceId provided ->
      platform stored = platform provided ->
      fingerprint stored = fingerprint provided ->
      truthy_opt (model stored) = true ->
      truthy_opt (model provided) = true ->
      model stored <> model provided ->
      VerifyDevice.verifyDevice (Some stored) (Some provided) = true
      /\ VerifyDevice.analyzeDeviceChange (Some stored) (Some provided)
         = {| isSuspicious := true; reasons := ["Device model changed"];
              riskLevel := Some medium |}).
Proof.
  unfold VerifyDevice.verifyDevice, VerifyDevice.analyzeDeviceChange.
  split; [reflexivity |]. split; [reflexivity |]. split; [| split].
  - rewrite andb_true_iff, !strict_eq_true_iff. reflexivity.
  - rewrite !strict_eq_refl. reflexivity.
  - intros Hd Hp Hf Hm1 Hm2 Hm.
    rewrite Hd, Hp, Hf, Hm1, Hm2, !strict_eq_refl.
    case_strict_eq (model stored) (model provided); [contradiction |].
    split; reflexivity.
Qed.

(** As the modules are wired, no send reaches a chain: [sendCrypto] passes
    [encryptedPrivateKey] and no [privateKey], and
    [validateTransactionParams] rejects parameters without [privateKey]
    before [sendTransaction] decrypts anything; so every request is refused,
    no chain adapter is entered and no fee is deducted. *)
Theorem sendCrypto_never_sends (L : Library) (cfg : Config) (chains : Chains)
  (user : Document) (body : SendRequest) (store : list User) :
  let r := WalletController.sendCrypto cfg chains user body store in
  success (fst (fst r)) = false /\ snd (fst r) = store /\ snd r = [].
Proof.
  unfold WalletController.sendCrypto, WalletController.sendCrypto_with.
  destruct (_ || _); [simpl; auto |].
  destruct (parseFloat (sr_amount body)) as [numericAmount |];
    [| simpl; auto].
  destruct (Qle_bool numericAmount 0); [simpl; auto |].
  destruct (WalletController.walletFor _ _) as [wallet |]; [| simpl; auto].
  destruct (negb (truthy_opt (encryptedPrivateKey wallet))); [simpl; auto |].
  destruct (WalletController.Qlt_bool _ _); [simpl; auto |].
  unfold SendTx.sendTransaction.
  match goal with
  | |- context [SendTx.validateTransactionParams ?p] =>
      assert (Hv : isValid (SendTx.validateTransactionParams p) = false)
  end.
  { unfold SendTx.validateTransactionParams. cbn [tp_privateKey truthy_opt].
    cbn [isValid negb]. rewrite !length_app. cbn [List.length].
    apply Nat.eqb_neq. lia. }
  rewrite Hv. simpl. auto.
Qed.

(** A registration stores a credential that begins with the bcrypt marker
    [$2b$] as it was typed: the account [register] appends has the typed
    secret code (or hash key) itself as its digest, where a credential
    without the marker is stored as its bcrypt hash under the fresh salt. *)
Theorem register_stores_marked_credential (L : Library) (cfg : Config)
  (body : RegisterRequest) (rnd : RegisterEntropy) (store : list User)
  (code key : string) :
  rr_securityCode body = Some code ->
  rr_hashKey body = Some key ->
  success (fst (AuthController.register cfg body rnd store)) = true ->
  exists user,
    snd (AuthController.register cfg body rnd store) = store ++ [user]
    /\ (String.prefix "$2b$" code = true -> securityCodeHash user = code)
    /\ (String.prefix "$2b$" key = true -> hashKeyHash user = key)
    /\ (String.prefix "$2b$" code = false ->
        securityCodeHash user = bcrypt_hash code (rnd_salt_code rnd))
    /\ (String.prefix "$2b$" key = false ->
        hashKeyHash user = bcrypt_hash key (rnd_salt_key rnd)).
Proof.
  intros Hcode Hkey.
  unfold AuthController.register. rewrite Hcode, Hkey.
  destruct (rr_deviceInfo body) as [device |]; [| discriminate].
  destruct (negb (truthy_opt (rr_username body))
            || negb (truthy_opt (Some code))
            || negb (truthy_opt (Some key))); [discriminate |].
  destruct (negb (isValid (VerifyDevice.validateDeviceInfo (Some device))));
    [discriminate |].
  destruct (UserModel.findOne_username store _); [discriminate |].
  destruct (GenerateWallets.generateAllWallets cfg None (rnd_wallets rnd))
    as [generated | m]; [| discriminate].
  cbv zeta.
  destruct (negb (UserModel.validates _)); [discriminate |].
  destruct (AuthMiddleware.generateToken_throws cfg); [discriminate |].
  intros _. cbn [snd]. eexists. split; [reflexivity |].
  cbn [securityCodeHash hashKeyHash or_empty].
  unfold UserModel.presave_hash.
  repeat split; intros H; rewrite H; reflexivity.
Qed.

Lemma register_stores_marked_credential_witness :
  exists user,
    snd (AuthController.register (L := Reference.library) Reference.config
           Samples.marked_registration
           Reference.register_entropy Reference.store)
    = Reference.store ++ [user]
    /\ securityCodeHash user = "$2b$carol-code"
    /\ hashKeyHash user = "$2b$12$carol-key".
Proof.
  destruct (register_stores_marked_credential Reference.library
              Reference.config
              Samples.marked_registration
              Reference.register_entropy Reference.store
              "$2b$carol-code" "carol-key" eq_refl eq_refl)
    as (user & Hstore & Hc & _ & _ & Hk).
  - vm_compute. reflexivity.
  - exists user. split; [exact Hstore |].
    split; [apply Hc; reflexivity | apply Hk; reflexivity].
Defined.

(** ** Objects under the envelope cipher (utils/encrypt.js) *)

Lemma index_key_not_proto (i : nat) :
  String.eqb (index_key i) "__proto__" = false.
Proof.
  unfold index_key, NilZero.string_of_uint.
  destruct (Nat.to_uint i); reflexivity.
Qed.

Section ObjectCipher.
Context {L : Library}.
Variable key : option string.
Variable rnd : nat -> entropy.

Lemma encryptValue_object (entries : list (string * JsValue)) (n : nat) :
  EncryptObject.encryptValue key rnd (JsObject entries) n
  = (r <- EncryptObject.encryptObject key rnd entries n ;;
     Ok (JsObject (fst r), snd r)).
Proof. reflexivity. Qed.

Lemma encryptValue_array (items : list JsValue) (n : nat) :
  EncryptObject.encryptValue key rnd (JsArray items) n
  = (r <- EncryptObject.encryptObject key rnd (array_entries items 0) n ;;
     Ok (JsObject (fst r), snd r)).
Proof.
  cbn [EncryptObject.encryptValue]. f_equal.
  generalize 0 as i. revert n.
  induction items as [| v items IH]; intros n i.
  - reflexivity.
  - cbn. destruct (EncryptObject.encryptValue key rnd v n) as [[v' n'] |];
      cbn; [rewrite IH |]; reflexivity.
Qed.

Lemma decryptValue_object (entries : list (string * JsValue)) :
  EncryptObject.decryptValue key (JsObject entries)
  = JsObject (EncryptObject.decryptObject key entries).
Proof. reflexivity. Qed.

Lemma decryptValue_array (items : list JsValue) :
  EncryptObject.decryptValue key (JsArray items)
  = JsObject (EncryptObject.decryptObject key (array_entries items 0)).
Proof.
  cbn [EncryptObject.decryptValue]. f_equal. generalize 0 as i.
  induction items as [| v items IH]; intros i; [reflexivity |].
  cbn. rewrite IH. reflexivity.
Qed.

End ObjectCipher.

Lemma objectify_object (entries : list (string * JsValue)) :
  EncryptObject.objectify (JsObject entries)
  = JsObject (EncryptObject.objectify_entries entries).
Proof. reflexivity. Qed.

Lemma objectify_array (items : list JsValue) :
  EncryptObject.objectify (JsArray items)
  = JsObject (EncryptObject.objectify_entries (array_entries items 0)).
Proof.
  cbn [EncryptObject.objectify]. f_equal. generalize 0 as i.
  induction items as [| v items IH]; intros i; [reflexivity |].
  cbn. rewrite IH. reflexivity.
Qed.

Lemma plain_object (entries : list (string * JsValue)) :
  EncryptObject.plain (JsObject entries) = EncryptObject.plain_entries entries.
Proof. reflexivity. Qed.

Lemma has_text_object (entries : list (string * JsValue)) :
  EncryptObject.has_text (JsObject entries)
  = EncryptObject.has_text_entries entries.
Proof. reflexivity. Qed.

Lemma has_text_array (items : list JsValue) :
  EncryptObject.has_text (JsArray items)
  = EncryptObject.has_text_entries (array_entries items 0).
Proof.
  cbn [EncryptObject.has_text]. generalize 0 as i.
  induction items as [| v items IH]; intros i; [reflexivity |].
  cbn. rewrite <- IH. reflexivity.
Qed.

Lemma Forall_array_entries (P : JsValue -> Prop) (items : list JsValue)
  (i : nat) :
  Forall P items -> Forall (fun kv => P (snd kv)) (array_entries items i).
Proof.
  intros H. revert i. induction H; intros i; constructor; auto.
Qed.

Lemma objectify_plain (value : JsValue) :
  EncryptObject.plain value = true -> EncryptObject.objectify value = value.
Proof.
  induction value as [s | entries IH | items IH | a] using JsValue_nested_ind;
    try reflexivity.
  - rewrite plain_object, objectify_object. intros H. f_equal.
    induction IH as [| [k v] entries Hv _ IH]; [reflexivity |].
    cbn in H |- *. apply andb_true_iff in H as [H H3].
    apply andb_true_iff in H as [H1 H2]. apply negb_true_iff in H1.
    unfold assign. rewrite H1. cbn in Hv.
    rewrite Hv by exact H2. rewrite IH by exact H3. reflexivity.
  - discriminate.
Qed.

Lemma objectify_entries_plain (obj : list (string * JsValue)) :
  EncryptObject.plain_entries obj = true ->
  EncryptObject.objectify_entries obj = obj.
Proof.
  induction obj as [| [k v] obj IH]; [reflexivity |].
  cbn. intros H. apply andb_true_iff in H as [H H3].
  apply andb_true_iff in H as [H1 H2]. apply negb_true_iff in H1.
  unfold assign. rewrite H1.
  rewrite objectify_plain by exact H2. rewrite IH by exact H3.
  reflexivity.
Qed.

Section ObjectRoundTrip.
Context {L : Library} {HL : CipherLaws L}.
Variable key : option string.
Variable rnd : nat -> entropy.
Hypothesis key_ok : Encrypt.key_invalid key = false.
Hypothesis rnd_ok : forall n, Encrypt.entropy_ok (rnd n).

Lemma entries_roundtrip (entries : list (string * JsValue)) :
  Forall
    (fun kv =>
       forall n, exists value' n',
         EncryptObject.encryptValue key rnd (snd kv) n = Ok (value', n')
         /\ EncryptObject.decryptValue key value'
            = EncryptObject.objectify (snd kv)) entries ->
  forall n, exists entries' n',
    EncryptObject.encryptObject key rnd entries n = Ok (entries', n')
    /\ EncryptObject.decryptObject key entries'
       = EncryptObject.objectify_entries entries.
Proof.
  induction 1 as [| [k v] entries Hv _ IH]; intros n.
  - exists [], n. split; reflexivity.
  - cbn in Hv. destruct (Hv n) as (v' & n1 & Ev & Dv).
    destruct (IH n1) as (es' & n2 & Ee & De).
    exists (assign k v' es'), n2. cbn. rewrite Ev. cbn. rewrite Ee. cbn.
    split; [reflexivity |]. unfold assign.
    destruct (String.eqb k "__proto__") eqn:Hk; [exact De |].
    cbn. unfold assign. rewrite Hk, Dv, De. reflexivity.
Qed.

Lemma encryptValue_roundtrip (value : JsValue) (n : nat) :
  exists value' n',
    EncryptObject.encryptValue key rnd value n = Ok (value', n')
    /\ EncryptObject.decryptValue key value' = EncryptObject.objectify value.
Proof.
  revert n.
  induction value as [s | entries IH | items IH | a] using JsValue_nested_ind;
    intros n.
  - cbn [EncryptObject.encryptValue].
    destruct (Nat.ltb 0 (String.length s)) eqn:Hs.
    + assert (Hne : s <> "").
      { intros ->. discriminate. }
      rewrite encrypt_ok by assumption. cbn [bind].
      eexists _, _. split; [reflexivity |].
      cbn [EncryptObject.decryptValue EncryptObject.objectify].
      rewrite decrypt_sealed by auto.
      assert (Hl : Nat.ltb 0 (String.length
                 (base64_encode (Encrypt.sealed key s (rnd n)))) = true).
      { apply Nat.ltb_lt.
        pose proof (base64_encode_length (Encrypt.sealed key s (rnd n))) as Hb.
        unfold Encrypt.sealed in Hb |- *. cbv zeta in Hb |- *.
        rewrite !length_app in Hb.
        rewrite gcm_tag_length in Hb. lia. }
      rewrite Hl. reflexivity.
    + exists (JsString s), n. split; [reflexivity |].
      cbn [EncryptObject.decryptValue EncryptObject.objectify].
      rewrite Hs. reflexivity.
  - rewrite encryptValue_object.
    destruct (entries_roundtrip entries IH n) as (es' & n' & E & D).
    rewrite E. cbn [bind fst snd]. eexists _, _. split; [reflexivity |].
    rewrite decryptValue_object, objectify_object, D. reflexivity.
  - rewrite encryptValue_array.
    destruct (entries_roundtrip (array_entries items 0)) with (n := n)
      as (es' & n' & E & D).
    { apply (Forall_array_entries
               (fun value =>
                  forall n, exists value' n',
                    EncryptObject.encryptValue key rnd value n
                    = Ok (value', n')
                    /\ EncryptObject.decryptValue key value'
                       = EncryptObject.objectify value)).
      exact IH. }
    rewrite E. cbn [bind fst snd]. eexists _, _. split; [reflexivity |].
    rewrite decryptValue_object, objectify_array, D. reflexivity.
  - exists (JsOther a), n. split; reflexivity.
Qed.

End ObjectRoundTrip.

(** Under a usable key, [encryptObject] succeeds on every object and
    [decryptObject] of its result is the object again, up to what both
    functions do to the shape: an array comes back as the plain object of
    its indices and an entry under the key "__proto__" is lost.  For an
    object with neither, the round trip is the identity. *)
Theorem encryptObject_decryptObject_roundtrip (L : Library) (HL : CipherLaws L)
  (key : option string) (rnd : nat -> entropy)
  (obj : list (string * JsValue)) (n : nat) :
  Encrypt.key_invalid key = false ->
  (forall i, Encrypt.entropy_ok (rnd i)) ->
  exists encrypted n',
    EncryptObject.encryptObject key rnd obj n = Ok (encrypted, n')
    /\ EncryptObject.decryptObject key encrypted
       = EncryptObject.objectify_entries obj
    /\ (EncryptObject.plain_entries obj = true ->
        EncryptObject.decryptObject key encrypted = obj).
Proof.
  intros Hk Hr.
  destruct (entries_roundtrip key rnd obj) with (n := n)
    as (enc & n' & E & D).
  - apply Forall_forall. intros kv _ m.
    apply encryptValue_roundtrip; assumption.
  - exists enc, n'. split; [exact E |]. split; [exact D |].
    intros Hf. rewrite D. apply objectify_entries_plain. exact Hf.
Qed.

Lemma encryptObject_decryptObject_roundtrip_witness :
  exists encrypted n',
    EncryptObject.encryptObject (L := Reference.library)
      (encryptionKey Reference.config) (fun _ => Reference.entropy0)
      Samples.wallet_export 0 = Ok (encrypted, n')
    /\ EncryptObject.decryptObject (L := Reference.library)
         (encryptionKey Reference.config) encrypted
       = EncryptObject.objectify_entries Samples.wallet_export
    /\ (EncryptObject.plain_entries Samples.wallet_export = true ->
        EncryptObject.decryptObject (L := Reference.library)
          (encryptionKey Reference.config) encrypted = Samples.wallet_export).
Proof.
  apply (encryptObject_decryptObject_roundtrip Reference.library
           reference_cipher_laws (encryptionKey Reference.config)
           (fun _ => Reference.entropy0) Samples.wallet_export 0).
  - reflexivity.
  - intros i. split; reflexivity.
Defined.

Section ObjectInvalidKey.
Context {L : Library}.
Variable key : option string.
Variable rnd : nat -> entropy.
Hypothesis key_bad : Encrypt.key_invalid key = true.

Lemma decryptValue_invalid_key (value : JsValue) :
  EncryptObject.decryptValue key value = EncryptObject.objectify value.
Proof.
  induction value as [s | entries IH | items IH | a] using JsValue_nested_ind;
    try reflexivity.
  - cbn [EncryptObject.decryptValue EncryptObject.objectify].
    unfold Encrypt.decrypt. rewrite key_bad.
    destruct (Nat.ltb 0 (String.length s)); [| reflexivity].
    destruct (negb (truthy s)); reflexivity.
  - rewrite decryptValue_object, objectify_object. f_equal.
    induction IH as [| [k v] entries Hv _ IH]; [reflexivity |].
    cbn in Hv |- *. rewrite Hv, IH. reflexivity.
  - rewrite decryptValue_array, objectify_array. f_equal.
    generalize 0 as i.
    induction IH as [| v items Hv _ IH]; intros i; [reflexivity |].
    cbn. rewrite Hv, IH. reflexivity.
Qed.

Lemma encrypt_invalid_key (text : string) (e : entropy) :
  exists m, Encrypt.encrypt key text e = Throw m.
Proof.
  unfold Encrypt.encrypt. rewrite key_bad.
  destruct (negb (truthy text)); eexists; reflexivity.
Qed.

Lemma encryptObject_entries_invalid_key (entries : list (string * JsValue)) :
  Forall
    (fun kv =>
       forall n,
         if EncryptObject.has_text (snd kv)
         then exists m,
                EncryptObject.encryptValue key rnd (snd kv) n = Throw m
         else EncryptObject.encryptValue key rnd (snd kv) n
              = Ok (EncryptObject.objectify (snd kv), n)) entries ->
  forall n,
    if EncryptObject.has_text_entries entries
    then exists m, EncryptObject.encryptObject key rnd entries n = Throw m
    else EncryptObject.encryptObject key rnd entries n
         = Ok (EncryptObject.objectify_entries entries, n).
Proof.
  induction 1 as [| [k v] entries Hv _ IH]; intros n; [reflexivity |].
  cbn in Hv |- *. specialize (Hv n).
  destruct (EncryptObject.has_text v); cbn [orb].
  - destruct Hv as (m & ->). exists m. reflexivity.
  - rewrite Hv. cbn [bind snd fst]. specialize (IH n).
    destruct (EncryptObject.has_text_entries entries).
    + destruct IH as (m & ->). exists m. reflexivity.
    + rewrite IH. reflexivity.
Qed.

Lemma encryptValue_invalid_key (value : JsValue) (n : nat) :
  if EncryptObject.has_text value
  then exists m, EncryptObject.encryptValue key rnd value n = Throw m
  else EncryptObject.encryptValue key rnd value n
       = Ok (EncryptObject.objectify value, n).
Proof.
  revert n.
  induction value as [s | entries IH | items IH | a] using JsValue_nested_ind;
    intros n.
  - cbn [EncryptObject.has_text EncryptObject.encryptValue
         EncryptObject.objectify].
    destruct (Nat.ltb 0 (String.length s)); [| reflexivity].
    destruct (encrypt_invalid_key s (rnd n)) as (m & ->).
    exists m. reflexivity.
  - rewrite has_text_object, encryptValue_object, objectify_object.
    pose proof (encryptObject_entries_invalid_key entries IH n) as H.
    destruct (EncryptObject.has_text_entries entries).
    + destruct H as (m & ->). exists m. reflexivity.
    + rewrite H. reflexivity.
  - rewrite has_text_array, encryptValue_array, objectify_array.
    assert (H := encryptObject_entries_invalid_key (array_entries items 0)).
    specialize (H (Forall_array_entries
                     (fun value =>
                        forall n,
                          if EncryptObject.has_text value
                          then exists m,
                                 EncryptObject.encryptValue key rnd value n
                                 = Throw m
                          else EncryptObject.encryptValue key rnd value n
                               = Ok (EncryptObject.objectify value, n))
                     items 0 IH) n).
    destruct (EncryptObject.has_text_entries (array_entries items 0)).
    + destruct H as (m & ->). exists m. reflexivity.
    + rewrite H. reflexivity.
  - reflexivity.
Qed.

End ObjectInvalidKey.

(** Without a usable key the two functions part ways: [encryptObject]
    throws as soon as the object holds a non-empty string anywhere (and
    copies an object that holds none), while [decryptObject] swallows the
    failure of [decrypt] and returns every string as it is, so ciphertext
    comes back looking like plaintext. *)
Theorem decryptObject_swallows_invalid_key (L : Library) (key : option string)
  (rnd : nat -> entropy) (obj : list (string * JsValue)) (n : nat) :
  Encrypt.key_invalid key = true ->
  EncryptObject.decryptObject key obj = EncryptObject.objectify_entries obj
  /\ (EncryptObject.plain_entries obj = true ->
      EncryptObject.decryptObject key obj = obj)
  /\ (if EncryptObject.has_text_entries obj
      then exists m, EncryptObject.encryptObject key rnd obj n = Throw m
      else EncryptObject.encryptObject key rnd obj n
           = Ok (EncryptObject.objectify_entries obj, n)).
Proof.
  intros Hk.
  assert (E : EncryptObject.decryptObject key obj
              = EncryptObject.objectify_entries obj).
  { induction obj as [| [k v] obj IH]; [reflexivity |].
    cbn. rewrite decryptValue_invalid_key by exact Hk. rewrite IH.
    reflexivity. }
  split; [exact E |]. split.
  - intros Hf. rewrite E. apply objectify_entries_plain. exact Hf.
  - apply (encryptObject_entries_invalid_key key rnd obj).
    apply Forall_forall. intros kv _ m.
    apply encryptValue_invalid_key. exact Hk.
Qed.

Lemma decryptObject_swallows_invalid_key_witness :
  EncryptObject.decryptObject (L := Reference.library) (Some "short")
    Samples.wallet_export
  = EncryptObject.objectify_entries Samples.wallet_export
  /\ (exists m,
        EncryptObject.encryptObject (L := Reference.library) (Some "short")
          (fun _ => Reference.entropy0) Samples.wallet_export 0 = Throw m).
Proof.
  destruct (decryptObject_swallows_invalid_key Reference.library
              (Some "short") (fun _ => Reference.entropy0)
              Samples.wallet_export 0 eq_refl) as (H1 & _ & H3).
  split; [exact H1 | exact H3].
Defined.

(** ** Device descriptors (utils/verifyDevice.js) *)

(** A device descriptor is valid exactly when its deviceId is a string of
    at least ten UTF-16 code units, its platform is a string that is not
    empty, and its fingerprint is a string or a falsy value; the error list
    is empty exactly for a valid descriptor, and a missing descriptor is
    invalid.  On a descriptor whose fields are strings or absent the function
    is [VerifyDevice.validateDeviceInfo], the form the handlers are modelled
    with.  The length is taken before normalization trims the fields. *)
Theorem validateDeviceInfo_accepts (d : RawDeviceInfo) :
  (isValid (RawDevice.validateDeviceInfo (Some d)) = true <->
   (exists id, raw_deviceId d = Text id /\ 10 <= utf16_length id)
   /\ (exists p, raw_platform d = Text p /\ p <> "")
   /\ (raw_fingerprint d = Falsy
       \/ exists f, raw_fingerprint d = Text f))
  /\ (errors (RawDevice.validateDeviceInfo (Some d)) = [] <->
      isValid (RawDevice.validateDeviceInfo (Some d)) = true)
  /\ isValid (RawDevice.validateDeviceInfo None) = false
  /\ (forall t : option DeviceInfo,
        RawDevice.validateDeviceInfo (option_map RawDevice.of_DeviceInfo t)
        = VerifyDevice.validateDeviceInfo t).
Proof.
  split; [| split; [| split; [reflexivity |]]].
  - unfold RawDevice.validateDeviceInfo. cbn [isValid].
    split.
    + intros H.
      destruct (raw_deviceId d) as [id | | s1] eqn:Eid;
        cbn [RawDevice.is_truthy RawDevice.is_string
             RawDevice.length_below_10 negb orb andb app] in H;
        [| discriminate H | discriminate H].
      destruct (truthy id) eqn:Hid;
        cbn [negb orb andb app] in H; [| discriminate H].
      destruct (Nat.ltb (utf16_length id) 10) eqn:Hlen;
        cbn [app] in H; [discriminate H |].
      apply Nat.ltb_ge in Hlen.
      destruct (raw_platform d) as [p | | s2] eqn:Ep;
        cbn [RawDevice.is_truthy RawDevice.is_string negb orb andb app] in H;
        [| discriminate H | discriminate H].
      destruct (truthy p) eqn:Hp;
        cbn [negb orb andb app] in H; [| discriminate H].
      apply truthy_true_iff in Hp.
      split; [exists id; auto |]. split; [exists p; auto |].
      destruct (raw_fingerprint d) as [f | | s3] eqn:Ef;
        [right; exists f; reflexivity | left; reflexivity |].
      cbn in H. discriminate H.
    + intros ((id & Eid & Hlen) & (p & Ep & Hp) & Hf).
      rewrite Eid, Ep.
      cbn [RawDevice.is_truthy RawDevice.is_string
           RawDevice.length_below_10 negb orb andb].
      assert (Hid : truthy id = true).
      { apply truthy_true_iff. intros ->. simpl in Hlen. lia. }
      apply truthy_true_iff in Hp. rewrite Hid, Hp.
      apply Nat.ltb_ge in Hlen. rewrite Hlen.
      cbn [negb orb andb app].
      destruct Hf as [-> | (f & ->)]; cbn;
        [reflexivity | rewrite andb_false_r; reflexivity].
  - unfold RawDevice.validateDeviceInfo. cbn [isValid errors].
    match goal with
    | |- ?l = [] <-> _ => destruct l; cbn; split; congruence
    end.
  - intros [t |]; [| reflexivity].
    unfold RawDevice.validateDeviceInfo, VerifyDevice.validateDeviceInfo,
      RawDevice.of_DeviceInfo.
    cbn [option_map raw_deviceId raw_platform raw_fingerprint].
    destruct (deviceId t) as [id |], (platform t) as [p |],
      (fingerprint t) as [f |];
      cbn [RawDevice.of_field RawDevice.is_truthy RawDevice.is_string
           RawDevice.length_below_10 truthy_opt or_empty negb];
      rewrite ?orb_false_r, ?andb_false_r, ?app_nil_r; reflexivity.
Qed.

(** ** Accounts, login and registration (controllers/authController.js) *)

Section Accounts.
Context {L : Library}.

Lemma unique_ids_eq (store : list User) (x y : User) :
  unique_ids store -> In x store -> In y store -> _id x = _id y -> x = y.
Proof.
  unfold unique_ids. induction store as [| z store IH]; simpl; [tauto |].
  intros Hn Hx Hy E. inversion Hn as [| ? ? Hz Hn']; subst.
  destruct Hx as [-> | Hx], Hy as [-> | Hy]; auto.
  - exfalso. apply Hz. rewrite E. apply in_map. exact Hy.
  - exfalso. apply Hz. rewrite <- E. apply in_map. exact Hx.
Qed.

(** Writing a modified document back changes no projection that the
    modification keeps. *)
Lemma save_map_frame {A : Type} (p : User -> A) (u u' : User)
  (store : list User) :
  unique_ids store -> In u store -> _id u' = _id u -> p u' = p u ->
  map p (UserModel.save u' store) = map p store.
Proof.
  intros Hn Hu Hid Hp. unfold UserModel.save. rewrite map_map.
  apply map_ext_in. intros x Hx.
  destruct (String.eqb (_id x) (_id u')) eqn:E; [| reflexivity].
  apply String.eqb_eq in E. rewrite Hid in E.
  rewrite (unique_ids_eq store x u Hn Hx Hu E). exact Hp.
Qed.

Lemma findByCredentials_In_store (store : list User) (sc hk : string)
  (u : User) :
  AuthController.findByCredentials (UserModel.find_active store) sc hk = Some u ->
  In u store.
Proof.
  intros H. apply findByCredentials_Some in H as [Hin _].
  apply find_active_In in Hin. tauto.
Qed.

End Accounts.

(** The scan stops at the first account that verifies both factors: the
    account it returns is preceded by accounts that do not match, so of two
    accounts that share a credential pair only the earlier one is ever
    selected. *)
Theorem findByCredentials_first_match (L : Library) (users : list User)
  (sc hk : string) (u : User) :
  AuthController.findByCredentials users sc hk = Some u <->
  exists before after,
    users = before ++ u :: after
    /\ (forall x, In x before -> ~ AuthController.credentials_match x sc hk)
    /\ AuthController.credentials_match u sc hk.
Proof.
  unfold AuthController.credentials_match. split.
  - induction users as [| c rest IH]; simpl; [discriminate |].
    destruct (UserModel.verifySecurityCode c sc && UserModel.verifyHashKey c hk)
      eqn:E.
    + intros H. injection H as <-. exists [], rest.
      apply andb_true_iff in E. split; [reflexivity |]. split; [| exact E].
      intros x [].
    + intros H. destruct (IH H) as (before & after & -> & Hb & Hm).
      exists (c :: before), after. split; [reflexivity |]. split; [| exact Hm].
      intros x [<- | Hx]; [| auto].
      intros [H1 H2]. rewrite H1, H2 in E. discriminate.
  - intros (before & after & -> & Hb & Hm).
    induction before as [| c before IH]; simpl.
    + destruct Hm as [-> ->]. reflexivity.
    + destruct (UserModel.verifySecurityCode c sc && UserModel.verifyHashKey c hk)
        eqn:E.
      * exfalso. apply andb_true_iff in E. apply (Hb c); simpl; auto.
      * apply IH. intros x Hx. apply Hb. simpl. auto.
Qed.

Lemma map_eq_Forall2 {A B : Type} (f : A -> B) (l l' : list A) :
  map f l = map f l' -> Forall2 (fun a b => f b = f a) l l'.
Proof.
  revert l'. induction l as [| a l IH]; intros [| b l'] E;
    try discriminate E; constructor.
  - injection E as E _. symmetry. exact E.
  - injection E as _ E. apply IH. exact E.
Qed.

Lemma untimed_kept (a b : User) : untimed b = untimed a -> kept_by_login a b.
Proof.
  intros E. unfold untimed in E. injection E. intros.
  unfold kept_by_login. tauto.
Qed.

Lemma unstaged_kept (a b : User) :
  DeviceChange.unstaged b = DeviceChange.unstaged a -> kept_by_staging a b.
Proof.
  intros E. unfold DeviceChange.unstaged in E. injection E. intros.
  unfold kept_by_staging. tauto.
Qed.

(** A login that is not answered with success writes nothing, unless the
    JWT secret is missing and the answer is 500 (the token is signed after
    the save); and whatever its answer, a login leaves the accounts of the
    collection in place and, on each of them, the id, the user name, the two
    credential digests, the device binding, the two staging fields, the 2FA
    secret and flag, the wallets, the fee balance, the active and lock state
    with its reason, and the creation time as they were. *)
Theorem login_touches_only_timestamps (L : Library) (cfg : Config)
  (body : LoginRequest) (now : Z) (store : list User) :
  unique_ids store ->
  let r := AuthController.login cfg body now store in
  (success (fst r) = false ->
   snd r = store
   \/ (status (fst r) = 500 /\ truthy_opt (jwtSecret cfg) = false))
  /\ Forall2 kept_by_login store (snd r).
Proof.
  intros Hn r.
  assert (H : (success (fst r) = false ->
               snd r = store
               \/ (status (fst r) = 500
                   /\ truthy_opt (jwtSecret cfg) = false))
              /\ map untimed (snd r) = map untimed store).
  { subst r. unfold AuthController.login.
    destruct (lr_deviceInfo body) as [device |]; [| simpl; auto].
    destruct (negb (truthy_opt (lr_securityCode body))
              || negb (truthy_opt (lr_hashKey body))
              || negb (truthy_opt (lr_twoFactorCode body))); [simpl; auto |].
    destruct (negb (isValid (VerifyDevice.validateDeviceInfo (Some device))));
      [simpl; auto |].
    destruct (AuthController.findByCredentials _ _ _) as [user |] eqn:Hfind;
      [| simpl; auto].
    destruct (isLocked user); [simpl; auto |].
    destruct (negb (UserModel.verifyDevice user _)); [simpl; auto |].
    destruct (authenticator_verify _ _) as [[|] | m]; try (simpl; auto; fail).
    assert (Hframe :
      map untimed
        (UserModel.save (AuthController.with_login_times user now) store)
      = map untimed store).
    { apply (save_map_frame untimed user).
      - exact Hn.
      - eapply findByCredentials_In_store. exact Hfind.
      - reflexivity.
      - reflexivity. }
    unfold AuthMiddleware.generateToken_throws.
    destruct (truthy_opt (jwtSecret cfg)); cbn [negb fst snd success status
                                                  failure succeed].
    - split; [discriminate | exact Hframe].
    - split; [intros _; right; split; reflexivity | exact Hframe]. }
  destruct H as (H1 & H2). split; [exact H1 |].
  apply (Forall2_impl _ untimed_kept).
  apply map_eq_Forall2. symmetry. exact H2.
Qed.

Lemma reference_store_unique : unique_ids Reference.store.
Proof.
  unfold unique_ids. simpl. repeat constructor; simpl; intuition discriminate.
Qed.

Lemma login_touches_only_timestamps_witness :
  success (fst (AuthController.login (L := Reference.library) Reference.config
                  Reference.login_alice 1700000000%Z Reference.store)) = true
  /\ Forall2 kept_by_login Reference.store
       (snd (AuthController.login (L := Reference.library) Reference.config
               Reference.login_alice 1700000000%Z Reference.store)).
Proof.
  split; [reflexivity |].
  exact (proj2 (login_touches_only_timestamps Reference.library
                  Reference.config Reference.login_alice 1700000000%Z
                  Reference.store reference_store_unique)).
Defined.

(** ** Device change requests (controllers/authController.js) *)

Section Staging.
Context {L : Library}.

Lemma unstaged_fields (a b : User) :
  DeviceChange.unstaged a = DeviceChange.unstaged b ->
  _id a = _id b /\ username a = username b
  /\ securityCodeHash a = securityCodeHash b /\ hashKeyHash a = hashKeyHash b
  /\ deviceInfo a = deviceInfo b /\ twoFactorSecret a = twoFactorSecret b
  /\ twoFactorEnabled a = twoFactorEnabled b /\ wallets a = wallets b
  /\ platformFeeBalance a = platformFeeBalance b
  /\ isActive a = isActive b /\ isLocked a = isLocked b
  /\ lockReason a = lockReason b.
Proof.
  intros E. unfold DeviceChange.unstaged in E. injection E. intros. tauto.
Qed.

Lemma find_active_unstaged (s1 s2 : list User) :
  map DeviceChange.unstaged s1 = map DeviceChange.unstaged s2 ->
  map DeviceChange.unstaged (UserModel.find_active s1)
  = map DeviceChange.unstaged (UserModel.find_active s2).
Proof.
  revert s2. induction s1 as [| a s1 IH]; intros [| b s2]; cbn [map];
    try discriminate; [reflexivity |].
  intros E0.
  pose proof (f_equal (hd (DeviceChange.unstaged a)) E0) as Eab.
  pose proof (f_equal (@tl User) E0) as E. cbn [hd tl] in Eab, E.
  pose proof (unstaged_fields a b Eab) as F.
  unfold UserModel.find_active. cbn [filter].
  replace (isActive b) with (isActive a) by tauto.
  destruct (isActive a); cbn [map]; [rewrite Eab; f_equal |]; apply IH;
    exact E.
Qed.

Lemma findByCredentials_unstaged (l1 l2 : list User) (sc hk : string) :
  map DeviceChange.unstaged l1 = map DeviceChange.unstaged l2 ->
  option_map DeviceChange.unstaged (AuthController.findByCredentials l1 sc hk)
  = option_map DeviceChange.unstaged (AuthController.findByCredentials l2 sc hk).
Proof.
  revert l2. induction l1 as [| a l1 IH]; intros [| b l2]; cbn [map];
    try discriminate; [reflexivity |].
  intros E0.
  pose proof (f_equal (hd (DeviceChange.unstaged a)) E0) as Eab.
  pose proof (f_equal (@tl User) E0) as E. cbn [hd tl] in Eab, E.
  pose proof (unstaged_fields a b Eab) as F.
  cbn [AuthController.findByCredentials].
  unfold UserModel.verifySecurityCode, UserModel.verifyHashKey.
  replace (securityCodeHash b) with (securityCodeHash a) by tauto.
  replace (hashKeyHash b) with (hashKeyHash a) by tauto.
  destruct (bcrypt_compare sc (securityCodeHash a)
            && bcrypt_compare hk (hashKeyHash a)); cbn [option_map].
  - rewrite Eab. reflexivity.
  - apply IH. exact E.
Qed.

(** [login] reads neither [newDeviceFound] nor [pendingDeviceInfo]. *)
Lemma login_response_unstaged (cfg : Config) (body : LoginRequest) (now : Z)
  (s1 s2 : list User) :
  map DeviceChange.unstaged s1 = map DeviceChange.unstaged s2 ->
  fst (AuthController.login cfg body now s1)
  = fst (AuthController.login cfg body now s2).
Proof.
  intros E. unfold AuthController.login.
  destruct (lr_deviceInfo body) as [device |]; [| reflexivity].
  destruct (negb (truthy_opt (lr_securityCode body))
            || negb (truthy_opt (lr_hashKey body))
            || negb (truthy_opt (lr_twoFactorCode body))); [reflexivity |].
  destruct (negb (isValid (VerifyDevice.validateDeviceInfo (Some device))));
    [reflexivity |].
  pose proof (findByCredentials_unstaged _ _
                (or_empty (lr_securityCode body)) (or_empty (lr_hashKey body))
                (find_active_unstaged s1 s2 E)) as F.
  destruct (AuthController.findByCredentials (UserModel.find_active s1) _ _)
    as [a |];
    destruct (AuthController.findByCredentials (UserModel.find_active s2) _ _)
    as [b |]; cbn [option_map] in F; try discriminate; [| reflexivity].
  assert (F' : DeviceChange.unstaged a = DeviceChange.unstaged b)
    by congruence.
  apply unstaged_fields in F'.
  destruct F' as (F1 & F2 & F3 & F4 & F5 & F6 & F7 & F8 & F9 & F10 & F11 & F12).
  unfold UserModel.verifyDevice, AuthController.with_login_times,
    AuthController.walletAddresses.
  cbn [_id username wallets twoFactorEnabled lastLogin platformFeeBalance].
  rewrite F1, F2, F5, F6, F7, F8, F9, F11, F12.
  destruct (isLocked b); [reflexivity |].
  destruct (negb _); [reflexivity |].
  destruct (authenticator_verify _ _) as [[|] | m]; try reflexivity.
  destruct (AuthMiddleware.generateToken_throws cfg); reflexivity.
Qed.

End Staging.

(** A device change request leaves the accounts of the collection in place
    and, on each of them, the id, the user name, the two credential digests,
    the device binding, the 2FA secret and flag, the wallets, the fee
    balance, the active and lock state with its reason, the two login
    timestamps and the creation time as they were (it writes
    [newDeviceFound] and [pendingDeviceInfo]); since [login] reads neither
    of the two, no login is answered differently afterwards: the device
    stays refused until [deviceInfo] itself is replaced. *)
Theorem deviceChangeRequest_changes_no_login (L : Library)
  (body : LoginRequest) (store : list User) :
  unique_ids store ->
  let store' := snd (DeviceChange.deviceChangeRequest body store) in
  Forall2 kept_by_staging store store'
  /\ (forall cfg attempt now,
        fst (AuthController.login cfg attempt now store')
        = fst (AuthController.login cfg attempt now store)).
Proof.
  intros Hn store'.
  assert (E : map DeviceChange.unstaged store'
              = map DeviceChange.unstaged store).
  { subst store'. unfold DeviceChange.deviceChangeRequest.
    destruct (lr_deviceInfo body) as [device |]; [| reflexivity].
    destruct (negb (truthy_opt (lr_securityCode body))
              || negb (truthy_opt (lr_hashKey body))
              || negb (truthy_opt (lr_twoFactorCode body))); [reflexivity |].
    destruct (negb (isValid (VerifyDevice.validateDeviceInfo (Some device))));
      [reflexivity |].
    destruct (AuthController.findByCredentials _ _ _) as [user |] eqn:Hfind;
      [| reflexivity].
    destruct (authenticator_verify _ _) as [[|] | m]; try reflexivity.
    cbn [snd]. apply (save_map_frame DeviceChange.unstaged user).
    - exact Hn.
    - eapply findByCredentials_In_store. exact Hfind.
    - reflexivity.
    - reflexivity. }
  split.
  - apply (Forall2_impl _ unstaged_kept).
    apply map_eq_Forall2. symmetry. exact E.
  - intros cfg attempt now. apply login_response_unstaged. exact E.
Qed.

(** A device change request checks the credential pair and the one-time
    code, and neither the lock of the account nor the device: for an
    account that [login] refuses as locked, the same body stages the
    presented device. *)
Theorem deviceChangeRequest_ignores_lock (L : Library) (cfg : Config)
  (body : LoginRequest) (now : Z) (store : list User) (device : DeviceInfo)
  (user : User) :
  AuthController.wellformed_login body device ->
  AuthController.findByCredentials (UserModel.find_active store)
    (or_empty (lr_securityCode body)) (or_empty (lr_hashKey body))
  = Some user ->
  authenticator_verify (or_empty (lr_twoFactorCode body))
    (Some (twoFactorSecret user)) = Ok true ->
  let r := DeviceChange.deviceChangeRequest body store in
  status (fst r) = 200 /\ success (fst r) = true
  /\ snd r
     = UserModel.save
         (DeviceChange.with_pendingDevice user
            (VerifyDevice.normalizeDeviceInfo device)) store
  /\ (isLocked user = true ->
      AuthController.login cfg body now store
      = (with_reason (failure 423 "Account is locked") (lockReason user),
         store)).
Proof.
  intros Hwf Hfind Hv.
  pose proof (login_wellformed cfg body now store device Hwf) as Hl.
  destruct Hwf as (Hd & Hsc & Hhk & Hcode & Hvalid).
  unfold DeviceChange.deviceChangeRequest.
  rewrite Hd, Hsc, Hhk, Hcode, Hvalid, Hfind, Hv.
  cbn [negb orb fst snd status success succeed].
  repeat split.
  intros Hlock. rewrite Hl, Hfind, Hlock. reflexivity.
Qed.

Lemma deviceChangeRequest_ignores_lock_witness :
  status (fst (DeviceChange.deviceChangeRequest (L := Reference.library)
                 Reference.login_other_device [Samples.locked_alice])) = 200
  /\ status (fst (AuthController.login (L := Reference.library)
                    Reference.config Reference.login_other_device 0%Z
                    [Samples.locked_alice])) = 423.
Proof.
  pose proof (deviceChangeRequest_ignores_lock Reference.library
                Reference.config Reference.login_other_device 0%Z
                [Samples.locked_alice] Reference.device_other Samples.locked_alice) as H.
  cbv zeta in H.
  destruct H as (H1 & _ & _ & H4).
  - repeat split; reflexivity.
  - reflexivity.
  - reflexivity.
  - split; [exact H1 |]. rewrite H4 by reflexivity. reflexivity.
Defined.

Lemma deviceChangeRequest_changes_no_login_witness :
  success (fst (DeviceChange.deviceChangeRequest (L := Reference.library)
                  Reference.login_other_device Reference.store)) = true
  /\ fst (AuthController.login (L := Reference.library) Reference.config
            Reference.login_other_device 0%Z
            (snd (DeviceChange.deviceChangeRequest (L := Reference.library)
                    Reference.login_other_device Reference.store)))
     = fst (AuthController.login (L := Reference.library) Reference.config
              Reference.login_other_device 0%Z Reference.store).
Proof.
  split; [reflexivity |].
  apply (proj2 (deviceChangeRequest_changes_no_login Reference.library
                  Reference.login_other_device Reference.store
                  reference_store_unique)).
Defined.

(** ** Registration (controllers/authController.js) *)

Section RegisterLogin.
Context {L : Library}.

Lemma findByCredentials_app (l1 l2 : list User) (sc hk : string) :
  (forall x, In x l1 -> ~ AuthController.credentials_match x sc hk) ->
  AuthController.findByCredentials (l1 ++ l2) sc hk
  = AuthController.findByCredentials l2 sc hk.
Proof.
  unfold AuthController.credentials_match.
  induction l1 as [| c l1 IH]; intros H; [reflexivity |].
  cbn [app AuthController.findByCredentials].
  destruct (UserModel.verifySecurityCode c sc) eqn:E1;
    destruct (UserModel.verifyHashKey c hk) eqn:E2; cbn [andb];
    try (apply IH; intros x Hx; apply H; right; exact Hx).
  exfalso. apply (H c); [left; reflexivity | auto].
Qed.

Lemma verifyDevice_cast (u : User) (d : DeviceInfo) :
  deviceInfo u = UserModel.cast_device d -> UserModel.verifyDevice u d = true.
Proof.
  intros E. unfold UserModel.verifyDevice. rewrite E. simpl.
  rewrite !strict_eq_refl. reflexivity.
Qed.

End RegisterLogin.

(** An account that was just registered can log in: with the registered
    secret code and hash key (neither starting with the bcrypt marker), the
    registered device descriptor and a one-time code that is valid for the
    secret handed out, and no older active account verifying the same pair,
    [login] answers 200 for the new account. *)
Theorem register_then_login (L : Library) (HB : BcryptLaws L) (cfg : Config)
  (body : RegisterRequest) (rnd : RegisterEntropy) (store : list User)
  (registered : RegisterData) (sc hk code : string) (now : Z) :
  data (fst (AuthController.register cfg body rnd store)) = Some registered ->
  rr_securityCode body = Some sc -> rr_hashKey body = Some hk ->
  String.prefix "$2b$" sc = false -> String.prefix "$2b$" hk = false ->
  code <> "" ->
  authenticator_verify code (Some (rd_manualEntryKey registered)) = Ok true ->
  (forall x, In x store -> isActive x = true ->
             ~ AuthController.credentials_match x sc hk) ->
  let attempt :=
    {| lr_securityCode := Some sc; lr_hashKey := Some hk;
       lr_deviceInfo := rr_deviceInfo body; lr_twoFactorCode := Some code |} in
  let r :=
    AuthController.login cfg attempt now
      (snd (AuthController.register cfg body rnd store)) in
  status (fst r) = 200
  /\ option_map ld_id (data (fst r)) = Some (rd_id registered)
  /\ option_map ld_walletAddresses (data (fst r))
     = Some (rd_walletAddresses registered).
Proof.
  intros Hreg Hsc Hhk Psc Phk Hcode Hv Hnone attempt r. subst r.
  unfold AuthController.register in *.
  destruct (rr_deviceInfo body) as [device |] eqn:Hd; [| discriminate].
  destruct (negb (truthy_opt (rr_username body))
            || negb (truthy_opt (rr_securityCode body))
            || negb (truthy_opt (rr_hashKey body))) eqn:Hreq;
    [discriminate |].
  destruct (negb (isValid (VerifyDevice.validateDeviceInfo (Some device))))
    eqn:Hvalid; [discriminate |].
  destruct (UserModel.findOne_username store _); [discriminate |].
  destruct (GenerateWallets.generateAllWallets cfg None (rnd_wallets rnd))
    as [generated | m]; [| discriminate].
  cbv zeta in Hreg |- *.
  destruct (negb (UserModel.validates _)); [discriminate |].
  destruct (AuthMiddleware.generateToken_throws cfg) eqn:Hjwt;
    [discriminate |].
  cbn [fst snd data succeed] in Hreg |- *. injection Hreg as <-.
  cbn [rd_manualEntryKey rd_id rd_walletAddresses] in Hv |- *.
  set (user := {| _id := new_id rnd |}) in *.
  assert (Hwf : AuthController.wellformed_login attempt device).
  { rewrite Hsc, Hhk in Hreq. apply orb_false_iff in Hreq as [Hreq Hk].
    apply orb_false_iff in Hreq as [_ Hs].
    apply negb_false_iff in Hs, Hk, Hvalid.
    repeat split; try assumption. cbn. apply truthy_true_iff. exact Hcode. }
  rewrite (login_wellformed cfg attempt now _ device Hwf).
  cbn [lr_securityCode lr_hashKey lr_twoFactorCode attempt or_empty].
  unfold UserModel.find_active. rewrite filter_app.
  rewrite findByCredentials_app.
  2:{ intros x Hx. apply filter_In in Hx as [Hx Ha]. apply Hnone; assumption. }
  cbn [filter isActive user].
  cbn [AuthController.findByCredentials].
  assert (Hm1 : UserModel.verifySecurityCode user sc = true).
  { unfold UserModel.verifySecurityCode, user. cbn [securityCodeHash].
    rewrite Hsc. cbn [or_empty]. unfold UserModel.presave_hash.
    rewrite Psc. apply bcrypt_compare_hash. }
  assert (Hm2 : UserModel.verifyHashKey user hk = true).
  { unfold UserModel.verifyHashKey, user. cbn [hashKeyHash].
    rewrite Hhk. cbn [or_empty]. unfold UserModel.presave_hash.
    rewrite Phk. apply bcrypt_compare_hash. }
  rewrite Hm1, Hm2. cbn [andb].
  replace (isLocked user) with false by reflexivity.
  rewrite (verifyDevice_cast user (VerifyDevice.normalizeDeviceInfo device))
    by reflexivity.
  cbn [negb]. replace (twoFactorSecret user)
    with (authenticator_generateSecret (rnd_totp rnd)) by reflexivity.
  rewrite Hv, Hjwt.
  cbn [fst status data succeed option_map ld_id ld_walletAddresses].
  repeat split.
Qed.

Lemma reference_bcrypt_laws : BcryptLaws Reference.library.
Proof. constructor. intros plain salt. simpl. apply String.eqb_refl. Qed.

Lemma register_then_login_witness :
  status (fst (AuthController.login (L := Reference.library) Reference.config
                 {| lr_securityCode := Some "carol-code";
                    lr_hashKey := Some "carol-key";
                    lr_deviceInfo := rr_deviceInfo Reference.registration;
                    lr_twoFactorCode := Some "KAB" |} 2%Z
                 (snd (AuthController.register (L := Reference.library)
                         Reference.config Reference.registration
                         Reference.register_entropy Reference.store)))) = 200.
Proof.
  eapply proj1.
  eapply (register_then_login Reference.library reference_bcrypt_laws
            Reference.config Reference.registration
            Reference.register_entropy Reference.store _
            "carol-code" "carol-key" "KAB" 2%Z).
  - vm_compute. reflexivity.
  - reflexivity.
  - reflexivity.
  - reflexivity.
  - reflexivity.
  - discriminate.
  - reflexivity.
  - intros x [<- | [<- | []]] _ [H _]; vm_compute in H; discriminate.
Defined.

(** A registration answered 400 or 409 writes nothing; a registration that
    is accepted appends exactly one account, whose user name (the trimmed
    name of the request) no stored account has: the account is active, not
    locked, with 2FA enabled, no fee credit, no pending device, and the
    normalized descriptor cut to the five stored fields as its device. *)
Theorem register_appends_one_account (L : Library) (cfg : Config)
  (body : RegisterRequest) (rnd : RegisterEntropy) (store : list User) :
  let r := AuthController.register cfg body rnd store in
  (status (fst r) = 400 \/ status (fst r) = 409 -> snd r = store)
  /\ (success (fst r) = true ->
      exists user device,
        snd r = store ++ [user]
        /\ status (fst r) = 201
        /\ rr_deviceInfo body = Some device
        /\ (forall x, In x store -> username x <> username user)
        /\ _id user = new_id rnd
        /\ username user = trim (or_empty (rr_username body))
        /\ deviceInfo user
           = UserModel.cast_device (VerifyDevice.normalizeDeviceInfo device)
        /\ isActive user = true /\ isLocked user = false
        /\ twoFactorEnabled user = true
        /\ Qeq (platformFeeBalance user) 0
        /\ newDeviceFound user = false /\ pendingDeviceInfo user = None
        /\ option_map rd_manualEntryKey (data (fst r))
           = Some (twoFactorSecret user)).
Proof.
  unfold AuthController.register.
  destruct (rr_deviceInfo body) as [device |];
    [| cbn; split; [reflexivity | discriminate]].
  destruct (negb (truthy_opt (rr_username body))
            || negb (truthy_opt (rr_securityCode body))
            || negb (truthy_opt (rr_hashKey body)));
    [cbn; split; [reflexivity | discriminate] |].
  destruct (negb (isValid (VerifyDevice.validateDeviceInfo (Some device))));
    [cbn; split; [reflexivity | discriminate] |].
  destruct (UserModel.findOne_username store _) eqn:Hfind;
    [cbn; split; [reflexivity | discriminate] |].
  destruct (GenerateWallets.generateAllWallets cfg None (rnd_wallets rnd))
    as [generated | m]; [| cbn; split; [reflexivity | discriminate]].
  cbv zeta.
  destruct (negb (UserModel.validates _));
    [cbn; split; [reflexivity | discriminate] |].
  destruct (AuthMiddleware.generateToken_throws cfg).
  { cbn [fst snd success status failure].
    split; [intros [C | C]; discriminate C | discriminate]. }
  cbn [fst snd success status succeed data option_map rd_manualEntryKey].
  split; [intros [C | C]; discriminate C |]. intros _.
  eexists _, device. split; [reflexivity |].
  cbn [_id username deviceInfo isActive isLocked twoFactorEnabled
       platformFeeBalance newDeviceFound pendingDeviceInfo twoFactorSecret].
  split; [reflexivity |]. split; [reflexivity |].
  split.
  { intros x Hx E.
    apply (find_none _ _ Hfind) in Hx. cbv beta in Hx.
    rewrite E, String.eqb_refl in Hx. discriminate Hx. }
  repeat split; reflexivity.
Qed.

(** ** The middlewares and the send route (middlewares/authMiddleware.js) *)

Lemma prefix_substring (p s : string) :
  String.prefix p s = true ->
  s = (p ++ String.substring (String.length p)
              (String.length s - String.length p) s)%string.
Proof.
  revert s. induction p as [| c p IH]; intros s H.
  - simpl. rewrite Nat.sub_0_r.
    clear H. induction s as [| d s IHs]; [reflexivity |].
    simpl. rewrite <- IHs. reflexivity.
  - destruct s as [| d s]; [discriminate |]. simpl in H.
    destruct (Ascii.ascii_dec c d) as [-> |]; [| discriminate].
    simpl. f_equal. apply IH. exact H.
Qed.

(** [authMiddleware] passes a request on exactly when the header is
    "Bearer " followed by a non-empty token that verifies to the id of a
    stored account that is active and not locked; the document it passes
    on is that account without its three credential paths. *)
Theorem authMiddleware_admits (L : Library) (D : Type) (cfg : Config)
  (authHeader : option string) (store : list User) (user : Document) :
  AuthMiddleware.authMiddleware (D := D) cfg authHeader store = inr user <->
  exists token userId,
    authHeader = Some ("Bearer " ++ token)%string /\ token <> ""
    /\ jwt_verify token (jwtSecret cfg) = JwtDecoded userId
    /\ UserModel.findById store userId = Some (fields user)
    /\ isActive (fields user) = true /\ isLocked (fields user) = false
    /\ selection user = WithoutCredentials.
Proof.
  unfold AuthMiddleware.authMiddleware. split.
  - destruct authHeader as [header |]; [| discriminate].
    cbn [truthy_opt or_empty].
    destruct (negb (truthy header)); [discriminate |].
    destruct (String.prefix "Bearer " header) eqn:Hp; [| discriminate].
    cbn [negb].
    pose proof (prefix_substring _ _ Hp) as Hh.
    change (String.length "Bearer ") with 7 in Hh.
    set (token := String.substring 7 (String.length header - 7) header) in *.
    destruct (truthy token) eqn:Ht; [| discriminate]. cbn [negb].
    destruct (jwt_verify token (jwtSecret cfg)) as [userId | | |] eqn:Hj;
      try discriminate.
    destruct (UserModel.findById store userId) as [u |] eqn:Hf;
      [| discriminate].
    cbn [fields]. destruct (isActive u) eqn:Ha; [| discriminate].
    destruct (isLocked u) eqn:Hl; [discriminate |]. cbn [negb].
    intros E. injection E as <-. exists token, userId. cbn [fields selection].
    repeat split; try assumption.
    + rewrite Hh at 1. reflexivity.
    + apply truthy_true_iff. exact Ht.
  - intros (token & userId & -> & Ht & Hj & Hf & Ha & Hl & Hs).
    apply truthy_true_iff in Ht.
    assert (Hne : truthy_opt (Some ("Bearer " ++ token)%string) = true)
      by reflexivity.
    rewrite Hne. cbn [negb or_empty].
    assert (Hp : String.prefix "Bearer " ("Bearer " ++ token) = true).
    { simpl. repeat (destruct (Ascii.ascii_dec _ _); [| congruence]).
      destruct token; reflexivity. }
    rewrite Hp. cbn [negb].
    assert (Hsub : String.substring 7
                     (String.length ("Bearer " ++ token)%string - 7)
                     ("Bearer " ++ token) = token).
    { simpl. rewrite Nat.sub_0_r.
      clear. induction token as [| c t IH]; [reflexivity |].
      simpl. rewrite IH. reflexivity. }
    rewrite Hsub, Ht, Hj, Hf. cbn [negb fields]. rewrite Ha, Hl. cbn [negb].
    destruct user as [sel u]. cbn [selection fields] in *. subst sel.
    reflexivity.
Qed.

Lemma authMiddleware_selection {L : Library} {D : Type} (cfg : Config)
  (authHeader : option string) (store : list User) (user : Document) :
  AuthMiddleware.authMiddleware (D := D) cfg authHeader store = inr user ->
  UserModel.doc_twoFactorSecret user = None.
Proof.
  unfold AuthMiddleware.authMiddleware.
  destruct (negb (truthy_opt authHeader)); [discriminate |].
  destruct (negb (String.prefix _ _)); [discriminate |].
  destruct (negb (truthy _)); [discriminate |].
  destruct (jwt_verify _ _); try discriminate.
  destruct (UserModel.findById store userId) as [u |]; [| discriminate].
  cbn [fields]. destruct (negb (isActive u)); [discriminate |].
  destruct (isLocked u); [discriminate |].
  intros E. injection E as <-. reflexivity.
Qed.

Lemma authMiddleware_refusal {L : Library} {D : Type} (cfg : Config)
  (authHeader : option string) (store : list User) (response : Response D) :
  AuthMiddleware.authMiddleware cfg authHeader store = inl response ->
  success response = false.
Proof.
  unfold AuthMiddleware.authMiddleware.
  destruct (negb (truthy_opt authHeader));
    [intros E; injection E as <-; reflexivity |].
  destruct (negb (String.prefix _ _));
    [intros E; injection E as <-; reflexivity |].
  destruct (negb (truthy _)); [intros E; injection E as <-; reflexivity |].
  destruct (jwt_verify _ _); try (intros E; injection E as <-; reflexivity).
  destruct (UserModel.findById store userId) as [u |];
    [| intros E; injection E as <-; reflexivity].
  cbn [fields]. destruct (negb (isActive u));
    [intros E; injection E as <-; reflexivity |].
  destruct (isLocked u); [intros E; injection E as <-; reflexivity |].
  discriminate.
Qed.

(** The high-security chain never calls the handler behind it: the 2FA
    middleware verifies the code against the secret of the document that
    [authMiddleware] loaded without it.  So no request to the send route
    reaches [sendCrypto]: every answer is a refusal, nothing is written and
    no chain adapter is entered. *)
Theorem post_send_never_passes (L : Library) (HO : OtplibLaws L)
  (cfg : Config) (chains : Chains) (authHeader : option string)
  (deviceInfo : option DeviceInfo) (twoFactorCode : option string)
  (body : SendRequest) (now : Z) (store : list User) :
  (exists response : Response SendData,
     HighSecurity.highSecurityMiddleware cfg authHeader deviceInfo
       twoFactorCode now store = (inl response, store)
     /\ success response = false)
  /\ let r :=
       HighSecurity.post_send cfg chains authHeader deviceInfo twoFactorCode
         body now store in
     success (fst (fst r)) = false /\ snd (fst r) = store /\ snd r = [].
Proof.
  assert (H : exists response : Response SendData,
     HighSecurity.highSecurityMiddleware cfg authHeader deviceInfo
       twoFactorCode now store = (inl response, store)
     /\ success response = false).
  { unfold HighSecurity.highSecurityMiddleware.
    destruct (AuthMiddleware.authMiddleware cfg authHeader store)
      as [response | user] eqn:Hmw.
    - exists response. split; [reflexivity |].
      eapply authMiddleware_refusal. exact Hmw.
    - apply authMiddleware_selection in Hmw.
      unfold HighSecurity.deviceMiddleware.
      destruct deviceInfo as [d |]; [| eexists; split; reflexivity].
      destruct (negb (UserModel.verifyDevice (fields user) d));
        [eexists; split; reflexivity |].
      unfold HighSecurity.twoFactorMiddleware. rewrite Hmw.
      destruct (negb (truthy_opt twoFactorCode));
        [eexists; split; reflexivity |].
      destruct (negb (twoFactorEnabled (fields user)));
        [eexists; split; reflexivity |].
      pose proof (authenticator_verify_undefined (or_empty twoFactorCode))
        as Hu.
      destruct (authenticator_verify (or_empty twoFactorCode) None)
        as [[|] | m]; try (eexists; split; reflexivity).
      contradiction Hu. reflexivity. }
  split; [exact H |].
  destruct H as (response & E & Hs).
  unfold HighSecurity.post_send. rewrite E. simpl. auto.
Qed.

Lemma post_send_never_passes_witness :
  authenticator_verify (Library := Reference.library) "Kalice"
    (Some (twoFactorSecret Reference.alice)) = Ok true
  /\ success (fst (fst (HighSecurity.post_send (L := Reference.library)
                          Reference.config Reference.chains
                          (Some "Bearer jwt:u1") (Some Reference.device_alice)
                          (Some "Kalice") Reference.send_request 0%Z
                          Reference.store))) = false.
Proof.
  split; [reflexivity |].
  exact (proj1 (proj2 (post_send_never_passes Reference.library
                         reference_otplib_laws Reference.config
                         Reference.chains (Some "Bearer jwt:u1")
                         (Some Reference.device_alice) (Some "Kalice")
                         Reference.send_request 0%Z Reference.store))).
Defined.

(** [deviceMiddleware] compares the descriptor as it was sent, [login]
    compares it normalized: for an account bound at registration to a
    descriptor without a fingerprint (the server derived one), [login]
    accepts that descriptor and [deviceMiddleware] refuses it. *)
Theorem deviceMiddleware_compares_raw (L : Library) (D : Type)
  (user : Document) (d : DeviceInfo) :
  deviceInfo (fields user)
  = UserModel.cast_device (VerifyDevice.normalizeDeviceInfo d) ->
  fingerprint d = None ->
  UserModel.verifyDevice (fields user) (VerifyDevice.normalizeDeviceInfo d)
  = true
  /\ option_map status (HighSecurity.deviceMiddleware (D := D) user (Some d))
     = Some 403
  /\ option_map res_code (HighSecurity.deviceMiddleware (D := D) user (Some d))
     = Some (Some "DEVICE_MISMATCH").
Proof.
  intros Hbind Hfp. split; [apply verifyDevice_cast; exact Hbind |].
  unfold HighSecurity.deviceMiddleware, UserModel.verifyDevice.
  rewrite Hbind, Hfp.
  unfold VerifyDevice.normalizeDeviceInfo. rewrite Hfp.
  cbn. rewrite andb_false_r. split; reflexivity.
Qed.

Lemma deviceMiddleware_compares_raw_witness :
  fingerprint Samples.device_bare = None
  /\ UserModel.verifyDevice Samples.dave
       (VerifyDevice.normalizeDeviceInfo (L := Reference.library)
          Samples.device_bare) = true
  /\ option_map status
       (HighSecurity.deviceMiddleware (D := SendData)
          {| selection := WithoutCredentials; fields := Samples.dave |}
          (Some Samples.device_bare)) = Some 403.
Proof.
  split; [reflexivity |].
  destruct (deviceMiddleware_compares_raw Reference.library SendData
              {| selection := WithoutCredentials; fields := Samples.dave |}
              Samples.device_bare eq_refl eq_refl) as (H1 & H2 & _).
  split; [exact H1 | exact H2].
Defined.

(** ** The token of a login (controllers/authController.js) *)

Section TokenRoundTrip.
Context {L : Library}.

Lemma substring_after_prefix (p s : string) :
  String.substring (String.length p)
    (String.length (p ++ s) - String.length p) (p ++ s) = s.
Proof.
  induction p as [| c p IH]; simpl.
  - rewrite Nat.sub_0_r. induction s as [| d s IHs]; [reflexivity |].
    simpl. rewrite IHs. reflexivity.
  - exact IH.
Qed.

Lemma prefix_append (p s : string) : String.prefix p (p ++ s) = true.
Proof.
  induction p as [| c p IH]; simpl; [destruct s; reflexivity |].
  destruct (Ascii.ascii_dec c c); [exact IH | congruence].
Qed.

(** [authMiddleware] on a bearer header is the verification of its token. *)
Lemma authMiddleware_bearer {D : Type} (cfg : Config) (token : string)
  (store : list User) :
  token <> "" ->
  AuthMiddleware.authMiddleware (D := D) cfg (Some ("Bearer " ++ token)%string)
    store
  = match jwt_verify token (jwtSecret cfg) with
    | JwtDecoded userId =>
        match UserModel.findById store userId with
        | None => inl (failure 401 "Invalid token - user not found")
        | Some u =>
            if negb (isActive u)
            then inl (failure 401 "Account is deactivated")
            else if isLocked u
            then inl (with_reason (failure 423 "Account is locked")
                        (lockReason u))
            else inr {| selection := WithoutCredentials; fields := u |}
        end
    | JsonWebTokenError => inl (failure 401 "Invalid token")
    | TokenExpiredError => inl (failure 401 "Token expired")
    | JwtOtherError => inl (failure 500 "Authentication error")
    end.
Proof.
  intros Ht. apply truthy_true_iff in Ht.
  unfold AuthMiddleware.authMiddleware.
  assert (Hne : truthy_opt (Some ("Bearer " ++ token)%string) = true)
    by reflexivity.
  rewrite Hne. cbn [negb or_empty].
  rewrite (prefix_append "Bearer " token). cbn [negb].
  pose proof (substring_after_prefix "Bearer " token) as Hsub.
  change (String.length "Bearer ") with 7 in Hsub.
  rewrite Hsub, Ht. cbn [negb]. reflexivity.
Qed.

Lemma findById_save (store : list User) (u u' : User) :
  In u store -> _id u' = _id u ->
  UserModel.findById (UserModel.save u' store) (_id u) = Some u'.
Proof.
  intros Hin Hid. unfold UserModel.findById, UserModel.save. rewrite Hid.
  revert Hin. induction store as [| x store IH]; intros Hin;
    [contradiction |].
  cbn [map find].
  destruct (String.eqb (_id x) (_id u)) eqn:E.
  - rewrite Hid, String.eqb_refl. reflexivity.
  - rewrite E. destruct Hin as [-> | Hin].
    + rewrite String.eqb_refl in E. discriminate.
    + apply IH. exact Hin.
Qed.

End TokenRoundTrip.

(** The token of a successful login is accepted for the account that
    logged in: sent back as a bearer header against the store the login
    left, the verify route answers 200 with the id, user name, wallet
    addresses and fee balance of the login answer, and the time of that
    login as [lastLogin]. *)
Theorem login_token_verifies (L : Library) (HJ : JwtLaws L) (cfg : Config)
  (secret : string) (body : LoginRequest) (now : Z) (store : list User)
  (session : LoginData) :
  jwtSecret cfg = Some secret ->
  data (fst (AuthController.login cfg body now store)) = Some session ->
  exists verified,
    TokenRoute.get_verify cfg (Some ("Bearer " ++ ld_token session)%string)
      (snd (AuthController.login cfg body now store))
    = succeed 200 "" verified
    /\ vd_id verified = ld_id session
    /\ vd_username verified = ld_username session
    /\ vd_walletAddresses verified = ld_walletAddresses session
    /\ vd_platformFeeBalance verified = ld_platformFeeBalance session
    /\ vd_lastLogin verified = Some now
    /\ vd_isActive verified = true.
Proof.
  intros Hsecret. unfold AuthController.login.
  destruct (lr_deviceInfo body) as [device |]; [| discriminate].
  destruct (negb (truthy_opt (lr_securityCode body))
            || negb (truthy_opt (lr_hashKey body))
            || negb (truthy_opt (lr_twoFactorCode body))); [discriminate |].
  destruct (negb (isValid (VerifyDevice.validateDeviceInfo (Some device))));
    [discriminate |].
  destruct (AuthController.findByCredentials _ _ _) as [user |] eqn:Hfind;
    [| discriminate].
  destruct (isLocked user) eqn:Hlock; [discriminate |].
  destruct (negb (UserModel.verifyDevice user _)); [discriminate |].
  destruct (authenticator_verify _ _) as [[|] | m]; try discriminate.
  destruct (AuthMiddleware.generateToken_throws cfg); [discriminate |].
  cbn [fst snd data succeed]. intros E. injection E as <-.
  cbn [ld_token ld_id ld_username ld_walletAddresses ld_platformFeeBalance].
  apply findByCredentials_Some in Hfind as [Hin _].
  apply find_active_In in Hin as [Hin Hact].
  unfold TokenRoute.get_verify, AuthMiddleware.generateToken.
  rewrite Hsecret.
  rewrite authMiddleware_bearer by apply jwt_sign_nonempty.
  rewrite Hsecret, jwt_verify_sign.
  change (_id (AuthController.with_login_times user now)) with (_id user).
  rewrite (findById_save store user) by (auto; reflexivity).
  cbn [isActive isLocked AuthController.with_login_times].
  rewrite Hact, Hlock. cbn [negb].
  eexists. split; [reflexivity |].
  cbn [vd_id vd_username vd_walletAddresses vd_platformFeeBalance
       vd_lastLogin vd_isActive fields lastLogin isActive _id username
       platformFeeBalance].
  repeat split. exact Hact.
Qed.

Lemma reference_jwt_laws : JwtLaws Reference.library.
Proof.
  constructor.
  - intros userId secret. cbn [jwt_verify jwt_sign Reference.library].
    rewrite (prefix_append "jwt:" userId).
    pose proof (substring_after_prefix "jwt:" userId) as H.
    change (String.length "jwt:") with 4 in H. rewrite H. reflexivity.
  - intros userId secret. discriminate.
Qed.

Lemma login_token_verifies_witness :
  exists verified,
    TokenRoute.get_verify (L := Reference.library) Reference.config
      (Some "Bearer jwt:u1")
      (snd (AuthController.login (L := Reference.library) Reference.config
              Reference.login_alice 1700000000%Z Reference.store))
    = succeed 200 "" verified
    /\ vd_id verified = "u1" /\ vd_lastLogin verified = Some 1700000000%Z.
Proof.
  destruct (login_token_verifies Reference.library reference_jwt_laws
              Reference.config "jwt-secret" Reference.login_alice
              1700000000%Z Reference.store
              {| ld_id := "u1"; ld_username := "alice";
                 ld_walletAddresses :=
                   AuthController.walletAddresses Reference.alice;
                 ld_twoFactorEnabled := true;
                 ld_lastLogin := Some 1700000000%Z;
                 ld_platformFeeBalance := (1 # 1024)%Q;
                 ld_token := "jwt:u1" |} eq_refl eq_refl)
    as (verified & Hv & Hid & _ & _ & _ & Hlast & _).
  exists verified. split; [exact Hv |]. split; [exact Hid | exact Hlast].
Defined.

(** ** Wallet generation (utils/generateWallets.js) *)

Ltac bind_ok H x Hx :=
  apply bind_Ok in H; destruct H as (x & Hx & H).

(** With a master seed given, the Bitcoin and Tron wallets are functions of
    the seed: two runs under different random bytes give the same Bitcoin
    and Tron addresses and keys.  The Ethereum wallet is not derived from
    the seed: two runs under the same random bytes give the same Ethereum
    wallet, whatever their seeds. *)
Theorem generateAllWallets_seed_derivation (L : Library) (cfg : Config)
  (seed seed' : string) (rnd1 rnd2 : WalletEntropy) (w1 w2 w3 : AllWallets) :
  seed <> "" -> seed' <> "" ->
  GenerateWallets.generateAllWallets cfg (Some seed) rnd1 = Ok w1 ->
  GenerateWallets.generateAllWallets cfg (Some seed) rnd2 = Ok w2 ->
  GenerateWallets.generateAllWallets cfg (Some seed') rnd1 = Ok w3 ->
  aw_masterSeed w1 = seed
  /\ (gb_address (gw_bitcoin (aw_wallets w1))
      = gb_address (gw_bitcoin (aw_wallets w2))
      /\ gb_legacyAddress (gw_bitcoin (aw_wallets w1))
         = gb_legacyAddress (gw_bitcoin (aw_wallets w2))
      /\ gb_publicKey (gw_bitcoin (aw_wallets w1))
         = gb_publicKey (gw_bitcoin (aw_wallets w2))
      /\ gb_wif (gw_bitcoin (aw_wallets w1))
         = gb_wif (gw_bitcoin (aw_wallets w2)))
  /\ (gt_address (gw_tron (aw_wallets w1))
      = gt_address (gw_tron (aw_wallets w2))
      /\ gt_address (gw_tron (aw_wallets w1))
         = tron_fromPrivateKey (sha256_hex (seed ++ "_tron")))
  /\ (ge_address (gw_ethereum (aw_wallets w1))
      = ge_address (gw_ethereum (aw_wallets w3))
      /\ ge_publicKey (gw_ethereum (aw_wallets w1))
         = ge_publicKey (gw_ethereum (aw_wallets w3))).
Proof.
  intros Hs Hs' H1 H2 H3.
  apply truthy_true_iff in Hs, Hs'.
  unfold GenerateWallets.generateAllWallets in H1, H2, H3.
  cbn [truthy_opt or_empty] in H1, H2, H3. rewrite Hs in H1, H2.
  rewrite Hs' in H3.
  apply rethrow_Ok in H1, H2, H3.
  cbv beta iota zeta in H1, H2, H3.
  bind_ok H1 e1 He1. bind_ok H1 b1 Hb1. bind_ok H1 t1 Ht1.
  bind_ok H1 k1 Hk1. bind_ok H1 k2 Hk2. bind_ok H1 k3 Hk3.
  bind_ok H1 k4 Hk4. bind_ok H1 k5 Hk5. bind_ok H1 k6 Hk6.
  bind_ok H2 e2 He2. bind_ok H2 b2 Hb2. bind_ok H2 t2 Ht2.
  bind_ok H2 j1 Hj1. bind_ok H2 j2 Hj2. bind_ok H2 j3 Hj3.
  bind_ok H2 j4 Hj4. bind_ok H2 j5 Hj5. bind_ok H2 j6 Hj6.
  bind_ok H3 e3 He3. bind_ok H3 b3 Hb3. bind_ok H3 t3 Ht3.
  bind_ok H3 i1 Hi1. bind_ok H3 i2 Hi2. bind_ok H3 i3 Hi3.
  bind_ok H3 i4 Hi4. bind_ok H3 i5 Hi5. bind_ok H3 i6 Hi6.
  injection H1 as <-. injection H2 as <-. injection H3 as <-.
  cbn [aw_masterSeed aw_wallets gw_bitcoin gw_tron gw_ethereum gb_address
       gb_legacyAddress gb_publicKey gb_wif gt_address ge_address
       ge_publicKey].
  rewrite Hb1 in Hb2. injection Hb2 as <-.
  rewrite Ht1 in Ht2. injection Ht2 as <-.
  rewrite He1 in He3. injection He3 as <-.
  repeat split.
  unfold GenerateWallets.generateTronWallet in Ht1.
  cbn [truthy_opt or_empty rethrow] in Ht1.
  assert (Ht : truthy (seed ++ "_tron") = true).
  { destruct seed; [discriminate | reflexivity]. }
  rewrite Ht in Ht1. injection Ht1 as <-. reflexivity.
Qed.

Lemma generateAllWallets_seed_derivation_witness :
  exists w1 w2,
    GenerateWallets.generateAllWallets (L := Reference.library)
      Reference.config (Some "seed")
      (Samples.wallet_entropy x01 x02 Reference.entropy0) = Ok w1
    /\ GenerateWallets.generateAllWallets (L := Reference.library)
         Reference.config (Some "seed")
         (Samples.wallet_entropy x03 x04 Reference.entropy1) = Ok w2
    /\ gb_address (gw_bitcoin (aw_wallets w1))
       = gb_address (gw_bitcoin (aw_wallets w2))
    /\ gt_address (gw_tron (aw_wallets w1))
       = gt_address (gw_tron (aw_wallets w2)).
Proof.
  destruct (GenerateWallets.generateAllWallets (L := Reference.library)
              Reference.config (Some "seed")
              (Samples.wallet_entropy x01 x02 Reference.entropy0))
    as [w1 |] eqn:E1; [| vm_compute in E1; discriminate].
  destruct (GenerateWallets.generateAllWallets (L := Reference.library)
              Reference.config (Some "seed")
              (Samples.wallet_entropy x03 x04 Reference.entropy1))
    as [w2 |] eqn:E2; [| vm_compute in E2; discriminate].
  destruct (GenerateWallets.generateAllWallets (L := Reference.library)
              Reference.config (Some "other")
              (Samples.wallet_entropy x01 x02 Reference.entropy0))
    as [w3 |] eqn:E3; [| vm_compute in E3; discriminate].
  exists w1, w2. split; [reflexivity |]. split; [reflexivity |].
  destruct (generateAllWallets_seed_derivation Reference.library
              Reference.config "seed" "other" _ _ w1 w2 w3
              ltac:(discriminate) ltac:(discriminate) E1 E2 E3)
    as (_ & (Hb & _) & (Ht & _) & _).
  split; [exact Hb | exact Ht].
Defined.

(** ** Sending (utils/sendTx.js) *)

(** [validateTransactionParams] checks the form of the recipient under the
    five canonical chain names only.  Under the aliases that
    [sendTransaction] dispatches as well (eth, bnb, matic, btc, trx) every
    non-empty recipient is accepted, and the send enters the chain adapter
    once the key decrypts. *)
Theorem validateTransactionParams_alias_unchecked (L : Library) (cfg : Config)
  (chains : Chains) (params : TxParams) (privateKey : string) :
  In (toLowerCase (tp_chain params)) ["eth"; "bnb"; "matic"; "btc"; "trx"] ->
  tp_chain params <> "" -> tp_to params <> "" ->
  Qle_bool (tp_amount params) 0 = false ->
  truthy_opt (tp_privateKey params) = true ->
  Encrypt.decrypt (encryptionKey cfg)
    (or_empty (tp_encryptedPrivateKey params)) = Ok privateKey ->
  SendTx.validateTransactionParams params = {| isValid := true; errors := [] |}
  /\ exists call, snd (SendTx.sendTransaction cfg chains params) = [call].
Proof.
  intros Hc Hchain Hto Ham Hpk Hdec.
  apply truthy_true_iff in Hchain, Hto.
  assert (Hv : SendTx.validateTransactionParams params
               = {| isValid := true; errors := [] |}).
  { unfold SendTx.validateTransactionParams.
    rewrite Hchain, Hto, Ham, Hpk. cbn [negb app].
    simpl in Hc.
    destruct Hc as [<- | [<- | [<- | [<- | [<- | []]]]]]; reflexivity. }
  split; [exact Hv |].
  unfold SendTx.sendTransaction. rewrite Hv. cbn [isValid negb].
  rewrite Hdec. simpl in Hc.
  destruct Hc as [<- | [<- | [<- | [<- | [<- | []]]]]]; cbn;
    eexists; reflexivity.
Qed.

Lemma validateTransactionParams_alias_unchecked_witness :
  @ethers_isAddress Reference.library (tp_to Samples.alias_send) = true
  /\ SendTx.validateTransactionParams (L := Reference.library)
       Samples.alias_send
     = {| isValid := true; errors := [] |}
  /\ exists call,
       snd (SendTx.sendTransaction (L := Reference.library) Reference.config
              Reference.chains Samples.alias_send) = [call].
Proof.
  split; [reflexivity |].
  apply (validateTransactionParams_alias_unchecked Reference.library
           Reference.config Reference.chains Samples.alias_send "0xK").
  - left. reflexivity.
  - discriminate.
  - discriminate.
  - reflexivity.
  - reflexivity.
  - vm_compute. reflexivity.
Defined.

(** [sendTransaction] enters at most one chain adapter, and none unless the
    parameters are valid and the stored key has been decrypted; a key that
    does not decrypt fails the send with the cipher's message. *)
Theorem sendTransaction_fails_closed (L : Library) (cfg : Config)
  (chains : Chains) (params : TxParams) :
  let r := SendTx.sendTransaction cfg chains params in
  (snd r = [] \/ exists call, snd r = [call])
  /\ (snd r <> [] ->
      isValid (SendTx.validateTransactionParams params) = true
      /\ exists privateKey,
           Encrypt.decrypt (encryptionKey cfg)
             (or_empty (tp_encryptedPrivateKey params)) = Ok privateKey)
  /\ (forall m,
        isValid (SendTx.validateTransactionParams params) = true ->
        Encrypt.decrypt (encryptionKey cfg)
          (or_empty (tp_encryptedPrivateKey params)) = Throw m ->
        r = (Throw ("Transaction failed: " ++ m)%string, [])).
Proof.
  unfold SendTx.sendTransaction.
  destruct (isValid (SendTx.validateTransactionParams params)) eqn:Hv;
    cbn [negb].
  2:{ cbn [snd]. split; [left; reflexivity |].
      split; [intros H; contradiction H; reflexivity | discriminate]. }
  destruct (Encrypt.decrypt (encryptionKey cfg)
              (or_empty (tp_encryptedPrivateKey params))) as [pk | m0] eqn:Hd.
  2:{ cbn [snd]. split; [left; reflexivity |].
      split; [intros H; contradiction H; reflexivity |].
      intros m _ E. injection E as <-. reflexivity. }
  split.
  - repeat match goal with
           | |- context [if ?b then _ else _] => destruct b
           end; cbn [snd]; eauto.
  - split; [intros _; split; [reflexivity | eauto] | discriminate].
Qed.

(** What a planned Bitcoin send does with the value of its inputs: the
    inputs are distinct entries of the explorer's list, and their total is
    the amount, the reported fee and the change; the change is not
    negative, and when it is 546 satoshis or less no output carries it, so
    it is paid to the miners on top of the reported fee. *)
Theorem bitcoinPlan_conserves_value (utxos : list Utxo) (A r : Z)
  (to address : string) (plan : BitcoinPlan) :
  SendTx.bitcoinPlan utxos A r to address = Ok plan ->
  (exists unspent, Permutation (plan_selected plan ++ unspent) utxos)
  /\ plan_totalInput plan = SendTx.total (plan_selected plan)
  /\ plan_totalInput plan = (A + plan_fee plan + plan_change plan)%Z
  /\ (0 <= plan_change plan)%Z
  /\ let dust :=
       if (546 <? plan_change plan)%Z then 0%Z else plan_change plan in
     (outputs_total (plan_outputs plan) + plan_fee plan + dust
      = plan_totalInput plan)%Z
     /\ (0 <= dust <= 546)%Z.
Proof.
  unfold SendTx.bitcoinPlan.
  destruct (Nat.eqb (List.length utxos) 0); [discriminate |].
  pose proof (sort_desc_perm utxos) as Hperm.
  set (sorted := SendTx.sort_desc utxos) in *.
  assert (Hshape : exists k,
            SendTx.selectUtxos sorted A r 0%Z []
            = (SendTx.total (firstn k sorted), firstn k sorted)).
  { destruct (selectUtxos_spec sorted A r 0%Z [])
      as [(k & _ & _ & _ & Hsel) | (_ & Hsel)].
    - exists k. rewrite Hsel. reflexivity.
    - exists (List.length sorted). rewrite Hsel, firstn_all. reflexivity. }
  destruct Hshape as (k & ->).
  destruct (SendTx.total (firstn k sorted)
            <? A + SendTx.estimatedFee (List.length (firstn k sorted)) r)%Z
    eqn:Hlt; [discriminate |].
  apply Z.ltb_ge in Hlt. intros E. injection E as <-.
  cbn [plan_selected plan_totalInput plan_fee plan_change plan_outputs].
  split.
  { exists (skipn k sorted). rewrite firstn_skipn. exact Hperm. }
  split; [reflexivity |]. split; [lia |]. split; [lia |].
  destruct (546 <? SendTx.total (firstn k sorted) - A
                   - SendTx.estimatedFee (List.length (firstn k sorted)) r)%Z
    eqn:Hc; unfold outputs_total; cbn [fold_right snd].
  - apply Z.ltb_lt in Hc. split; lia.
  - apply Z.ltb_ge in Hc. split; lia.
Qed.

Lemma bitcoinPlan_conserves_value_witness :
  SendTx.bitcoinPlan
    [ {| txid := "a"; vout := 0%N; value := 1%Z |};
      {| txid := "b"; vout := 0%N; value := 5000%Z |} ]
    2500%Z 10%Z "bc1qrecipient" "bc1qsender"
  = Ok {| plan_selected := [ {| txid := "b"; vout := 0%N; value := 5000%Z |} ];
          plan_totalInput := 5000%Z;
          plan_fee := 2260%Z;
          plan_change := 240%Z;
          plan_outputs := [("bc1qrecipient", 2500%Z)] |}
  /\ (outputs_total [("bc1qrecipient", 2500%Z)] + 2260 + 240 = 5000)%Z.
Proof.
  split; [reflexivity |].
  exact (proj1 (proj2 (proj2 (proj2 (proj2
           (bitcoinPlan_conserves_value
              [ {| txid := "a"; vout := 0%N; value := 1%Z |};
                {| txid := "b"; vout := 0%N; value := 5000%Z |} ]
              2500%Z 10%Z "bc1qrecipient" "bc1qsender" _ eq_refl)))))).
Defined.

Lemma withBuffer_bounds (g : Z) :
  (0 <= g)%Z ->
  (g <= SendTxEvm.withBuffer g)%Z
  /\ (5 * SendTxEvm.withBuffer g <= 6 * g < 5 * (SendTxEvm.withBuffer g + 1))%Z
  /\ (SendTxEvm.withBuffer g = g <-> g < 5)%Z.
Proof.
  intros Hg. unfold SendTxEvm.withBuffer.
  pose proof (Z.div_mod (g * 120) 100 ltac:(lia)) as Hd.
  pose proof (Z.mod_pos_bound (g * 120) 100 ltac:(lia)) as Hm.
  repeat split; try lia.
Qed.

Lemma or_else_absent (gasLimit : option Z) (y : Z) :
  gasLimit = None \/ gasLimit = Some 0%Z -> SendTxEvm.or_else gasLimit y = y.
Proof. intros [-> | ->]; reflexivity. Qed.

(** The transaction [sendEthTransaction] hands to the signer goes to the
    recipient of the parameters, and its gas limit is the supplied one when
    that is not zero, and otherwise the node's estimate times 120 / 100 in
    integers: never below the estimate, never more than a fifth above it,
    and equal to it only for an estimate under 5.  A supplied gas limit of
    zero counts as absent. *)
Theorem sendEthTransaction_gas_limit (L : Library) (F : Formatting)
  (provider : EvmProvider) (params : TxParams) (gasPrice gasLimit : option Z)
  (result : EvmResult) :
  SendTxEvm.sendEthTransaction provider params gasPrice gasLimit = Ok result ->
  exists request transaction estimatedGas,
    let c := toLowerCase (tp_chain params) in
    let privateKey := or_empty (tp_privateKey params) in
    (if truthy_opt (tp_tokenAddress params)
     then contract_estimateGas_transfer provider c
            (or_empty (tp_tokenAddress params)) privateKey (tp_to params)
            (rq_value request) = Ok estimatedGas
          /\ contract_transfer provider c (or_empty (tp_tokenAddress params))
               privateKey request = Ok transaction
     else wallet_estimateGas provider c privateKey (tp_to params)
            (rq_value request) (rq_gasPrice request) = Ok estimatedGas
          /\ wallet_sendTransaction provider c privateKey request
             = Ok transaction)
    /\ er_txHash result = et_hash transaction
    /\ rq_to request = tp_to params
    /\ rq_gasLimit request
       = SendTxEvm.or_else gasLimit (SendTxEvm.withBuffer estimatedGas)
    /\ (gasLimit = None \/ gasLimit = Some 0%Z -> (0 <= estimatedGas)%Z ->
        (estimatedGas <= rq_gasLimit request)%Z
        /\ (5 * rq_gasLimit request <= 6 * estimatedGas)%Z
        /\ (rq_gasLimit request = estimatedGas <-> estimatedGas < 5)%Z).
Proof.
  unfold SendTxEvm.sendEthTransaction. intros H. apply rethrow_Ok in H.
  destruct (chains_lookup (toLowerCase (tp_chain params)))
    as [chainConfig | |] eqn:Hchain; try discriminate;
    (apply bind_Ok in H; destruct H as (wallet & _ & H);
     apply bind_Ok in H; destruct H as (transaction & Htx & H);
     injection H as <-; cbn [er_txHash];
     destruct (truthy_opt (tp_tokenAddress params));
     [ apply bind_Ok in Htx; destruct Htx as (decimals & _ & Htx);
       apply bind_Ok in Htx; destruct Htx as (amountWei & _ & Htx);
       apply bind_Ok in Htx; destruct Htx as (estimatedGas & Hest & Htx);
       apply bind_Ok in Htx; destruct Htx as (price & _ & Htx)
     | apply bind_Ok in Htx; destruct Htx as (amountWei & _ & Htx);
       apply bind_Ok in Htx; destruct Htx as (price & _ & Htx);
       apply bind_Ok in Htx; destruct Htx as (estimatedGas & Hest & Htx) ];
     eexists _, transaction, estimatedGas; cbv zeta;
     (refine (conj (conj _ Htx) _); [exact Hest |]);
     cbn [rq_to rq_gasLimit]; repeat split; try reflexivity;
     rewrite (or_else_absent _ _ H); apply withBuffer_bounds; assumption).
Qed.

Lemma sendEthTransaction_gas_limit_witness :
  exists result request transaction,
    SendTxEvm.sendEthTransaction (L := Reference.library)
      (F := Samples.formatting) Samples.provider Samples.native_send None
      None = Ok result
    /\ wallet_sendTransaction Samples.provider "ethereum" "0xK" request
       = Ok transaction
    /\ rq_gasLimit request = 25200%Z.
Proof.
  destruct (SendTxEvm.sendEthTransaction (L := Reference.library)
              (F := Samples.formatting) Samples.provider Samples.native_send
              None None) as [result |] eqn:E;
    [| vm_compute in E; discriminate].
  destruct (sendEthTransaction_gas_limit Reference.library Samples.formatting
              Samples.provider Samples.native_send None None result E)
    as (request & transaction & g & H).
  cbv zeta in H. cbn [Samples.native_send tp_tokenAddress truthy_opt] in H.
  destruct H as ((Hest & Hsend) & _ & _ & Hlimit & _).
  exists result, request, transaction. split; [reflexivity |].
  split; [exact Hsend |].
  cbn in Hest. injection Hest as <-. rewrite Hlimit. reflexivity.
Defined.

(** ** Balances and fee quotes (utils/getBalance.js, walletController.js) *)

Section BalanceQueries.
Context {L : Library} {F : Formatting}.

Lemma collectTokens_spec (read : string -> result TokenBalance)
  (table : list (string * string)) (symbol : string) (tb : TokenBalance) :
  In (symbol, tb) (Balances.collectTokens read table) <->
  exists tokenAddress,
    In (symbol, tokenAddress) table /\ read tokenAddress = Ok tb
    /\ Balances.positive_balance (tb_balance tb) = true.
Proof.
  induction table as [| [s a] table IH]; cbn [Balances.collectTokens].
  - split; [intros [] | intros (? & [] & _)].
  - destruct (read a) as [t |] eqn:Hr.
    + destruct (Balances.positive_balance (tb_balance t)) eqn:Hp.
      * cbn [In]. rewrite IH. split.
        -- intros [E | (a' & Hin & Hr' & Hp')].
           ++ injection E as <- <-. exists a. auto.
           ++ exists a'. auto.
        -- intros (a' & [E | Hin] & Hr' & Hp').
           ++ injection E as <- <-. left. congruence.
           ++ right. exists a'. auto.
      * rewrite IH. split.
        -- intros (a' & Hin & Hr' & Hp'). exists a'. cbn [In]. auto.
        -- intros (a' & [E | Hin] & Hr' & Hp').
           ++ injection E as <- <-. congruence.
           ++ exists a'. auto.
    + rewrite IH. split.
      * intros (a' & Hin & Hr' & Hp'). exists a'. cbn [In]. auto.
      * intros (a' & [E | Hin] & Hr' & Hp').
        -- injection E as <- <-. congruence.
        -- exists a'. auto.
Qed.

End BalanceQueries.

(** The balances of an EVM wallet: the call fails exactly when the native
    balance cannot be read; a token of the chain's table is listed exactly
    when its contract was read and the balance string parses to a positive
    number, so a failing token contract is skipped and never fails the
    call.  An alias is served like the chain and comes back as the chain of
    the answer. *)
Theorem getAllBalances_evm (L : Library) (F : Formatting)
  (backend : BalanceBackend) (address chain now : string)
  (name alias native_symbol : string) (table : list (string * string)) :
  In (name, alias, native_symbol, table)
    [ ("ethereum", "eth", "ETH", tokens_ethereum);
      ("bsc", "bnb", "BNB", tokens_bsc);
      ("polygon", "matic", "MATIC", tokens_polygon) ] ->
  toLowerCase chain = name \/ toLowerCase chain = alias ->
  match Balances.getEthCompatibleBalance (evm backend) address name with
  | Throw m =>
      Balances.getAllBalances backend address chain now
      = Throw ("Failed to get all balances: " ++ m)
  | Ok native =>
      exists b,
        Balances.getAllBalances backend address chain now = Ok b
        /\ cb_native b = native /\ cb_native_symbol b = native_symbol
        /\ cb_chain b = toLowerCase chain /\ cb_address b = address
        /\ forall symbol tb,
             In (symbol, tb) (cb_tokens b) <->
             exists tokenAddress,
               In (symbol, tokenAddress) table
               /\ Balances.getTokenBalance (evm backend) address tokenAddress
                    name = Ok tb
               /\ Balances.positive_balance (tb_balance tb) = true
  end.
Proof.
  intros Hf Hc. unfold Balances.getAllBalances.
  cbn [In] in Hf.
  destruct Hf as [E | [E | [E | []]]]; injection E as <- <- <- <-;
    destruct Hc as [Hc | Hc]; rewrite Hc;
    cbn [String.eqb Ascii.eqb Bool.eqb orb andb];
    (destruct (Balances.getEthCompatibleBalance (evm backend) address _)
       as [native | m]; cbn [bind rethrow]; [| reflexivity]);
    (eexists; split; [reflexivity |]);
    cbn [cb_native cb_native_symbol cb_chain cb_tokens cb_address];
    repeat split; intros H; apply collectTokens_spec; exact H.
Qed.

Lemma getAllBalances_evm_witness :
  match Balances.getEthCompatibleBalance (L := Reference.library)
          (F := Samples.formatting) (evm Samples.backend) "0xA" "ethereum" with
  | Throw m =>
      Balances.getAllBalances (L := Reference.library)
        (F := Samples.formatting) Samples.backend "0xA" "eth" "now"
      = Throw ("Failed to get all balances: " ++ m)
  | Ok native =>
      exists b,
        Balances.getAllBalances (L := Reference.library)
          (F := Samples.formatting) Samples.backend "0xA" "eth" "now" = Ok b
        /\ cb_native b = native /\ cb_native_symbol b = "ETH"
        /\ cb_chain b = @toLowerCase Reference.library "eth"
        /\ cb_address b = "0xA"
        /\ forall symbol tb,
             In (symbol, tb) (cb_tokens b) <->
             exists tokenAddress,
               In (symbol, tokenAddress) tokens_ethereum
               /\ Balances.getTokenBalance (L := Reference.library)
                    (F := Samples.formatting) (evm Samples.backend) "0xA"
                    tokenAddress "ethereum" = Ok tb
               /\ Balances.positive_balance (L := Reference.library)
                    (tb_balance tb) = true
  end.
Proof.
  apply (getAllBalances_evm Reference.library Samples.formatting
           Samples.backend "0xA" "eth" "now" "ethereum" "eth" "ETH"
           tokens_ethereum).
  - left. reflexivity.
  - right. reflexivity.
Defined.

(** The balances handler always answers 200: [getAllChainsBalances] turns
    the failure of a chain into the entry [{ error }] of that chain.  Shown
    on the Bitcoin entry of an account with a Bitcoin address: explorer
    data give the funded total as the native balance and no tokens, a 404
    of the explorer gives the balance zero, and any other failure of the
    explorer gives the error entry. *)
Theorem getBalances_bitcoin_entry (L : Library) (F : Formatting)
  (backend : BalanceBackend) (user : Document) (now addr : string) :
  toLowerCase "bitcoin" = "bitcoin" ->
  address (bitcoin (wallets (fields user))) = Some addr -> addr <> "" ->
  exists balances,
    WalletQueries.getBalances backend user now
    = succeed 200 "Balances retrieved successfully" balances
    /\ match btc_explorer backend false addr with
       | AxiosData d =>
           exists b,
             acb_bitcoin balances = Some (Balances b)
             /\ cb_native b
                = number_toString
                    (inject_Z (funded_txo_sum (chain_stats d)) / 100000000)%Q
             /\ cb_tokens b = [] /\ cb_address b = addr
       | AxiosStatus code msg =>
           if Nat.eqb code 404
           then exists b,
                  acb_bitcoin balances = Some (Balances b)
                  /\ cb_native b = number_toString 0%Q /\ cb_tokens b = []
           else acb_bitcoin balances
                = Some (BalanceError
                          ("Failed to get all balances: "
                           ++ "Failed to get Bitcoin balance: " ++ msg))
       | AxiosNoResponse msg =>
           acb_bitcoin balances
           = Some (BalanceError
                     ("Failed to get all balances: "
                      ++ "Failed to get Bitcoin balance: " ++ msg))
       end.
Proof.
  intros Hlow Haddr Hne. apply truthy_true_iff in Hne.
  unfold WalletQueries.getBalances, Balances.getAllChainsBalances.
  cbn [rethrow]. eexists. split; [reflexivity |].
  cbn [acb_bitcoin]. rewrite Haddr. cbn [truthy_opt or_empty]. rewrite Hne.
  unfold Balances.getAllBalances. rewrite Hlow.
  cbn [String.eqb Ascii.eqb Bool.eqb orb andb].
  unfold GetBalance.getBitcoinBalance.
  destruct (btc_explorer backend false addr) as [d | code msg | msg].
  - cbn. eexists. repeat split.
  - destruct (Nat.eqb code 404); cbn; [eexists; repeat split | reflexivity].
  - reflexivity.
Qed.

Lemma getBalances_bitcoin_entry_witness :
  exists balances,
    WalletQueries.getBalances (L := Reference.library)
      (F := Samples.formatting) Samples.backend
      {| selection := WithoutCredentials; fields := Reference.alice |} "now"
    = succeed 200 "Balances retrieved successfully" balances
    /\ exists b,
         acb_bitcoin balances = Some (Balances b)
         /\ cb_native b = "1" /\ cb_tokens b = [].
Proof.
  destruct (getBalances_bitcoin_entry Reference.library Samples.formatting
              Samples.backend
              {| selection := WithoutCredentials; fields := Reference.alice |}
              "now" "addr-alice-btc" eq_refl eq_refl)
    as (balances & Hb & He).
  - discriminate.
  - exists balances. split; [exact Hb |].
    cbn [Samples.backend btc_explorer] in He.
    destruct He as (b & E & Hn & Ht & _).
    exists b. split; [exact E |]. split; [| exact Ht].
    rewrite Hn. vm_compute. reflexivity.
Defined.

(** The balance of the Tron chain through the handler, for an account with
    a Tron address and either name of the chain: an account the node knows
    gives its balance in TRX (a missing [balance] is zero) and the TRC20
    tokens that were read with a positive balance; an error of the node
    that says "account not found" gives the balance zero and not a failure;
    any other error of the node is answered with 500. *)
Theorem getChainBalance_tron (L : Library) (F : Formatting)
  (backend : BalanceBackend) (user : Document) (chain now addr : string) :
  chain <> "" ->
  toLowerCase chain = "tron" \/ toLowerCase chain = "trx" ->
  address (tron (wallets (fields user))) = Some addr -> addr <> "" ->
  let answer := WalletQueries.getChainBalance backend user (Some chain) now in
  match trx_getAccount (tron_node backend) addr with
  | Ok account =>
      exists b,
        status answer = 200 /\ data answer = Some b
        /\ cb_native b
           = number_toString
               (inject_Z (Balances.or_zero (ta_balance account)) / 1000000)%Q
        /\ cb_bandwidth b = Some (Balances.or_zero (ta_bandwidth account))
        /\ cb_energy b = Some (Balances.or_zero (ta_energy account))
        /\ forall symbol tb,
             In (symbol, tb) (cb_tokens b) <->
             exists tokenAddress,
               In (symbol, tokenAddress) tokens_tron
               /\ Balances.getTRC20Balance (tron_node backend) addr
                    tokenAddress = Ok tb
               /\ Balances.positive_balance (tb_balance tb) = true
  | Throw message =>
      if string_includes message "account not found"
      then exists b,
             status answer = 200 /\ data answer = Some b
             /\ cb_native b = number_toString 0%Q
             /\ cb_bandwidth b = Some 0%Z /\ cb_energy b = Some 0%Z
      else answer = failure 500 ("Failed to retrieve " ++ chain ++ " balance")
  end.
Proof.
  intros Hchain Hc Haddr Hne answer. subst answer.
  apply truthy_true_iff in Hchain, Hne.
  unfold WalletQueries.getChainBalance, UserWallets.getWalletAddress,
    WalletController.includes.
  cbn [truthy_opt or_empty]. rewrite Hchain. cbn [negb].
  unfold Balances.getAllBalances, Balances.getTronBalance.
  destruct Hc as [Hc | Hc]; rewrite Hc;
    cbn [existsb String.eqb Ascii.eqb Bool.eqb orb andb];
    rewrite Haddr; cbn [truthy_opt or_empty]; rewrite Hne; cbn [negb];
    (destruct (trx_getAccount (tron_node backend) addr) as [account | message];
     [| destruct (string_includes message "account not found")]);
    cbn [bind rethrow status data succeed failure];
    try reflexivity;
    eexists; cbn [cb_native cb_bandwidth cb_energy cb_tokens trb_balance
                  trb_bandwidth trb_energy];
    repeat split; intros H; apply collectTokens_spec; exact H.
Qed.

Lemma getChainBalance_tron_witness :
  exists b,
    status (WalletQueries.getChainBalance (L := Reference.library)
              (F := Samples.formatting) Samples.backend
              {| selection := WithoutCredentials; fields := Reference.alice |}
              (Some "trx") "now") = 200
    /\ data (WalletQueries.getChainBalance (L := Reference.library)
               (F := Samples.formatting) Samples.backend
               {| selection := WithoutCredentials;
                  fields := Reference.alice |}
               (Some "trx") "now") = Some b
    /\ cb_native b = "0".
Proof.
  pose proof (getChainBalance_tron Reference.library Samples.formatting
                Samples.backend
                {| selection := WithoutCredentials; fields := Reference.alice |}
                "trx" "now" "addr-alice-tron") as H.
  cbv zeta in H. cbn [Samples.backend tron_node trx_getAccount] in H.
  change (string_includes "class X: account not found" "account not found")
    with true in H. cbv iota in H.
  destruct H as (b & Hs & Hd & Hn & _).
  - discriminate.
  - right. reflexivity.
  - reflexivity.
  - discriminate.
  - exists b. split; [exact Hs |]. split; [exact Hd |].
    rewrite Hn. vm_compute. reflexivity.
Defined.


(** [estimateTransactionFee] knows the five canonical chain names only:
    under the aliases eth, bnb, matic, btc and trx, for which [sendCrypto]
    finds a wallet, [estimateFee] answers 500. *)
Theorem estimateFee_rejects_aliases (L : Library) (F : Formatting)
  (cfg : Config) (provider : EvmProvider) (body : EstimateRequest)
  (numericAmount : Q) (user : User) :
  truthy_opt (eq_chain body) = true ->
  truthy_opt (eq_recipient body) = true ->
  truthy_opt (eq_amount body) = true ->
  parseFloat (eq_amount body) = Some numericAmount ->
  Qle_bool numericAmount 0 = false ->
  In (toLowerCase (or_empty (eq_chain body)))
    ["eth"; "bnb"; "matic"; "btc"; "trx"] ->
  WalletQueries.estimateFee cfg provider body
  = failure 500 "Fee estimation failed"
  /\ WalletController.walletFor user (toLowerCase (or_empty (eq_chain body)))
     <> None.
Proof.
  intros Hc Hr Ha Hp Hq Hal.
  unfold WalletQueries.estimateFee, SendTxEvm.estimateTransactionFee,
    WalletController.walletFor.
  rewrite Hc, Hr, Ha, Hp, Hq. cbn [negb orb tp_chain].
  cbn [In] in Hal.
  destruct Hal as [<- | [<- | [<- | [<- | [<- | []]]]]];
    (split; [reflexivity | discriminate]).
Qed.

Lemma estimateFee_rejects_aliases_witness :
  WalletQueries.estimateFee (L := Reference.library) (F := Samples.formatting)
    Reference.config Samples.provider Samples.alias_quote
  = failure 500 "Fee estimation failed"
  /\ WalletController.walletFor Reference.alice
       (@toLowerCase Reference.library
          (or_empty (eq_chain Samples.alias_quote))) <> None.
Proof.
  apply (estimateFee_rejects_aliases Reference.library Samples.formatting
           Reference.config Samples.provider Samples.alias_quote 5
           Reference.alice); try reflexivity.
  left. reflexivity.
Defined.

(** The platform fee [estimateFee] quotes is the fee [sendCrypto] takes
    for the same amount under the same configuration: it is the amount
    required in the insufficient-fee answer and the fee of a successful
    send. *)
Theorem estimateFee_quotes_send_fee (L : Library) (F : Formatting)
  (cfg : Config) (provider : EvmProvider) (quote : EstimateRequest)
  (quoted : EstimateData)
  (sendTransaction : TxParams -> result TxResult * list ChainCall)
  (user : Document) (body : SendRequest) (store : list User)
  (numericAmount : Q) (wallet : WalletRecord) :
  data (WalletQueries.estimateFee cfg provider quote) = Some quoted ->
  eq_amount quote = sr_amount body ->
  WalletController.reaches_fee_check user body numericAmount wallet ->
  let r := WalletController.sendCrypto_with sendTransaction cfg user body
             store in
  ed_platformFee_amount quoted = WalletController.feeAmount cfg numericAmount
  /\ ed_total_platformFee quoted = ed_platformFee_amount quoted
  /\ (forall required, res_required (fst (fst r)) = Some required ->
        required = ed_platformFee_amount quoted)
  /\ (forall sent, data (fst (fst r)) = Some sent ->
        sd_feeAmount sent = ed_platformFee_amount quoted).
Proof.
  intros Hq Ham (Hct & Hch & Hrc & Hamt & Hp & Hpos & Hw & Hk) r.
  assert (Hfee : ed_platformFee_amount quoted
                 = WalletController.feeAmount cfg numericAmount
                 /\ ed_total_platformFee quoted = ed_platformFee_amount quoted).
  { unfold WalletQueries.estimateFee in Hq.
    destruct (negb (truthy_opt (eq_chain quote))
              || negb (truthy_opt (eq_recipient quote))
              || negb (truthy_opt (eq_amount quote))); [discriminate |].
    rewrite Ham, Hp, Hpos in Hq.
    destruct (SendTxEvm.estimateTransactionFee provider _); [| discriminate].
    injection Hq as <-. split; reflexivity. }
  destruct Hfee as [Hfee Htot]. split; [exact Hfee |]. split; [exact Htot |].
  subst r. unfold WalletController.sendCrypto_with.
  rewrite Hct, Hch, Hrc, Hamt, Hp, Hpos. cbn [negb orb].
  rewrite Hw, Hk. cbn [negb]. rewrite Hfee.
  destruct (WalletController.Qlt_bool _ _).
  - cbn [fst res_required data WalletController.insufficientFee].
    split; [intros required E; injection E as <-; reflexivity | discriminate].
  - destruct (sendTransaction _) as [[txResult | m] calls];
      cbn [fst res_required data succeed failure].
    + split; [discriminate |].
      intros sent E. injection E as <-. reflexivity.
    + split; discriminate.
Qed.

Lemma estimateFee_quotes_send_fee_witness :
  exists quoted,
    data (WalletQueries.estimateFee (L := Reference.library)
            (F := Samples.formatting) Reference.config Samples.provider
            Samples.bitcoin_quote) = Some quoted
    /\ ed_platformFee_amount quoted
       = WalletController.feeAmount (L := Reference.library)
           Reference.config 100
    /\ res_required
         (fst (fst (WalletController.sendCrypto (L := Reference.library)
                      Reference.config Reference.chains
                      {| selection := WithoutCredentials;
                         fields := Reference.alice |}
                      Reference.send_request Reference.store)))
       = Some (ed_platformFee_amount quoted).
Proof.
  destruct (data (WalletQueries.estimateFee (L := Reference.library)
                    (F := Samples.formatting) Reference.config
                    Samples.provider Samples.bitcoin_quote))
    as [quoted |] eqn:E; [| vm_compute in E; discriminate].
  exists quoted. split; [reflexivity |].
  destruct (estimateFee_quotes_send_fee Reference.library Samples.formatting
              Reference.config Samples.provider Samples.bitcoin_quote quoted
              (SendTx.sendTransaction (L := Reference.library)
                 Reference.config Reference.chains)
              {| selection := WithoutCredentials; fields := Reference.alice |}
              Reference.send_request Reference.store 100
              (bitcoin (wallets Reference.alice)) E eq_refl)
    as (Hfee & _ & Hreq & _).
  - repeat split; reflexivity.
  - split; [exact Hfee |].
    unfold WalletController.sendCrypto.
    destruct (res_required _) as [required |] eqn:Er;
      [| vm_compute in Er; discriminate].
    rewrite (Hreq required eq_refl). reflexivity.
Defined.

(** ** Runs of the model on the reference instance *)

Example login_alice_succeeds :
  let r :=
    AuthController.login (L := Reference.library) Reference.config
      Reference.login_alice 1700000000%Z Reference.store in
  status (fst r) = 200
  /\ option_map ld_id (data (fst r)) = Some "u1"
  /\ option_map lastLogin (UserModel.findById (snd r) "u1")
     = Some (Some 1700000000%Z)
  /\ option_map lastLogin (UserModel.findById (snd r) "u2") = Some None.
Proof. repeat split. Qed.

Example login_crossed_factors_refused :
  AuthController.login (L := Reference.library) Reference.config
    Reference.login_crossed 1700000000%Z Reference.store
  = (failure 401 "Invalid credentials", Reference.store).
Proof. reflexivity. Qed.

Example validateDeviceInfo_short_deviceId :
  VerifyDevice.validateDeviceInfo
    (Some {| deviceId := Some "short"; platform := None; model := None;
             version := None; fingerprint := None; userAgent := None;
             screenResolution := None; timezone := None; language := None |})
  = {| isValid := false;
       errors := [ "Device ID must be at least 10 characters long";
                   "Platform is required and must be a string" ] |}.
Proof. reflexivity. Qed.

Example sort_desc_is_stable :
  SendTx.sort_desc
    [ {| txid := "a"; vout := 0%N; value := 7%Z |};
      {| txid := "b"; vout := 0%N; value := 9%Z |};
      {| txid := "c"; vout := 1%N; value := 7%Z |} ]
  = [ {| txid := "b"; vout := 0%N; value := 9%Z |};
      {| txid := "a"; vout := 0%N; value := 7%Z |};
      {| txid := "c"; vout := 1%N; value := 7%Z |} ].
Proof. reflexivity. Qed.

Example register_carol_persists_envelopes :
  let r :=
    AuthController.register (L := Reference.library) Reference.config
      Reference.registration Reference.register_entropy Reference.store in
  status (fst r) = 201
  /\ List.length (snd r) = 3
  /\ option_map rd_walletAddresses (data (fst r))
     = Some {| wa_ethereum := Some "0xA7";
               wa_bitcoin :=
                 Some (payments_p2wpkh (Library := Reference.library)
                         (map Reference.flip (list_byte_of_string "5e_btc")));
               wa_tron := Some "T5e_tron" |}.
Proof. repeat split. Qed.

Example register_padded_name_refused :
  AuthController.register (L := Reference.library) Reference.config
    Samples.padded_registration Reference.register_entropy Reference.store
  = (failure 409 "Username already exists", Reference.store).
Proof. reflexivity. Qed.

(** Lengths are counted in UTF-16 units: five accented letters are ten
    bytes and too short a deviceId, ten are enough; sixteen of them are
    thirty-two bytes and too short a key. *)
Example lengths_in_utf16_units :
  isValid (VerifyDevice.validateDeviceInfo
             (Some (Samples.device_accented 5))) = false
  /\ isValid (VerifyDevice.validateDeviceInfo
                (Some (Samples.device_accented 10))) = true
  /\ Encrypt.key_invalid (Some (Samples.copies 16 Samples.e_acute)) = true.
Proof. repeat split. Qed.

(** The fee under the default percentage, in doubles: a credit of 0.011
    covers a send of 11, a credit of 0.009 does not cover a send of 9, and
    0.29 coins are 28999999 satoshis. *)
Example fee_and_satoshis_in_doubles :
  let fee :=
    WalletController.feeAmount (L := Reference.library) Reference.config in
  WalletController.Qlt_bool (round64 (11 # 1000)) (fee 11%Q) = false
  /\ WalletController.Qlt_bool (round64 (9 # 1000)) (fee 9%Q) = true
  /\ Qfloor (number_mul (round64 (29 # 100)) 100000000) = 28999999%Z.
Proof. vm_compute. repeat split. Qed.

(** A blob of eighty bytes has no tag: [setAuthTag] refuses it. *)
Example decrypt_blob_without_tag :
  Encrypt.decrypt (L := Reference.library) (encryptionKey Reference.config)
    (string_of_list_byte (repeat x00 80))
  = Throw "Decryption failed: Invalid authentication tag length: 0".
Proof. reflexivity. Qed.

(** Without a JWT secret the token cannot be signed: a login that passes
    every check is answered 500 after its two timestamps were written, and
    a registration is answered 500 after the account was stored. *)
Example handlers_without_jwt_secret :
  let l :=
    AuthController.login (L := Reference.library)
      Samples.config_without_secret Reference.login_alice 1700000000%Z
      Reference.store in
  let r :=
    AuthController.register (L := Reference.library)
      Samples.config_without_secret Reference.registration
      Reference.register_entropy Reference.store in
  fst l = failure 500 "Login failed"
  /\ option_map lastLogin (UserModel.findById (snd l) "u1")
     = Some (Some 1700000000%Z)
  /\ fst r = failure 500 "Registration failed"
  /\ option_map username (UserModel.findById (snd r) "u3") = Some "carol".
Proof. repeat split. Qed.
